(** * ELAM-RA backend: price versioning, margin calculator, CSRF gate,
      market hours and user deletion; rate limiting, sanitization,
      validators, login lockout, settings and the gold price handlers

    A shallow embedding of the model layer of the storefront backend
    (models/GoldPrice.js, models/CurrencyRate.js, models/StoreSettings.js,
    models/User.js), of the security middleware and the [Security] class
    (middleware/security.js) and of the handlers that write gold prices
    (controllers/goldController.js).

    Modelling conventions.
    - A JavaScript number is an IEEE-754 binary64 value: [spec_float] at
      precision 53 and maximal exponent 1024, with the library's correctly
      rounded operations.
    - The SQL statements are read by their relational meaning.  A price
      table is the list of its rows; a table that the code only reaches
      through its primary key ([gold_types], [currencies], [users]) is a
      finite map from the key.  [datetime('now')] is the clock reading
      handed to the statement; a timestamp is the number of seconds it
      denotes, so that comparing timestamps is comparing instants.
    - Of the schema's constraints, the model enforces those that the data
      of a price can violate: the INSERT of a price row is refused when the
      instrument or a price is NULL (NOT NULL) or when the instrument is
      not a row of its table (FOREIGN KEY).  The actor of a write is the
      session's user or null, so the FOREIGN KEYs on [updated_by] and
      [user_id] are met.  Column types and CHECK constraints are not
      modelled: a column stores the parameter it is given.
    - An [async] method is a function from the database state to an
      outcome and a new state; a method that throws answers [Throw] and
      keeps the writes made before the exception.
    - [Date.now()] and the lock and login times of the users table are
      integers, in milliseconds.  A string is the sequence of its code
      units, taken among the 256 values of [ascii].
    - What the code delegates to a library ([bcrypt], [parseFloat] and
      [Number] on strings, [String] on a number that is not a safe
      integer, [JSON.parse], [JSON.stringify]) is a parameter of the
      model, and so is the engine's limit on the length of a string.
    - The file has two parts: the model and the vocabulary of the
      statements first, then the lemmas and theorems. *)

From Stdlib Require Import ZArith Lia Bool Ascii String.
From Stdlib Require Import Floats.SpecFloat.
From Stdlib Require Import DecimalString DecimalPos.
From stdpp Require Import base option list gmap strings.

Local Open Scope Z_scope.

(** ** JavaScript numbers and the primitive values handled by the models *)

Module JS.

Definition number : Type := spec_float.

Definition prec : Z := 53.
Definition emax : Z := 1024.

Definition fadd : number -> number -> number := SFadd prec emax.
Definition fsub : number -> number -> number := SFsub prec emax.
Definition fmul : number -> number -> number := SFmul prec emax.
Definition fdiv : number -> number -> number := SFdiv prec emax.

Definition NaN : number := S754_nan.
Definition Infinity : number := S754_infinity false.
Definition pzero : number := S754_zero false.
Definition nzero : number := S754_zero true.

(** The number denoted by an integer literal. *)
Definition of_Z (z : Z) : number := binary_normalize prec emax z 0 false.

(** The number denoted by the decimal literal [m / 10^k]: the quotient of
    two exactly representable integers, correctly rounded, which is how a
    decimal literal such as [0.02] is read. *)
Definition dec (m : Z) (k : Z) : number := fdiv (of_Z m) (of_Z (10 ^ k)).

Definition is_nan (x : number) : bool :=
  match x with S754_nan => true | _ => false end.

Definition is_zero (x : number) : bool :=
  match x with S754_zero _ => true | _ => false end.

Definition is_finite (x : number) : bool :=
  match x with S754_zero _ | S754_finite _ _ _ => true | _ => false end.

(** [Math.round]: the integral number closest to [x], the one closer to
    +Infinity on a tie; NaN, the infinities and the zeros are returned
    as they are, and a negative [x] that rounds to zero gives [-0].
    For a finite [x = ±m·2^e] with [e < 0] this is [floor (x + 1/2)],
    computed exactly on integers. *)
Definition round_half_up (s : bool) (m : positive) (e : Z) : Z :=
  (2 * cond_Zopp s (Zpos m) + 2 ^ (- e)) / 2 ^ (1 - e).

Definition Math_round (x : number) : number :=
  match x with
  | S754_finite s m e =>
      if 0 <=? e then x
      else binary_normalize prec emax (round_half_up s m e) 0 s
  | _ => x
  end.

(** The primitive values that reach the price models: the controllers hand
    over [parseFloat] results, booleans and absent fields, and the driver
    returns numbers, booleans and NULL.  String-valued fields are outside
    this type. *)
Inductive jsval : Type :=
  | JUndefined
  | JNull
  | JBool (b : bool)
  | JNum (x : number).

Definition ToBoolean (v : jsval) : bool :=
  match v with
  | JUndefined | JNull => false
  | JBool b => b
  | JNum x => negb (is_zero x || is_nan x)
  end.

Definition ToNumber (v : jsval) : number :=
  match v with
  | JUndefined => NaN
  | JNull => pzero
  | JBool true => of_Z 1
  | JBool false => pzero
  | JNum x => x
  end.

(** [a || b] *)
Definition js_or (a b : jsval) : jsval := if ToBoolean a then a else b.

(** [a !== undefined] *)
Definition is_defined (a : jsval) : bool :=
  match a with JUndefined => false | _ => true end.

(** [a - b], [a * b], [a / b]; and [a + b], which on these string-free
    primitives is numeric addition too. *)
Definition js_sub (a b : jsval) : number := fsub (ToNumber a) (ToNumber b).
Definition js_mul (a b : jsval) : number := fmul (ToNumber a) (ToNumber b).
Definition js_div (a b : jsval) : number := fdiv (ToNumber a) (ToNumber b).
Definition js_add (a b : jsval) : number := fadd (ToNumber a) (ToNumber b).

(** [x || 0] on a number. *)
Definition or_zero (x : number) : number :=
  if is_zero x || is_nan x then pzero else x.

(** [v ? 1 : 0] *)
Definition flag (v : jsval) : jsval :=
  if ToBoolean v then JNum (of_Z 1) else JNum pzero.

(** [===] on these primitives. *)
Definition num_eqb (x y : number) : bool := SFeqb x y.

Definition strict_eq (a b : jsval) : bool :=
  match a, b with
  | JUndefined, JUndefined => true
  | JNull, JNull => true
  | JBool x, JBool y => Bool.eqb x y
  | JNum x, JNum y => num_eqb x y
  | _, _ => false
  end.

End JS.

Import JS.

(** ** Computations of the model layer: database state and exceptions *)

Inductive outcome (A : Type) : Type :=
  | Return (a : A)
  | Throw (msg : string).
Arguments Return {A} a.
Arguments Throw {A} msg.

Definition M (S A : Type) : Type := S -> outcome A * S.

Definition ret {S A : Type} (a : A) : M S A := fun s => (Return a, s).

Definition throw {S A : Type} (msg : string) : M S A := fun s => (Throw msg, s).

Definition bind {S A B : Type} (c : M S A) (k : A -> M S B) : M S B :=
  fun s =>
    match c s with
    | (Return a, s') => k a s'
    | (Throw msg, s') => (Throw msg, s')
    end.

Definition modify {S : Type} (f : S -> S) : M S unit := fun s => (Return tt, f s).

Definition gets {S A : Type} (f : S -> A) : M S A := fun s => (Return (f s), s).

Notation "'let*' x ':=' c 'in' k" := (bind c (fun x => k))
  (at level 10, x name, c at level 100, k at level 200).

(** [x || null] on an integer key: 0 is falsy. *)
Definition nz (z : Z) : option Z := if z =? 0 then None else Some z.

(** [db.run] answers [{ id: res.rows[0]?.id || null, changes }].  The rows
    of a statement are the ones its RETURNING clause yields. *)
Definition run_id (returned_ids : list Z) : option Z :=
  match returned_ids with
  | i :: _ => nz i
  | [] => None
  end.

(** ** The price version store (models/GoldPrice.js, models/CurrencyRate.js)

    The two classes are the same code up to the names of the table and of
    its columns ([gold_prices]/[currency_rates], [gold_type_id]/
    [currency_id], [buy_price]/[buy_rate], ...), so one model serves both,
    indexed by the [kind] of instrument. *)

Module PriceModel.

Inductive kind : Type := Gold | Currency.

#[export] Instance kind_eq_dec : EqDecision kind.
Proof. solve_decision. Defined.

(** A row of [gold_types] / [currencies], looked up by its primary key. *)
Record instrument_row : Type := mkInstrument {
  ins_code : string;        (* currencies.code; karat label for gold *)
  ins_name : string;        (* name_ar *)
  ins_active : bool
}.

(** A row of [gold_prices] / [currency_rates]. *)
Record price_row : Type := mkRow {
  row_id : Z;
  instrument_id : option Z;          (* gold_type_id / currency_id *)
  buy_price : jsval;
  sell_price : jsval;
  row_spread : jsval;
  margin_buy : jsval;
  margin_sell : jsval;
  is_manual : jsval;
  updated_by : option Z;
  effective_from : Z;
  effective_until : option Z;        (* NULL: the record is open *)
  created_at : Z
}.

(** The argument object of [create] and [update]. *)
Record priceData : Type := mkData {
  dInstrumentId : option Z;          (* goldTypeId / currencyId *)
  dBuyPrice : jsval;                 (* buyPrice / buyRate *)
  dSellPrice : jsval;                (* sellPrice / sellRate *)
  dMarginBuy : jsval;
  dMarginSell : jsval;
  dIsManual : jsval
}.

(** An instance of the class [GoldPrice] / [CurrencyRate]. *)
Record PriceObject : Type := mkObject {
  objId : option Z;
  instrumentId : option Z;
  buyPrice : jsval;
  sellPrice : jsval;
  spread : jsval;
  marginBuy : jsval;
  marginSell : jsval;
  isManual : jsval;
  updatedBy : option Z;
  effectiveFrom : option Z;
  effectiveUntil : option Z;
  createdAt : option Z;
  instrumentCode : option string;
  instrumentName : option string
}.

(** What [logChange] serialises into [audit_log.new_values]. *)
Inductive details : Type :=
  | DData (d : priceData)
  | DObject (o : PriceObject).

Record audit_row : Type := mkAudit {
  a_user_id : option Z;
  a_action : string;
  a_entity_type : string;
  a_entity_id : option Z;
  a_new_values : details
}.

Record database : Type := mkDb {
  gold_types : gmap Z instrument_row;
  gold_prices : list price_row;
  gold_prices_seq : Z;               (* next value of the SERIAL id *)
  currencies : gmap Z instrument_row;
  currency_rates : list price_row;
  currency_rates_seq : Z;
  audit_log : list audit_row
}.

Definition instruments (k : kind) (db : database) : gmap Z instrument_row :=
  match k with Gold => gold_types db | Currency => currencies db end.

Definition prices (k : kind) (db : database) : list price_row :=
  match k with Gold => gold_prices db | Currency => currency_rates db end.

Definition seq_value (k : kind) (db : database) : Z :=
  match k with Gold => gold_prices_seq db | Currency => currency_rates_seq db end.

Definition set_prices (k : kind) (rows : list price_row) (db : database) : database :=
  match k with
  | Gold => mkDb (gold_types db) rows (gold_prices_seq db)
                 (currencies db) (currency_rates db) (currency_rates_seq db)
                 (audit_log db)
  | Currency => mkDb (gold_types db) (gold_prices db) (gold_prices_seq db)
                     (currencies db) rows (currency_rates_seq db)
                     (audit_log db)
  end.

Definition set_seq (k : kind) (n : Z) (db : database) : database :=
  match k with
  | Gold => mkDb (gold_types db) (gold_prices db) n
                 (currencies db) (currency_rates db) (currency_rates_seq db)
                 (audit_log db)
  | Currency => mkDb (gold_types db) (gold_prices db) (gold_prices_seq db)
                     (currencies db) (currency_rates db) n
                     (audit_log db)
  end.

Definition add_audit (a : audit_row) (db : database) : database :=
  mkDb (gold_types db) (gold_prices db) (gold_prices_seq db)
       (currencies db) (currency_rates db) (currency_rates_seq db)
       (audit_log db ++ [a]).

Definition entity_type (k : kind) : string :=
  match k with Gold => "GOLD_PRICE" | Currency => "CURRENCY_RATE" end.

Definition not_found (k : kind) : string :=
  match k with
  | Gold => "Gold price not found"
  | Currency => "Currency rate not found"
  end.

(** A statement parameter: SQL has no [undefined], it is bound as NULL. *)
Definition param (v : jsval) : jsval :=
  match v with JUndefined => JNull | _ => v end.

(** [column = ?] on a nullable integer column: NULL equals nothing. *)
Definition sql_eq (c p : option Z) : bool :=
  match c, p with
  | Some a, Some b => a =? b
  | _, _ => false
  end.

Definition or_null (s : string) : option string :=
  if String.eqb s EmptyString then None else Some s.

(** The constructor, applied to a price row joined with its instrument. *)
Definition construct (r : price_row) (g : instrument_row) : PriceObject :=
  {| objId := nz (row_id r);
     instrumentId := from_option nz None (instrument_id r);
     buyPrice := js_or (buy_price r) (JNum pzero);
     sellPrice := js_or (sell_price r) (JNum pzero);
     spread := js_or (row_spread r) (JNum pzero);
     marginBuy := js_or (margin_buy r) (JNum pzero);
     marginSell := js_or (margin_sell r) (JNum pzero);
     isManual := js_or (is_manual r) (JBool false);
     updatedBy := from_option nz None (updated_by r);
     effectiveFrom := Some (effective_from r);
     effectiveUntil := effective_until r;
     createdAt := Some (created_at r);
     instrumentCode := or_null (ins_code g);
     instrumentName := or_null (ins_name g) |}.

(** *** Instance methods: the margin / rate calculator *)

Definition is_buy (type : string) : bool := String.eqb type "buy".

Definition calculateSpread (o : PriceObject) : number :=
  js_sub (sellPrice o) (buyPrice o).

Definition calculateMargin (o : PriceObject) (type : string) : number :=
  let price := if is_buy type then buyPrice o else sellPrice o in
  let margin := if is_buy type then marginBuy o else marginSell o in
  js_mul price margin.

(** [getFinalPrice] / [getFinalRate] *)
Definition getFinalPrice (o : PriceObject) (type : string) : number :=
  let price := if is_buy type then buyPrice o else sellPrice o in
  let margin := calculateMargin o type in
  if is_buy type then js_add price (JNum margin) else js_sub price (JNum margin).

Definition getFinalRate : PriceObject -> string -> number := getFinalPrice.

Definition convertFromBase (o : PriceObject) (amount : number) (type : string) : number :=
  fmul amount (getFinalPrice o type).

Definition convertToBase (o : PriceObject) (amount : number) (type : string) : number :=
  fdiv amount (getFinalPrice o type).

(** *** Static methods: queries *)

(** [FROM prices gp JOIN instruments gt ON gp.instrument_id = gt.id]: the
    instrument key is a primary key, so a price row joins with at most one
    instrument row, and with none when its instrument is missing. *)
Definition joined (k : kind) (db : database) (r : price_row)
  : option (price_row * instrument_row) :=
  match instrument_id r with
  | Some gid =>
      match instruments k db !! gid with
      | Some g => Some (r, g)
      | None => None
      end
  | None => None
  end.

Definition join (k : kind) (db : database) : list (price_row * instrument_row) :=
  omap (joined k db) (prices k db).

(** [db.get]: the first row of the result, or [undefined]. *)
Definition first_object (rows : list (price_row * instrument_row)) : option PriceObject :=
  match rows with
  | (r, g) :: _ => Some (construct r g)
  | [] => None
  end.

Definition findById (k : kind) (id : option Z) : M database (option PriceObject) :=
  gets (fun db =>
    first_object (List.filter (fun x => sql_eq (Some (row_id x.1)) id) (join k db))).

(** [effective_from <= now AND (effective_until IS NULL OR effective_until > now)] *)
Definition current_at (now : Z) (r : price_row) : bool :=
  (effective_from r <=? now) &&
  match effective_until r with
  | None => true
  | Some u => now <? u
  end.

(** [ORDER BY effective_from DESC LIMIT 1]: a row of greatest
    [effective_from].  SQL leaves the order among equal keys open; the
    model keeps the one that comes first in the table. *)
Definition later (best : option (price_row * instrument_row))
    (x : price_row * instrument_row) : option (price_row * instrument_row) :=
  match best with
  | None => Some x
  | Some b => if effective_from b.1 <? effective_from x.1 then Some x else Some b
  end.

Definition latest (rows : list (price_row * instrument_row))
  : option (price_row * instrument_row) :=
  fold_left later rows None.

Definition current_rows (k : kind) (i : option Z) (now : Z) (db : database)
  : list (price_row * instrument_row) :=
  List.filter (fun x => sql_eq (instrument_id x.1) i && current_at now x.1) (join k db).

(** [getCurrentPrice] / [getCurrentRate] *)
Definition getCurrent (k : kind) (now : Z) (i : option Z) : M database (option PriceObject) :=
  gets (fun db =>
    match latest (current_rows k i now db) with
    | Some (r, g) => Some (construct r g)
    | None => None
    end).

(** The method under its name in each class. *)
Definition getCurrentPrice : Z -> option Z -> M database (option PriceObject) :=
  getCurrent Gold.
Definition getCurrentRate : Z -> option Z -> M database (option PriceObject) :=
  getCurrent Currency.

(** [String.prototype.toUpperCase], on the ASCII letters of a currency
    code; a code unit outside ASCII is left as it is (the codes of the
    currencies table are ASCII: [code VARCHAR(3)], 'USD', 'SAR', ...). *)
Definition upper_ascii (c : ascii) : ascii :=
  let n := nat_of_ascii c in
  if ((97 <=? n) && (n <=? 122))%nat then ascii_of_nat (n - 32) else c.

Fixpoint toUpperCase (s : string) : string :=
  match s with
  | EmptyString => EmptyString
  | String c s' => String (upper_ascii c) (toUpperCase s')
  end.

Definition getCurrentRateByCode (now : Z) (code : string) : M database (option PriceObject) :=
  gets (fun db =>
    match latest (List.filter
                    (fun x => String.eqb (ins_code x.2) (toUpperCase code) && current_at now x.1)
                    (join Currency db)) with
    | Some (r, g) => Some (construct r g)
    | None => None
    end).

(** *** Static methods: writes *)

Definition logChange (k : kind) (priceId : option Z) (action : string)
    (performedBy : option Z) (d : details) : M database unit :=
  modify (add_audit {| a_user_id := performedBy; a_action := action;
                       a_entity_type := entity_type k; a_entity_id := priceId;
                       a_new_values := d |}).

Definition set_until (u : option Z) (r : price_row) : price_row :=
  mkRow (row_id r) (instrument_id r) (buy_price r) (sell_price r) (row_spread r)
        (margin_buy r) (margin_sell r) (is_manual r) (updated_by r)
        (effective_from r) u (created_at r).

(** [UPDATE prices SET effective_until = now
     WHERE instrument_id = ? AND effective_until IS NULL] on one row. *)
Definition close_open (i : option Z) (now : Z) (r : price_row) : price_row :=
  if sql_eq (instrument_id r) i && bool_decide (effective_until r = None)
  then set_until (Some now) r
  else r.

(** The constraints of [gold_prices] / [currency_rates] that the INSERT of
    [create] can violate (schema.sql): the instrument, the two prices and
    the spread are NOT NULL, and the instrument is a FOREIGN KEY into
    [gold_types] / [currencies]. *)
Definition is_null (v : jsval) : bool :=
  match v with
  | JUndefined | JNull => true
  | _ => false
  end.

Definition not_null (i : option Z) (buy sell sp : jsval) : bool :=
  bool_decide (is_Some i) && negb (is_null buy) && negb (is_null sell) && negb (is_null sp).

Definition references (k : kind) (i : option Z) (db : database) : bool :=
  match i with
  | Some gid => bool_decide (is_Some (instruments k db !! gid))
  | None => false
  end.

Definition not_null_violation : string := "violates not-null constraint".
Definition foreign_key_violation : string := "violates foreign key constraint".

(** [INSERT INTO prices (...) VALUES (..., now)]: the id is the next value
    of the sequence, [created_at] takes its default, [effective_until] is
    NULL.  The statement has no RETURNING clause.  The id is drawn from
    the sequence before the constraints are checked, so an INSERT that is
    refused uses up an id and stores nothing. *)
Definition insert_price (k : kind) (now : Z) (i : option Z)
    (buy sell sp mb ms man : jsval) (by_ : option Z) : M database (option Z) :=
  fun db =>
    let r := mkRow (seq_value k db) i (param buy) (param sell) (param sp)
                   (param mb) (param ms) (param man) by_ now None now in
    if negb (not_null i buy sell sp) then
      (Throw not_null_violation, set_seq k (seq_value k db + 1) db)
    else if negb (references k i db) then
      (Throw foreign_key_violation, set_seq k (seq_value k db + 1) db)
    else
      (Return (run_id []),
       set_seq k (seq_value k db + 1) (set_prices k (prices k db ++ [r]) db)).

(** [create(priceData, updatedBy)]; [t_close] and [t_insert] are the clock
    readings of its UPDATE and of its INSERT.  The two statements run
    without a transaction: when the INSERT is refused, the records closed
    by the UPDATE stay closed. *)
Definition create (k : kind) (t_close t_insert : Z) (d : priceData)
    (updatedBy : option Z) : M database (option PriceObject) :=
  let* _ := modify (fun db =>
              set_prices k (map (close_open (dInstrumentId d) t_close) (prices k db)) db) in
  let spread := JNum (js_sub (dSellPrice d) (dBuyPrice d)) in
  let* result_id := insert_price k t_insert (dInstrumentId d)
                      (dBuyPrice d) (dSellPrice d) spread
                      (js_or (dMarginBuy d) (JNum pzero))
                      (js_or (dMarginSell d) (JNum pzero))
                      (flag (dIsManual d)) updatedBy in
  let* _ := logChange k result_id "CREATE" updatedBy (DData d) in
  findById k result_id.

(** The object that [update] hands to [create] for an open record. *)
Definition merged (price : PriceObject) (d : priceData) : priceData :=
  {| dInstrumentId := instrumentId price;
     dBuyPrice := js_or (dBuyPrice d) (buyPrice price);
     dSellPrice := js_or (dSellPrice d) (sellPrice price);
     dMarginBuy := if is_defined (dMarginBuy d) then dMarginBuy d else marginBuy price;
     dMarginSell := if is_defined (dMarginSell d) then dMarginSell d else marginSell price;
     dIsManual := if is_defined (dIsManual d) then dIsManual d else isManual price |}.

(** [UPDATE prices SET buy = ?, sell = ?, spread = ?, margin_buy = ?,
     margin_sell = ?, is_manual = ?, updated_by = ? WHERE id = ?] on one row. *)
Definition amend (id : Z) (price : PriceObject) (d : priceData)
    (updatedBy : option Z) (r : price_row) : price_row :=
  if row_id r =? id then
    mkRow (row_id r) (instrument_id r)
          (param (js_or (dBuyPrice d) (buyPrice price)))
          (param (js_or (dSellPrice d) (sellPrice price)))
          (JNum (js_sub (js_or (dSellPrice d) (sellPrice price))
                        (js_or (dBuyPrice d) (buyPrice price))))
          (param (if is_defined (dMarginBuy d) then dMarginBuy d else marginBuy price))
          (param (if is_defined (dMarginSell d) then dMarginSell d else marginSell price))
          (if is_defined (dIsManual d) then flag (dIsManual d) else flag (isManual price))
          updatedBy (effective_from r) (effective_until r) (created_at r)
  else r.

Definition update (k : kind) (t_close t_insert : Z) (id : Z) (d : priceData)
    (updatedBy : option Z) : M database (option PriceObject) :=
  let* found := findById k (Some id) in
  match found with
  | None => throw (not_found k)
  | Some price =>
      match effectiveUntil price with
      | None => create k t_close t_insert (merged price d) updatedBy
      | Some _ =>
          let* _ := modify (fun db =>
                      set_prices k (map (amend id price d updatedBy) (prices k db)) db) in
          let* _ := logChange k (Some id) "UPDATE" updatedBy (DData d) in
          findById k (Some id)
      end
  end.

Definition delete (k : kind) (id : Z) (deletedBy : option Z) : M database bool :=
  let* found := findById k (Some id) in
  match found with
  | None => throw (not_found k)
  | Some price =>
      let* _ := logChange k (Some id) "DELETE" deletedBy (DObject price) in
      let* _ := modify (fun db =>
                  set_prices k (List.filter (fun r => negb (row_id r =? id)) (prices k db)) db) in
      ret true
  end.

(** *** Currency conversion (CurrencyRate.convert) *)

Record conversion : Type := mkConversion {
  c_amount : number;
  c_from : string;
  c_to : string;
  c_result : number;
  c_rate : number
}.

(** [Math.round(x * 10000) / 10000] *)
Definition round4 (x : number) : number :=
  fdiv (Math_round (fmul x (of_Z 10000))) (of_Z 10000).

Definition convert (t_from t_to : Z) (amount : number) (fromCode toCode type : string)
  : M database conversion :=
  let* fromRate := getCurrentRateByCode t_from fromCode in
  let* toRate := getCurrentRateByCode t_to toCode in
  match fromRate, toRate with
  | Some fromRate, Some toRate =>
      let baseAmount := convertToBase fromRate amount type in
      let result := convertFromBase toRate baseAmount type in
      ret {| c_amount := amount; c_from := fromCode; c_to := toCode;
             c_result := round4 result;
             c_rate := round4 (fdiv (getFinalPrice toRate type)
                                    (getFinalPrice fromRate type)) |}
  | _, _ => throw "Currency rate not found"
  end.

End PriceModel.

(** ** Automatic gold prices (GoldPrice.autoUpdate) *)

Module AutoUpdate.

Import PriceModel.

(** A row answered by [getGoldTypes()]: its [id] and its [purity] as the
    number the multiplication makes of it. *)
Record goldType : Type := mkGoldType {
  gt_id : Z;
  gt_purity : number
}.

(** [Math.round(x * 100) / 100] *)
Definition round2 (x : number) : number :=
  fdiv (Math_round (fmul x (of_Z 100))) (of_Z 100).

(** The object that [autoUpdate] hands to [create] for one gold type. *)
Definition auto_data (basePrice24k : number) (goldType : goldType) : priceData :=
  let purity := gt_purity goldType in
  let basePrice := fmul basePrice24k purity in
  let marginBuy := dec 2 2 in
  let marginSell := dec 2 2 in
  let buyPrice := fmul basePrice (fsub (of_Z 1) marginBuy) in
  let sellPrice := fmul basePrice (fadd (of_Z 1) marginSell) in
  {| dInstrumentId := Some (gt_id goldType);
     dBuyPrice := JNum (round2 buyPrice);
     dSellPrice := JNum (round2 sellPrice);
     dMarginBuy := JNum marginBuy;
     dMarginSell := JNum marginSell;
     dIsManual := JBool false |}.

(** [autoUpdate(basePrice24k, updatedBy)], given the rows of
    [getGoldTypes()], each with the two clock readings of its [create]. *)
Fixpoint autoUpdate (basePrice24k : number) (updatedBy : option Z)
    (goldTypes : list (goldType * Z * Z)) : M database (list (option PriceObject)) :=
  match goldTypes with
  | [] => ret []
  | (goldType, t_close, t_insert) :: rest =>
      let* price := create Gold t_close t_insert (auto_data basePrice24k goldType)
                           updatedBy in
      let* updatedPrices := autoUpdate basePrice24k updatedBy rest in
      ret (price :: updatedPrices)
  end.

End AutoUpdate.

(** ** Market hours (models/StoreSettings.js) *)

Module StoreSettings.

(** The object answered by [getMarketSettings]. *)
Record marketSettings : Type := mkMarket {
  openTime : string;
  closeTime : string;
  timezone : string;
  days : list Z
}.

(** What the two locale calls answer for the current instant in a time
    zone: [toLocaleTimeString('en-US', {timeZone, hour12: false})] and
    [toLocaleDateString('en-US', {timeZone, weekday: 'short'})]. *)
Record localClock : Type := mkClock {
  timeString : string;
  weekday : string
}.

Definition dayNames : list string :=
  ["Sun"; "Mon"; "Tue"; "Wed"; "Thu"; "Fri"; "Sat"].

(** [Array.prototype.indexOf] *)
Fixpoint indexOf_from (i : Z) (l : list string) (x : string) : Z :=
  match l with
  | [] => -1
  | y :: l' => if String.eqb y x then i else indexOf_from (i + 1) l' x
  end.

Definition indexOf (l : list string) (x : string) : Z := indexOf_from 0 l x.

(** [Array.prototype.includes] *)
Definition includes (l : list Z) (x : Z) : bool := existsb (Z.eqb x) l.

(** [a >= b] and [a <= b] on strings: order of the code units. *)
Definition str_ge (a b : string) : bool := String.leb b a.
Definition str_le (a b : string) : bool := String.leb a b.

(** [settings.timezone || 'Asia/Riyadh'] *)
Definition zone (settings : marketSettings) : string :=
  if String.eqb (timezone settings) EmptyString then "Asia/Riyadh"%string
  else timezone settings.

(** [isMarketOpen()], given the settings it has read.  [clock tz] is the
    reading of the local clock in time zone [tz], [None] when the runtime
    rejects the zone: the exception is caught and the answer is [false]. *)
Definition isMarketOpen (settings : marketSettings)
    (clock : string -> option localClock) : bool :=
  match clock (zone settings) with
  | None => false
  | Some now =>
      let currentTime := substring 0 5 (timeString now) in
      let currentDay := indexOf dayNames (weekday now) in
      if negb (includes (days settings) currentDay) then false
      else str_ge currentTime (openTime settings) &&
           str_le currentTime (closeTime settings)
  end.

End StoreSettings.

(** ** CSRF protection (middleware/security.js) *)

Module Csrf.

(** A value found in a request or in the session: a string, one of the
    other primitives, or an object or array of the parsed JSON body or
    query string.  Of an object the code asks two things only: the text
    that [String] makes of it, and [ToNumber] of its [length] (the
    number of elements of an array, a property of an object, [NaN] when
    there is none). *)
Inductive reqval : Type :=
  | RStr (s : string)
  | RPrim (v : jsval)
  | RObj (text : string) (len : number).

Definition absent : reqval := RPrim JUndefined.

Definition truthy (v : reqval) : bool :=
  match v with
  | RStr s => negb (String.eqb s EmptyString)
  | RPrim p => ToBoolean p
  | RObj _ _ => true
  end.

Definition req_or (a b : reqval) : reqval := if truthy a then a else b.

(** [a !== b] is [negb (req_eq a b)].  Objects are compared by identity,
    and an object parsed from the request is never the object that the
    session store holds. *)
Definition req_eq (a b : reqval) : bool :=
  match a, b with
  | RStr x, RStr y => String.eqb x y
  | RPrim x, RPrim y => strict_eq x y
  | _, _ => false
  end.

Record request : Type := mkRequest {
  method : string;
  header_csrf : reqval;      (* req.headers['x-csrf-token'] *)
  body_csrf : reqval;        (* req.body?._csrf *)
  query_csrf : reqval;       (* req.query?._csrf *)
  session_csrf : reqval      (* req.session?.csrfToken *)
}.

Inductive response : Type :=
  | Next
  | Json (status : Z) (message code : string).

(** What the middleware can write to: the lines of [console.log], the
    lines of [console.error] (label and name of the error), and the
    [audit_log] table. *)
Record security_audit_row : Type := mkSecAudit {
  sa_action : string;
  sa_entity_type : string;
  sa_old_values : string
}.

Record world : Type := mkWorld {
  console : list (string * string);
  console_error : list (string * string);
  audit_log : list security_audit_row
}.

Fixpoint stars (n : nat) : string :=
  match n with
  | O => EmptyString
  | S n' => String "*" (stars n')
  end.

(** [ToIntegerOrInfinity]: NaN and the zeros give 0, a finite number is
    truncated towards zero; [None] stands for the two infinities. *)
Definition ToIntegerOrInfinity (x : number) : option Z :=
  match x with
  | S754_zero _ | S754_nan => Some 0
  | S754_infinity _ => None
  | S754_finite s m e =>
      Some (cond_Zopp s (if 0 <=? e then Z.pos m * 2 ^ e else Z.pos m / 2 ^ (- e)))
  end.

Section Engine.

(** The longest string that the engine can build. *)
Variable max_string_length : Z.

(** ['*'.repeat(count)]: a RangeError for a negative or an infinite count,
    and for a result beyond the engine's limit. *)
Definition repeat_star (count : number) : outcome string :=
  match ToIntegerOrInfinity count with
  | Some n =>
      if (n <? 0) || (max_string_length <? n) then Throw "RangeError"
      else Return (stars (Z.to_nat n))
  | None => Throw "RangeError"
  end.

(** [Security.maskSensitive(data, visibleChars)].  Reading [length] of
    [null] or [undefined] is a TypeError; a number or a boolean has no
    [length], and ['*'.repeat(undefined)] is the empty string; of an
    object or array the [length] is repeated as it is.  [data.slice(-0)]
    is the whole string.  A string of the request is within the engine's
    limit, and so is its mask, which has the same length. *)
Definition maskSensitive (data : reqval) (visibleChars : nat) : outcome string :=
  match data with
  | RStr s =>
      let n := String.length s in
      if (n <=? visibleChars * 2)%nat then Return (stars n)
      else Return (substring 0 visibleChars s
                   +:+ stars (n - visibleChars * 2)
                   +:+ (if (visibleChars =? 0)%nat then s
                        else substring (n - visibleChars) visibleChars s))
  | RPrim (JUndefined | JNull) => Throw "TypeError"
  | RPrim _ => Return EmptyString
  | RObj _ len => repeat_star len
  end.

(** [logSecurityEvent]: one [console.log] line; the INSERT into
    [audit_log] is commented out in the source, so the table is left as it
    is. *)
Definition logSecurityEvent (eventType : string) (details : string) (w : world) : world :=
  {| console := console w ++ [(("[SECURITY EVENT] " +:+ eventType +:+ ":")%string, details)];
     console_error := console_error w;
     audit_log := audit_log w |}.

Definition log_error (label name : string) (w : world) : world :=
  {| console := console w;
     console_error := console_error w ++ [(label, name)];
     audit_log := audit_log w |}.

Definition exempt (m : string) : bool :=
  existsb (String.eqb m) ["GET"; "HEAD"; "OPTIONS"]%string.

Definition forbidden_missing : response := Json 403 "CSRF token missing" "CSRF_MISSING".
Definition forbidden_invalid : response := Json 403 "Invalid CSRF token" "CSRF_INVALID".
Definition security_error : response := Json 500 "Security check failed" "SECURITY_ERROR".

(** The token the request supplies. *)
Definition supplied (req : request) : reqval :=
  req_or (req_or (header_csrf req) (body_csrf req)) (query_csrf req).

Definition csrfProtection (req : request) (w : world) : response * world :=
  if exempt (method req) then (Next, w)
  else
    let csrfToken := supplied req in
    if negb (truthy csrfToken) then (forbidden_missing, w)
    else
      let sessionToken := session_csrf req in
      if negb (truthy sessionToken) || negb (req_eq csrfToken sessionToken) then
        match maskSensitive csrfToken 4 with
        | Return masked => (forbidden_invalid, logSecurityEvent "INVALID_CSRF" masked w)
        | Throw name => (security_error, log_error "CSRF protection error:" name w)
        end
      else (Next, w).

End Engine.

End Csrf.

(** ** Users (models/User.js) *)

Module UserModel.

Record user_row : Type := mkUser {
  username : string;
  email : string;
  role : string;
  is_active : bool
}.

(** A row of [sessions], the table that [User.delete], the login handler
    and [validateSession] read and write ([user_id], [session_token]).
    schema.sql does not declare it (it declares the [session] table of the
    session store only); the model takes the table to exist, as the code
    does throughout. *)
Record session_row : Type := mkSession {
  s_user_id : Z;
  s_token : string
}.

(** An instance of the class [User]. *)
Record UserObject : Type := mkUserObject {
  uId : option Z;
  uUsername : string;
  uEmail : string;
  uRole : string;
  uIsActive : bool
}.

Record audit_row : Type := mkAudit {
  a_user_id : option Z;
  a_action : string;
  a_entity_id : Z;
  a_new_values : UserObject
}.

(** [users] is keyed by its primary key [id]. *)
Record database : Type := mkDb {
  users : gmap Z user_row;
  sessions : list session_row;
  audit_log : list audit_row
}.

Definition construct (id : Z) (r : user_row) : UserObject :=
  {| uId := nz id;
     uUsername := username r;
     uEmail := email r;
     uRole := if String.eqb (role r) EmptyString then "user"%string else role r;
     uIsActive := is_active r |}.

Definition findById (id : Z) : M database (option UserObject) :=
  gets (fun db => construct id <$> users db !! id).

(** The rows counted by
    [SELECT COUNT( * ) FROM users WHERE role = "admin" AND is_active = 1]. *)
Definition active_admin (r : user_row) : Prop :=
  role r = "admin"%string /\ is_active r = true.

#[export] Instance active_admin_dec (r : user_row) : Decision (active_admin r) :=
  and_dec (decide (role r = "admin"%string)) (decide (is_active r = true)).

Definition active_admins (m : gmap Z user_row) : gmap Z user_row :=
  filter (fun kv => active_admin kv.2) m.

Definition adminCount (db : database) : nat := size (active_admins (users db)).

Definition logChange (userId : Z) (action : string) (performedBy : option Z)
    (d : UserObject) : M database unit :=
  modify (fun db =>
    mkDb (users db) (sessions db)
         (audit_log db ++ [{| a_user_id := performedBy; a_action := action;
                              a_entity_id := userId; a_new_values := d |}])).

Definition delete (id : Z) (deletedBy : option Z) : M database bool :=
  let* found := findById id in
  match found with
  | None => throw "User not found"
  | Some user =>
      let* count := gets adminCount in
      if String.eqb (uRole user) "admin" && (count <=? 1)%nat then
        throw "Cannot delete the last admin user"
      else
        let* _ := logChange id "DELETE" deletedBy user in
        let* _ := modify (fun db =>
                    mkDb (users db)
                         (List.filter (fun s => negb (s_user_id s =? id)) (sessions db))
                         (audit_log db)) in
        let* _ := modify (fun db =>
                    mkDb (base.delete id (users db)) (sessions db) (audit_log db)) in
        ret true
  end.

End UserModel.

(** ** Rate limiting and brute-force protection (middleware/security.js)

    [Date.now()] and the configured durations are integers of
    milliseconds, on which the arithmetic of the middleware is exact; they
    are integers here. *)

Module RateLimit.

Definition RATE_LIMIT_WINDOW : Z := 900000.
Definition RATE_LIMIT_MAX_REQUESTS : Z := 100.
Definition MAX_LOGIN_ATTEMPTS : Z := 5.
Definition LOCKOUT_DURATION : Z := 900.

(** [x || d] on an optional number: an absent field and 0 are falsy. *)
Definition num_or (x : option Z) (d : Z) : Z :=
  match x with
  | Some v => if v =? 0 then d else v
  | None => d
  end.

(** [Math.ceil(x / 1000)] *)
Definition ceil_seconds (x : Z) : Z := - ((- x) / 1000).

(** A number or [null] compared with [>]: [null] counts as 0. *)
Definition null_to_zero (x : option Z) : Z := from_option id 0 x.

Record clientData : Type := mkClient {
  requests : list Z;
  blocked : bool;
  blockedUntil : option Z
}.

Record limiterOptions : Type := mkLimiterOptions {
  optWindowMs : option Z;
  optMaxRequests : option Z;
  optMessage : option string
}.

(** The process-wide [rateLimitStore] and the security events written to
    the console ([RATE_LIMIT_EXCEEDED] with the request count). *)
Record limiterState : Type := mkLimiterState {
  rateLimitStore : gmap string clientData;
  limiterEvents : list (string * Z)
}.

Inductive limiterResponse : Type :=
  | Pass (limit remaining : Z)                  (* X-RateLimit-* headers, next() *)
  | TooMany (message : string) (retryAfter : Z) (retryAfterHeader : option Z).

Definition windowOf (o : limiterOptions) : Z := num_or (optWindowMs o) RATE_LIMIT_WINDOW.
Definition maxOf (o : limiterOptions) : Z := num_or (optMaxRequests o) RATE_LIMIT_MAX_REQUESTS.
Definition messageOf (o : limiterOptions) : string :=
  match optMessage o with
  | Some m => if String.eqb m EmptyString
              then "Too many requests, please try again later"%string else m
  | None => "Too many requests, please try again later"%string
  end.

(** The middleware that [rateLimiter(options)] returns, for the client
    [identifier] at clock reading [now]. *)
Definition rateLimiter (o : limiterOptions) (identifier : string) (now : Z)
    (s : limiterState) : limiterResponse * limiterState :=
  let windowMs := windowOf o in
  let maxRequests := maxOf o in
  let clientData := match rateLimitStore s !! identifier with
                    | Some c => c
                    | None => mkClient [] false None
                    end in
  if blocked clientData && (now <? null_to_zero (blockedUntil clientData)) then
    let retryAfter := ceil_seconds (null_to_zero (blockedUntil clientData) - now) in
    (TooMany "Rate limit exceeded" retryAfter (Some retryAfter), s)
  else
    let kept := List.filter (fun timestamp => now - timestamp <? windowMs)
                            (requests clientData) in
    if maxRequests <=? Z.of_nat (length kept) then
      (TooMany (messageOf o) (ceil_seconds windowMs) None,
       mkLimiterState
         (<[identifier := mkClient kept true (Some (now + windowMs))]> (rateLimitStore s))
         (limiterEvents s ++ [("RATE_LIMIT_EXCEEDED"%string, Z.of_nat (length kept))]))
    else
      (Pass maxRequests (Z.max 0 (maxRequests - Z.of_nat (length (kept ++ [now])))),
       mkLimiterState
         (<[identifier := mkClient (kept ++ [now]) false None]> (rateLimitStore s))
         (limiterEvents s)).

(** An entry of the [loginAttempts] map. *)
Record attemptData : Type := mkAttempt {
  count : Z;
  lockedUntil : option Z
}.

Record bruteForceOptions : Type := mkBruteForceOptions {
  optMaxAttempts : option Z;
  optLockoutDuration : option Z
}.

(** What the middleware leaves in [req.securityContext]. *)
Record securityContext : Type := mkSecurityContext {
  ctxIdentifier : string;
  ctxUsername : option string;                  (* req.body?.username *)
  ctxMaxAttempts : Z;
  ctxLockoutDuration : Z
}.

(** Truthiness of a number or [null]. *)
Definition num_truthy (x : option Z) : bool :=
  match x with
  | Some v => negb (v =? 0)
  | None => false
  end.

Inductive bruteForceResponse : Type :=
  | Proceed (ctx : securityContext)
  | Locked (remainingTime : Z).                 (* 423 ACCOUNT_LOCKED *)

Definition bruteForceProtection (o : bruteForceOptions) (identifier : string)
    (username : option string) (now : Z) (loginAttempts : gmap string attemptData)
  : bruteForceResponse * gmap string attemptData :=
  let maxAttempts := num_or (optMaxAttempts o) MAX_LOGIN_ATTEMPTS in
  let lockoutDuration := num_or (optLockoutDuration o) LOCKOUT_DURATION in
  let ctx := mkSecurityContext identifier username maxAttempts lockoutDuration in
  match loginAttempts !! identifier with
  | Some attempts =>
      if (maxAttempts <=? count attempts) && (now <? null_to_zero (lockedUntil attempts))
      then (Locked (ceil_seconds (null_to_zero (lockedUntil attempts) - now)), loginAttempts)
      else if num_truthy (lockedUntil attempts)
              && (null_to_zero (lockedUntil attempts) <=? now)
           then (Proceed ctx, base.delete identifier loginAttempts)
           else (Proceed ctx, loginAttempts)
  | None => (Proceed ctx, loginAttempts)
  end.

End RateLimit.

(** ** Input sanitization (Security.sanitizeInput, xssProtection)

    A string is the sequence of its code units; the code units here are
    the 256 values of [ascii] (Latin-1). *)

Module Xss.

(** The double quote, U+0022. *)
Definition dquote : ascii := ascii_of_nat 34.

(** The white space and line terminators that [trim] strips, among the
    code units below 256: TAB, LF, VT, FF, CR, SP and NBSP. *)
Definition is_ws (c : ascii) : bool :=
  let n := nat_of_ascii c in
  ((9 <=? n) && (n <=? 13) || (n =? 32) || (n =? 160))%nat.

Fixpoint trimStart (s : string) : string :=
  match s with
  | EmptyString => EmptyString
  | String c s' => if is_ws c then trimStart s' else s
  end.

Fixpoint trimEnd (s : string) : string :=
  match s with
  | EmptyString => EmptyString
  | String c s' =>
      match trimEnd s' with
      | EmptyString => if is_ws c then EmptyString else String c EmptyString
      | rest => String c rest
      end
  end.

(** [String.prototype.trim] *)
Definition trim (s : string) : string := trimEnd (trimStart s).

(** [s.replace(/c/g, r)] for a single character [c]. *)
Fixpoint replaceAll (c : ascii) (r : string) (s : string) : string :=
  match s with
  | EmptyString => EmptyString
  | String a s' =>
      if Ascii.eqb a c then r +:+ replaceAll c r s' else String a (replaceAll c r s')
  end.

(** [Security.sanitizeInput] on a string. *)
Definition sanitizeInput (input : string) : string :=
  let sanitized := trim input in
  replaceAll "/" "&#x2F;"
    (replaceAll "'" "&#x27;"
       (replaceAll dquote "&quot;"
          (replaceAll ">" "&gt;"
             (replaceAll "<" "&lt;"
                (replaceAll "&" "&amp;" sanitized))))).

(** [Security.escapeOutput] *)
Definition escapeOutput (output : string) : string := sanitizeInput output.

(** A value of a parsed request: a string, another primitive, an object or
    an array. *)
#[warnings="-register-all"]
Inductive json : Type :=
  | JString (s : string)
  | JPrim (v : jsval)
  | JObject (fields : list (string * json))
  | JArray (items : list json).

(** [sanitizeObject(obj)]: every key of the object (every index of the
    array) that holds a string is sanitized, every key that holds a
    non-null object is sanitized in turn. *)
Fixpoint sanitizeObject (obj : json) : json :=
  let member (v : json) : json :=
    match v with
    | JString s => JString (sanitizeInput s)
    | JObject _ | JArray _ => sanitizeObject v
    | JPrim _ => v
    end in
  match obj with
  | JObject fields => JObject (map (fun kv => (kv.1, member kv.2)) fields)
  | JArray items => JArray (map member items)
  | _ => obj
  end.

(** The keys of [req.query] and [req.params]: only a key that holds a
    string is touched. *)
Definition sanitizeTop (fields : list (string * json)) : list (string * json) :=
  map (fun kv => match kv.2 with
                 | JString s => (kv.1, JString (sanitizeInput s))
                 | _ => kv
                 end) fields.

Record xssRequest : Type := mkXssRequest {
  xQuery : list (string * json);
  xBody : option json;               (* [None]: no body was parsed *)
  xParams : list (string * json)
}.

(** The request as [xssProtection] leaves it before calling [next()]. *)
Definition xssProtection (req : xssRequest) : xssRequest :=
  {| xQuery := sanitizeTop (xQuery req);
     xBody := match xBody req with
              | Some (JObject fields) => Some (sanitizeObject (JObject fields))
              | Some (JArray items) => Some (sanitizeObject (JArray items))
              | other => other
              end;
     xParams := sanitizeTop (xParams req) |}.

End Xss.

(** ** Regular expressions and the validators of [Security]

    The patterns of the validators use character classes, sequence,
    repetition and, at the start of the pattern, lookaheads.  A pattern
    between [^] and [$] is tested against the whole string, by
    derivatives. *)

Module RegExp.

Inductive regex : Type :=
  | Never
  | Empty
  | Class (P : ascii -> bool)
  | Seq (r1 r2 : regex)
  | Or (r1 r2 : regex)
  | Star (r : regex).

Fixpoint nullable (r : regex) : bool :=
  match r with
  | Never => false
  | Empty => true
  | Class _ => false
  | Seq r1 r2 => nullable r1 && nullable r2
  | Or r1 r2 => nullable r1 || nullable r2
  | Star _ => true
  end.

Fixpoint deriv (c : ascii) (r : regex) : regex :=
  match r with
  | Never => Never
  | Empty => Never
  | Class P => if P c then Empty else Never
  | Seq r1 r2 =>
      if nullable r1 then Or (Seq (deriv c r1) r2) (deriv c r2)
      else Seq (deriv c r1) r2
  | Or r1 r2 => Or (deriv c r1) (deriv c r2)
  | Star r => Seq (deriv c r) (Star r)
  end.

(** [/^r$/.test(s)] *)
Fixpoint test (r : regex) (s : string) : bool :=
  match s with
  | EmptyString => nullable r
  | String c s' => test (deriv c r) s'
  end.

(** [r+], [r{n}], [r{0,n}], [r{n,m}] and [r{n,}] *)
Definition Plus (r : regex) : regex := Seq r (Star r).

Fixpoint Times (n : nat) (r : regex) : regex :=
  match n with
  | O => Empty
  | S n' => Seq r (Times n' r)
  end.

Fixpoint UpTo (n : nat) (r : regex) : regex :=
  match n with
  | O => Empty
  | S n' => Or Empty (Seq r (UpTo n' r))
  end.

Definition Between (n m : nat) (r : regex) : regex := Seq (Times n r) (UpTo (m - n) r).
Definition AtLeast (n : nat) (r : regex) : regex := Seq (Times n r) (Star r).

(** [(?=r)] at the start of the input: some prefix of the input matches. *)
Definition lookahead (r : regex) (s : string) : bool :=
  test (Seq r (Star (Class (fun _ => true)))) s.

(** Character classes. *)
Definition in_range (lo hi : nat) (c : ascii) : bool :=
  let n := nat_of_ascii c in ((lo <=? n) && (n <=? hi))%nat.

Definition lower (c : ascii) : bool := in_range 97 122 c.      (* a-z *)
Definition upper (c : ascii) : bool := in_range 65 90 c.       (* A-Z *)
Definition digit (c : ascii) : bool := in_range 48 57 c.       (* 0-9, \d *)
Definition one_of (set : string) (c : ascii) : bool :=
  existsb (Ascii.eqb c) (list_ascii_of_string set).
(** [.]: any code unit but a line terminator. *)
Definition dot (c : ascii) : bool :=
  negb (Ascii.eqb c (ascii_of_nat 10) || Ascii.eqb c (ascii_of_nat 13)).

End RegExp.

Module Security.

Import RegExp.

(** [/^[a-zA-Z0-9_]{3,20}$/] *)
Definition word (c : ascii) : bool := lower c || upper c || digit c || one_of "_" c.

Definition isValidUsername (username : string) : bool :=
  test (Between 3 20 (Class word)) username.

(** [/^[a-zA-Z0-9._%+-]+@[a-zA-Z0-9.-]+\.[a-zA-Z]{2,}$/] *)
Definition local_part (c : ascii) : bool :=
  lower c || upper c || digit c || one_of "._%+-" c.
Definition domain_part (c : ascii) : bool :=
  lower c || upper c || digit c || one_of ".-" c.
Definition letter (c : ascii) : bool := lower c || upper c.

Definition emailRegex : regex :=
  Seq (Plus (Class local_part))
      (Seq (Class (one_of "@"))
           (Seq (Plus (Class domain_part))
                (Seq (Class (one_of ".")) (AtLeast 2 (Class letter))))).

Definition isValidEmail (email : string) : bool := test emailRegex email.

(** [/^(?=.*[a-z])(?=.*[A-Z])(?=.*\d)(?=.*[@$!%*?&])[A-Za-z\d@$!%*?&]{8,}$/] *)
Definition special (c : ascii) : bool := one_of "@$!%*?&" c.
Definition password_char (c : ascii) : bool := upper c || lower c || digit c || special c.

Definition isStrongPassword (password : string) : bool :=
  lookahead (Seq (Star (Class dot)) (Class lower)) password
  && lookahead (Seq (Star (Class dot)) (Class upper)) password
  && lookahead (Seq (Star (Class dot)) (Class digit)) password
  && lookahead (Seq (Star (Class dot)) (Class special)) password
  && test (AtLeast 8 (Class password_char)) password.

End Security.

(** ** The users table: login, lockout and update (models/User.js)

    The columns of [users] that [User.login] and [User.update] read and
    write.  The table is keyed by its primary key; [locked_until],
    [last_login] and [updated_at] are timestamps in milliseconds, [None]
    for NULL; a NULL text column reads as the empty string.  The password
    check ([bcrypt.compare], with every error turned into [false]) is a
    parameter of the model. *)

Module Accounts.

Record account : Type := mkAccount {
  acc_username : string;
  acc_password_hash : string;
  acc_is_active : bool;
  acc_login_attempts : Z;
  acc_locked_until : option Z;
  acc_last_login : option Z;
  acc_email : string;
  acc_full_name : string;
  acc_role : string;
  acc_updated_at : Z
}.

Abbreviation accounts := (gmap Z account).

(** An instance of [User]: its [id] ([data.id || null]) and the columns of
    the row it was built from, an empty [role] read as 'user'. *)
Definition UserObject : Type := (option Z * account)%type.

Definition with_default_role (a : account) : account :=
  mkAccount (acc_username a) (acc_password_hash a) (acc_is_active a)
            (acc_login_attempts a) (acc_locked_until a) (acc_last_login a)
            (acc_email a) (acc_full_name a)
            (if String.eqb (acc_role a) EmptyString then "user" else acc_role a)
            (acc_updated_at a).

Definition construct (kv : Z * account) : UserObject :=
  (nz kv.1, with_default_role kv.2).

Definition set_attempts (attempts : Z) (lockedUntil : option Z) (a : account) : account :=
  mkAccount (acc_username a) (acc_password_hash a) (acc_is_active a)
            attempts lockedUntil (acc_last_login a)
            (acc_email a) (acc_full_name a) (acc_role a) (acc_updated_at a).

Definition set_last_login (now : Z) (a : account) : account :=
  mkAccount (acc_username a) (acc_password_hash a) (acc_is_active a)
            (acc_login_attempts a) (acc_locked_until a) (Some now)
            (acc_email a) (acc_full_name a) (acc_role a) (acc_updated_at a).

(** [Account locked. Try again in ${remainingTime} seconds] *)
Definition locked_message (remainingTime : Z) : string :=
  "Account locked. Try again in " +:+ NilZero.string_of_int (Z.to_int remainingTime)
  +:+ " seconds".

(** [SELECT * FROM users WHERE id = ?]; no row has the id [null]. *)
Definition findById (userId : option Z) : M accounts (option UserObject) :=
  gets (fun t => match userId with
                 | Some i => (fun a => construct (i, a)) <$> t !! i
                 | None => None
                 end).

(** [SELECT * FROM users WHERE username = ?], first row. *)
Definition findByUsername (username : string) : M accounts (option UserObject) :=
  gets (fun t =>
    construct <$> head (List.filter (fun kv => String.eqb (acc_username kv.2) username)
                                    (map_to_list t))).

(** [UPDATE users SET ... WHERE id = ?] *)
Definition update_row (f : account -> account) (userId : option Z) : M accounts unit :=
  modify (fun t => match userId with
                   | Some i => alter f i t
                   | None => t
                   end).

Definition incrementLoginAttempts (userId : option Z) (now : Z) : M accounts unit :=
  let* user := findById userId in
  match user with
  | None => ret tt
  | Some user =>
      let attempts := acc_login_attempts user.2 + 1 in
      let maxAttempts := 5 in
      let lockedUntil :=
        if maxAttempts <=? attempts then Some (now + 15 * 60 * 1000) else None in
      update_row (set_attempts attempts lockedUntil) userId
  end.

Definition resetLoginAttempts (userId : option Z) : M accounts unit :=
  update_row (set_attempts 0 None) userId.

Section Password.

Variable verifyPassword : string -> string -> bool.

(** [User.login(username, password)].  [t_check] and [t_remaining] are the
    two readings of [new Date()] of the lock test, [t_write] the reading
    of the statement that follows the password check. *)
Definition login (username password : string) (t_check t_remaining t_write : Z)
  : M accounts UserObject :=
  let* found := findByUsername username in
  match found with
  | None => throw "Invalid credentials"
  | Some user =>
      if negb (acc_is_active user.2) then throw "Account is disabled"
      else
        let checkPassword : M accounts UserObject :=
          if negb (verifyPassword password (acc_password_hash user.2)) then
            let* _ := incrementLoginAttempts user.1 t_write in
            throw "Invalid credentials"
          else
            let* _ := resetLoginAttempts user.1 in
            let* _ := update_row (set_last_login t_write) user.1 in
            ret user in
        match acc_locked_until user.2 with
        | Some lockedUntil =>
            if t_check <? lockedUntil
            then throw (locked_message (RateLimit.ceil_seconds (lockedUntil - t_remaining)))
            else checkPassword
        | None => checkPassword
        end
  end.

End Password.

(** *** Validation and update *)

(** An entry of the array that [validate] answers. *)
Record validationError : Type := mkError {
  err_field : string;
  err_message : string;
  err_code : string
}.

Definition validRoles : list string := ["admin"; "manager"; "user"].

(** [validate()] *)
Definition validate (this : UserObject) : list validationError :=
  (if String.eqb (acc_username this.2) EmptyString
      || (String.length (Xss.trim (acc_username this.2)) =? 0)%nat
   then [mkError "username" "Username is required" "USERNAME_REQUIRED"]
   else if negb (Security.isValidUsername (acc_username this.2))
        then [mkError "username"
                "Username must be 3-20 characters, alphanumeric and underscores only"
                "USERNAME_INVALID"]
        else [])
  ++ (if negb (String.eqb (acc_email this.2) EmptyString)
         && negb (Security.isValidEmail (acc_email this.2))
      then [mkError "email" "Invalid email format" "EMAIL_INVALID"]
      else [])
  ++ (if negb (bool_decide (is_Some this.1))
         && String.eqb (acc_password_hash this.2) EmptyString
      then [mkError "password" "Password is required" "PASSWORD_REQUIRED"]
      else [])
  ++ (if negb (existsb (String.eqb (acc_role this.2)) validRoles)
      then [mkError "role" "Invalid role" "ROLE_INVALID"]
      else []).

(** [JSON.stringify(errors)] *)
Definition quoted (s : string) : string :=
  String Xss.dquote (s +:+ String Xss.dquote EmptyString).

Definition json_of_error (e : validationError) : string :=
  "{" +:+ quoted "field" +:+ ":" +:+ quoted (err_field e) +:+ ","
  +:+ quoted "message" +:+ ":" +:+ quoted (err_message e) +:+ ","
  +:+ quoted "code" +:+ ":" +:+ quoted (err_code e) +:+ "}".

Fixpoint join_with (sep : string) (l : list string) : string :=
  match l with
  | [] => EmptyString
  | [x] => x
  | x :: rest => x +:+ sep +:+ join_with sep rest
  end.

Definition json_of_errors (l : list validationError) : string :=
  "[" +:+ join_with "," (map json_of_error l) +:+ "]".

(** The argument object of [update]: each field is a string (a boolean
    for [isActive]) or absent. *)
Record updateData : Type := mkUpdateData {
  upUsername : option string;
  upEmail : option string;
  upFullName : option string;
  upRole : option string;
  upIsActive : option bool;
  upPassword : option string
}.

Record user_audit : Type := mkUserAudit {
  ua_user_id : option Z;
  ua_action : string;
  ua_entity_id : Z;
  ua_new_values : updateData
}.

Record userDb : Type := mkUserDb {
  users : accounts;
  user_audit_log : list user_audit
}.

(** A statement on [users] alone. *)
Definition on_users {A : Type} (c : M accounts A) : M userDb A :=
  fun s => let (r, t) := c (users s) in (r, mkUserDb t (user_audit_log s)).

(** Truthiness of a string or an absent field. *)
Definition text_truthy (x : option string) : bool :=
  match x with
  | Some v => negb (String.eqb v EmptyString)
  | None => false
  end.

Definition logChange (userId : Z) (action : string) (performedBy : option Z)
    (d : updateData) : M userDb unit :=
  modify (fun s =>
    mkUserDb (users s)
             (user_audit_log s ++ [mkUserAudit performedBy action userId d])).

(** [User.update(id, updateData, updatedBy)]; [now] is the clock reading
    of the UPDATE and [newHash] what [Security.hashPassword] answers for
    the new password. *)
Definition update (userId : Z) (d : updateData) (updatedBy : option Z) (now : Z)
    (newHash : string) : M userDb (option UserObject) :=
  let* found := on_users (findById (Some userId)) in
  match found with
  | None => throw "User not found"
  | Some user =>
      let user :=
        (user.1,
         mkAccount
           (if text_truthy (upUsername d) then default EmptyString (upUsername d)
            else acc_username user.2)
           (acc_password_hash user.2)
           (default (acc_is_active user.2) (upIsActive d))
           (acc_login_attempts user.2) (acc_locked_until user.2) (acc_last_login user.2)
           (default (acc_email user.2) (upEmail d))
           (if text_truthy (upFullName d) then default EmptyString (upFullName d)
            else acc_full_name user.2)
           (if text_truthy (upRole d) then default EmptyString (upRole d)
            else acc_role user.2)
           (acc_updated_at user.2)) in
      let passwordHash :=
        if text_truthy (upPassword d) then newHash else acc_password_hash user.2 in
      let errors := validate user in
      if (0 <? length errors)%nat then
        throw ("Validation failed: " +:+ json_of_errors errors)
      else
        let* _ := on_users (update_row
                    (fun r => mkAccount (acc_username user.2) passwordHash
                                (acc_is_active user.2)
                                (acc_login_attempts r) (acc_locked_until r)
                                (acc_last_login r)
                                (acc_email user.2) (acc_full_name user.2)
                                (acc_role user.2) now)
                    (Some userId)) in
        let* _ := logChange userId "UPDATE" updatedBy d in
        on_users (findById (Some userId))
  end.

End Accounts.

(** ** The settings table (models/StoreSettings.js)

    [store_settings] is the list of its rows in insertion order; a
    statement [WHERE setting_key = ?] acts on every row with that key, and
    [db.get] answers the first one.  A NULL [setting_value] reads as the
    empty string ([data.setting_value || '']).  [parseFloat], [JSON.parse],
    [JSON.stringify] and [String] on a Number beyond the safe integers are
    parameters of the model. *)

Module SettingsStore.

(** The values handed to [set]: a string, a boolean, or a Number with an
    integer value; [VInt z] is the Number nearest to [z], which is [z]
    itself up to 2^53 in magnitude. *)
Inductive value : Type :=
  | VStr (s : string)
  | VBool (b : bool)
  | VInt (z : Z).

Definition truthy (v : value) : bool :=
  match v with
  | VStr s => negb (String.eqb s EmptyString)
  | VBool b => b
  | VInt z => negb (z =? 0)
  end.

Definition digit (c : ascii) : option Z :=
  let n := nat_of_ascii c in
  if ((48 <=? n) && (n <=? 57))%nat then Some (Z.of_nat n - 48) else None.

(** The longest prefix of decimal digits, read as an integer; [None] when
    there is no digit. *)
Fixpoint digits (s : string) (acc : option Z) : option Z :=
  match s with
  | String c s' =>
      match digit c with
      | Some d => digits s' (Some (10 * from_option id 0 acc + d))
      | None => acc
      end
  | EmptyString => acc
  end.

(** The Number that [parseInt] makes of a sign and of the digits that
    follow it: NaN without a digit, a zero of that sign for the integer
    0, and otherwise the integer rounded to binary64. *)
Definition signed_digits (negative : bool) (s : string) : number :=
  match digits s None with
  | None => NaN
  | Some n =>
      if n =? 0 then (if negative then nzero else pzero)
      else of_Z (if negative then - n else n)
  end.

(** [parseInt(s, 10)]: leading white space is skipped, a sign is read, the
    digits that follow are the value. *)
Definition parseInt (s : string) : number :=
  match Xss.trimStart s with
  | String "-" r => signed_digits true r
  | String "+" r => signed_digits false r
  | r => signed_digits false r
  end.

Record setting_row : Type := mkSetting {
  setting_key : string;
  setting_value : string;
  setting_type : string;
  description : string;
  updated_by : option Z;
  updated_at : Z
}.

Section Parsers.

Variables (decimal json : Type).
Variable parseFloat_or_0 : string -> decimal.        (* parseFloat(v) || 0 *)
Variable JSON_parse_or_empty : string -> json.       (* JSON.parse(v), {} when it throws *)
Variable JSON_stringify : value -> string.
Variable Number_toString : number -> string.         (* String(x) on a Number *)

(** [String(value)].  A Number with an integer value up to 2^53 in
    magnitude prints as the decimal digits of that integer. *)
Definition ToString (v : value) : string :=
  match v with
  | VStr s => s
  | VBool true => "true"
  | VBool false => "false"
  | VInt z =>
      if Z.abs z <=? 2 ^ 53 then NilZero.string_of_int (Z.to_int z)
      else Number_toString (of_Z z)
  end.

(** What [getTypedValue] answers, and the [null] default of [get]. *)
Inductive typed : Type :=
  | TString (s : string)
  | TBoolean (b : bool)
  | TInteger (x : number)
  | TDecimal (d : decimal)
  | TJson (j : json)
  | TNull.

(** [toJSON()] of a setting, the details of a DELETE entry; [{ value,
    type }], the details of a SET entry. *)
Inductive details : Type :=
  | SetDetails (v : value) (type : string)
  | SettingJSON (key : string) (v : typed) (type description : string) (updatedAt : Z).

Record audit_row : Type := mkAudit {
  a_user_id : option Z;
  a_action : string;
  a_entity_id : string;
  a_new_values : details
}.

Record database : Type := mkDb {
  store_settings : list setting_row;
  audit_log : list audit_row
}.

(** [new StoreSettings(row)]: an empty [setting_type] reads as 'string'. *)
Definition construct (r : setting_row) : setting_row :=
  mkSetting (setting_key r) (setting_value r)
            (if String.eqb (setting_type r) EmptyString then "string" else setting_type r)
            (description r) (updated_by r) (updated_at r).

Definition getTypedValue (this : setting_row) : typed :=
  if String.eqb (setting_type this) "integer" then
    TInteger (or_zero (parseInt (setting_value this)))
  else if String.eqb (setting_type this) "decimal" then
    TDecimal (parseFloat_or_0 (setting_value this))
  else if String.eqb (setting_type this) "boolean" then
    TBoolean (String.eqb (setting_value this) "1" || String.eqb (setting_value this) "true")
  else if String.eqb (setting_type this) "json" then
    TJson (JSON_parse_or_empty (setting_value this))
  else TString (setting_value this).

Definition toJSON (this : setting_row) : details :=
  SettingJSON (setting_key this) (getTypedValue this) (setting_type this)
              (description this) (updated_at this).

(** [SELECT * FROM store_settings WHERE setting_key = ?], first row. *)
Definition row_of (key : string) (db : database) : option setting_row :=
  List.find (fun r => String.eqb (setting_key r) key) (store_settings db).

Definition get (key : string) (defaultValue : typed) : M database typed :=
  let* row := gets (row_of key) in
  match row with
  | None => ret defaultValue
  | Some row => ret (getTypedValue (construct row))
  end.

Definition getSetting (key : string) : M database (option setting_row) :=
  let* row := gets (row_of key) in
  ret (construct <$> row).

Definition logChange (key action : string) (performedBy : option Z) (d : details)
  : M database unit :=
  modify (fun db =>
    mkDb (store_settings db)
         (audit_log db ++ [{| a_user_id := performedBy; a_action := action;
                              a_entity_id := key; a_new_values := d |}])).

Definition set (key : string) (v : value) (type : string) (updatedBy : option Z) (now : Z)
  : M database bool :=
  let stringValue :=
    if String.eqb type "json" then JSON_stringify v
    else if String.eqb type "boolean" then (if truthy v then "1" else "0")%string
    else ToString v in
  let* existing := gets (row_of key) in
  let* _ :=
    match existing with
    | Some _ =>
        modify (fun db =>
          mkDb (map (fun r => if String.eqb (setting_key r) key
                              then mkSetting (setting_key r) stringValue type
                                             (description r) updatedBy now
                              else r) (store_settings db))
               (audit_log db))
    | None =>
        modify (fun db =>
          mkDb (store_settings db
                  ++ [mkSetting key stringValue type EmptyString updatedBy now])
               (audit_log db))
    end in
  let* _ := logChange key "SET" updatedBy (SetDetails v type) in
  ret true.

Definition delete (key : string) (deletedBy : option Z) : M database bool :=
  let* setting := getSetting key in
  match setting with
  | None => ret false
  | Some setting =>
      let* _ := logChange key "DELETE" deletedBy (toJSON setting) in
      let* _ := modify (fun db =>
                  mkDb (List.filter (fun r => negb (String.eqb (setting_key r) key))
                                    (store_settings db))
                       (audit_log db)) in
      ret true
  end.

End Parsers.

Arguments TString {decimal json} s.
Arguments TBoolean {decimal json} b.
Arguments TInteger {decimal json} x.
Arguments TDecimal {decimal json} d.
Arguments TJson {decimal json} j.
Arguments TNull {decimal json}.
Arguments store_settings {decimal json} d.
Arguments audit_log {decimal json} d.
Arguments row_of {decimal json} key db.
Arguments get {decimal json} parseFloat_or_0 JSON_parse_or_empty key defaultValue _.
Arguments set {decimal json} JSON_stringify Number_toString key v type updatedBy now _.
Arguments delete {decimal json} parseFloat_or_0 JSON_parse_or_empty key deletedBy _.

End SettingsStore.

(** ** The gold price handlers (controllers/goldController.js)

    A field of [req.body] is a string, one of the other primitives, or an
    object or array.  [Number(s)] and [parseFloat(s)] on a string are
    parameters of the model; the id fields ([goldTypeId], [:id],
    [session.userId]) are
    integers or absent. *)

Module GoldController.

Import PriceModel.

Inductive reply : Type :=
  | Success (status : Z) (data : PriceObject)
  | Failure (status : Z) (message code : string).

Record createBody : Type := mkCreateBody {
  goldTypeId : option Z;
  buyPrice : Csrf.reqval;
  sellPrice : Csrf.reqval;
  marginBuy : Csrf.reqval;
  marginSell : Csrf.reqval;
  isManual : Csrf.reqval
}.

(** [v !== undefined] *)
Definition defined (v : Csrf.reqval) : bool :=
  match v with
  | Csrf.RPrim JUndefined => false
  | _ => true
  end.

(** [v === true] *)
Definition is_true (v : Csrf.reqval) : bool :=
  match v with
  | Csrf.RPrim (JBool true) => true
  | _ => false
  end.

(** Truthiness of an integer id or an absent one. *)
Definition key_truthy (k : option Z) : bool :=
  match k with
  | Some n => negb (n =? 0)
  | None => false
  end.

(** [x <= 0] on numbers: false for NaN. *)
Definition le_zero (x : number) : bool :=
  match SFcompare x pzero with
  | Some Lt | Some Eq => true
  | _ => false
  end.

Section Parsing.

Variable Number_of_string : string -> number.        (* Number(s) *)
Variable parseFloat_of_string : string -> number.    (* parseFloat(s) *)

(** An object or array is converted through its text. *)
Definition ToNumber (v : Csrf.reqval) : number :=
  match v with
  | Csrf.RStr s => Number_of_string s
  | Csrf.RPrim p => JS.ToNumber p
  | Csrf.RObj text _ => Number_of_string text
  end.

(** [parseFloat(v)] reads [String(v)]: a Number prints to a text that reads
    back as the same number, [-0] as [0]; ['undefined'], ['null'], ['true']
    and ['false'] read as NaN. *)
Definition parseFloat (v : Csrf.reqval) : number :=
  match v with
  | Csrf.RStr s => parseFloat_of_string s
  | Csrf.RPrim (JNum x) => if is_zero x then pzero else x
  | Csrf.RPrim _ => NaN
  | Csrf.RObj text _ => parseFloat_of_string text
  end.

Definition isNaN (v : Csrf.reqval) : bool := is_nan (ToNumber v).

Definition missing_fields (body : createBody) : bool :=
  negb (key_truthy (goldTypeId body))
  || negb (defined (buyPrice body)) || negb (defined (sellPrice body)).

Definition invalid_prices (body : createBody) : bool :=
  isNaN (buyPrice body) || isNaN (sellPrice body)
  || le_zero (ToNumber (buyPrice body)) || le_zero (ToNumber (sellPrice body)).

(** The object handed to [GoldPrice.create]. *)
Definition create_data (body : createBody) : priceData :=
  {| dInstrumentId := goldTypeId body;
     dBuyPrice := JNum (parseFloat (buyPrice body));
     dSellPrice := JNum (parseFloat (sellPrice body));
     dMarginBuy := if defined (marginBuy body) then JNum (parseFloat (marginBuy body))
                   else JNum pzero;
     dMarginSell := if defined (marginSell body) then JNum (parseFloat (marginSell body))
                    else JNum pzero;
     dIsManual := JBool (is_true (isManual body)) |}.

(** [createPrice(req, res)].  [price.toJSON()] throws when [create]
    answers [null]; every exception ends in the 500 answer. *)
Definition createPrice (t_close t_insert : Z) (body : createBody)
    (sessionUserId : option Z) (db : database) : reply * database :=
  if missing_fields body then
    (Failure 400 "Gold type ID, buy price, and sell price are required" "MISSING_FIELDS", db)
  else if invalid_prices body then
    (Failure 400 "Prices must be positive numbers" "INVALID_PRICES", db)
  else
    match create Gold t_close t_insert (create_data body) sessionUserId db with
    | (Return (Some price), db') => (Success 201 price, db')
    | (_, db') => (Failure 500 "Failed to create gold price" "CREATE_ERROR", db')
    end.

Record updateBody : Type := mkUpdateBody {
  uBuyPrice : Csrf.reqval;
  uSellPrice : Csrf.reqval;
  uMarginBuy : Csrf.reqval;
  uMarginSell : Csrf.reqval;
  uIsManual : Csrf.reqval
}.

Definition parsed (v : Csrf.reqval) : jsval :=
  if defined v then JNum (parseFloat v) else JUndefined.

(** [updateData]: only the fields that the body defines. *)
Definition update_data (body : updateBody) : priceData :=
  {| dInstrumentId := None;
     dBuyPrice := parsed (uBuyPrice body);
     dSellPrice := parsed (uSellPrice body);
     dMarginBuy := parsed (uMarginBuy body);
     dMarginSell := parsed (uMarginSell body);
     dIsManual := if defined (uIsManual body) then JBool (is_true (uIsManual body))
                  else JUndefined |}.

(** [updatePrice(req, res)] *)
Definition updatePrice (t_close t_insert : Z) (id : Z) (body : updateBody)
    (sessionUserId : option Z) (db : database) : reply * database :=
  match findById Gold (Some id) db with
  | (Return None, db1) => (Failure 404 "Gold price not found" "NOT_FOUND", db1)
  | (Throw _, db1) => (Failure 500 "Failed to update gold price" "UPDATE_ERROR", db1)
  | (Return (Some _), db1) =>
      match update Gold t_close t_insert id (update_data body) sessionUserId db1 with
      | (Return (Some price), db') => (Success 200 price, db')
      | (_, db') => (Failure 500 "Failed to update gold price" "UPDATE_ERROR", db')
      end
  end.

End Parsing.

End GoldController.

(** ** Vocabulary of the statements *)

Import PriceModel.

(** An object whose raw rates and margins are the given numbers. *)
Definition with_rates (o : PriceObject) (buy sell mBuy mSell : number) : PriceObject :=
  mkObject (objId o) (instrumentId o) (JNum buy) (JNum sell) (spread o)
           (JNum mBuy) (JNum mSell) (isManual o) (updatedBy o)
           (effectiveFrom o) (effectiveUntil o) (createdAt o)
           (instrumentCode o) (instrumentName o).

Definition blank : PriceObject :=
  mkObject None None (JNum pzero) (JNum pzero) (JNum pzero) (JNum pzero)
           (JNum pzero) (JBool false) None None None None None None.

(** Rounding to the nearest integer with ties away from zero, as the
    specification words it: [sign x * floor (|x| + 1/2)]. *)
Definition round_half_away (s : bool) (m : positive) (e : Z) : Z :=
  cond_Zopp s ((2 * Zpos m + 2 ^ (- e)) / 2 ^ (1 - e)).

Definition round_away (x : number) : number :=
  match x with
  | S754_finite s m e =>
      if 0 <=? e then x
      else binary_normalize prec emax (round_half_away s m e) 0 s
  | _ => x
  end.

Definition round4_away (x : number) : number :=
  fdiv (round_away (fmul x (of_Z 10000))) (of_Z 10000).

(** A currency table with one open rate per listed currency:
    [(id, code, buy, sell, marginBuy, marginSell)]. *)
Definition rate_row (id : Z) (buy sell mb ms : number) : price_row :=
  mkRow id (Some id) (JNum buy) (JNum sell) (JNum (fsub sell buy))
        (JNum mb) (JNum ms) (JNum pzero) None 0 None 0.

Definition rates_db (l : list (Z * string * number * number * number * number)) : database :=
  mkDb ∅ [] 1
       (list_to_map (map (fun x => match x with
                                   | (id, code, _, _, _, _) => (id, mkInstrument code code true)
                                   end) l))
       (map (fun x => match x with
                      | (id, _, buy, sell, mb, ms) => rate_row id buy sell mb ms
                      end) l)
       (1 + Z.of_nat (length l))
       [].

(** USD at 1.0 and SAR at 3.75, without margins. *)
Definition usd_sar_db : database :=
  rates_db [(1, "USD"%string, of_Z 1, of_Z 1, pzero, pzero);
            (2, "SAR"%string, dec 375 2, dec 375 2, pzero, pzero)].

(** A currency quoted at 10000 per base unit, and SAR at 1.0 with a sell
    margin of 2, whose final sell rate is [1 - 1*2 = -1]. *)
Definition negative_sell_db : database :=
  rates_db [(1, "IRR"%string, of_Z 10000, of_Z 10000, pzero, pzero);
            (2, "SAR"%string, of_Z 1, of_Z 1, pzero, of_Z 2)].

(** EUR at 2.0 with a sell margin of 1, whose final sell rate is
    [2 - 2*1 = 0], and SAR at 3.75. *)
Definition zero_sell_db : database :=
  rates_db [(1, "EUR"%string, of_Z 2, of_Z 2, pzero, of_Z 1);
            (2, "SAR"%string, dec 375 2, dec 375 2, pzero, pzero)].

(** The market hours of the default settings, and a clock that reads
    Monday 22:00:00 in every zone. *)
Definition default_market : StoreSettings.marketSettings :=
  StoreSettings.mkMarket "08:00" "22:00" "Asia/Riyadh" [1; 2; 3; 4; 5; 6].

Definition monday_at_close (tz : string) : option StoreSettings.localClock :=
  Some (StoreSettings.mkClock "22:00:00" "Mon").

(** Membership of the half-open interval [[openTime, closeTime)], as the
    specification words the time test. *)
Definition in_half_open (openT closeT cur : string) : bool :=
  String.leb openT cur && String.ltb cur closeT.

(** A POST request that carries a token in its header only, under a
    session bound to [sessionToken]; and the world before any request. *)
Definition post_with (token sessionToken : string) : Csrf.request :=
  Csrf.mkRequest "POST" (Csrf.RStr token) Csrf.absent Csrf.absent (Csrf.RStr sessionToken).

Definition quiet : Csrf.world := Csrf.mkWorld [] [] [].

(** A POST request whose body carries, as its token, an object with the
    given [length]; and a limit of 2^29 - 24 characters on strings. *)
Definition post_object (len : number) (sessionToken : string) : Csrf.request :=
  Csrf.mkRequest "POST" Csrf.absent (Csrf.RObj "[object Object]" len) Csrf.absent
                 (Csrf.RStr sessionToken).

Definition sample_limit : Z := 536870888.

(** A sequence of [User.delete(id, deletedBy)] calls, one after the other;
    a call that throws leaves the state it reached. *)
Definition delete_all (calls : list (Z * option Z)) (db : UserModel.database)
  : UserModel.database :=
  fold_left (fun d c => snd (UserModel.delete c.1 c.2 d)) calls db.

(** Two administrators, one of them disabled, and a plain user with a
    session. *)
Definition small_office : UserModel.database :=
  UserModel.mkDb
    (list_to_map [(1, UserModel.mkUser "admin" "admin@princessgold.com" "admin" true);
                  (2, UserModel.mkUser "old_admin" EmptyString "admin" false);
                  (3, UserModel.mkUser "clerk" EmptyString "user" true)])
    [UserModel.mkSession 3 "s3"; UserModel.mkSession 1 "s1"]
    [].

(** The row that [create] inserts, when the INSERT is accepted. *)
Definition created_row (k : kind) (t_insert : Z) (d : priceData) (updatedBy : option Z)
    (db : database) : price_row :=
  mkRow (seq_value k db) (dInstrumentId d) (param (dBuyPrice d)) (param (dSellPrice d))
        (JNum (js_sub (dSellPrice d) (dBuyPrice d)))
        (param (js_or (dMarginBuy d) (JNum pzero)))
        (param (js_or (dMarginSell d) (JNum pzero)))
        (param (flag (dIsManual d))) updatedBy t_insert None t_insert.

(** The state after a [create] whose INSERT is accepted: every open record
    of the instrument closed at [t_close], one row appended, the sequence
    advanced, one audit row.  The INSERT yields no id, so the audit row
    has no entity id and the final [findById(null)] answers [null]. *)
Definition after_create (k : kind) (t_close t_insert : Z) (d : priceData)
    (updatedBy : option Z) (db : database) : database :=
  add_audit {| a_user_id := updatedBy; a_action := "CREATE";
               a_entity_type := entity_type k; a_entity_id := None;
               a_new_values := DData d |}
    (set_seq k (seq_value k db + 1)
       (set_prices k (map (close_open (dInstrumentId d) t_close) (prices k db)
                      ++ [created_row k t_insert d updatedBy db]) db)).

(** The state after [update] has amended a closed record in place. *)
Definition after_amend (k : kind) (id : Z) (price : PriceObject) (d : priceData)
    (updatedBy : option Z) (db : database) : database :=
  add_audit {| a_user_id := updatedBy; a_action := "UPDATE";
               a_entity_type := entity_type k; a_entity_id := Some id;
               a_new_values := DData d |}
    (set_prices k (map (amend id price d updatedBy) (prices k db)) db).

(** The INSERT of [create] meets the constraints of the table: the data
    name an instrument of the store and carry both prices. *)
Definition accepts (k : kind) (d : priceData) (db : database) : bool :=
  match dInstrumentId d with
  | Some i => bool_decide (is_Some (instruments k db !! i))
  | None => false
  end && negb (is_null (dBuyPrice d)) && negb (is_null (dSellPrice d)).

(** The state after a [create] whose INSERT was refused: every open record
    of the instrument closed at [t_close], one id used up, nothing else. *)
Definition after_refused (k : kind) (t_close : Z) (d : priceData) (db : database)
  : database :=
  set_seq k (seq_value k db + 1)
    (set_prices k (map (close_open (dInstrumentId d) t_close) (prices k db)) db).

(** An open record of instrument [i], and how many of them a table holds. *)
Definition open_for (i : Z) (r : price_row) : bool :=
  sql_eq (instrument_id r) (Some i) && bool_decide (effective_until r = None).

Definition open_count (k : kind) (i : Z) (db : database) : nat :=
  length (List.filter (open_for i) (prices k db)).

Definition at_most_one_open (db : database) : Prop :=
  forall k i, (open_count k i db <= 1)%nat.

(** The records of instrument [i], open or closed. *)
Definition of_instrument (i : Z) (r : price_row) : bool :=
  sql_eq (instrument_id r) (Some i).

Definition record_count (k : kind) (i : Z) (db : database) : nat :=
  length (List.filter (of_instrument i) (prices k db)).

(** A call of [create]: the store, the two clock readings, the data and
    the actor; and a sequence of such calls, one after the other. *)
Record create_call : Type := mkCall {
  call_kind : kind;
  call_close : Z;
  call_insert : Z;
  call_data : priceData;
  call_actor : option Z
}.

Definition create_all (calls : list create_call) (db : database) : database :=
  fold_left (fun s c => snd (create (call_kind c) (call_close c) (call_insert c)
                                    (call_data c) (call_actor c) s)) calls db.

(** A write on the price store, and a history of writes. *)
Inductive store_op : Type :=
  | OpCreate (k : kind) (t_close t_insert : Z) (d : priceData) (actor : option Z)
  | OpUpdate (k : kind) (t_close t_insert : Z) (id : Z) (d : priceData) (actor : option Z)
  | OpDelete (k : kind) (id : Z) (actor : option Z).

Definition run_op (db : database) (o : store_op) : database :=
  match o with
  | OpCreate k tc ti d a => snd (create k tc ti d a db)
  | OpUpdate k tc ti id d a => snd (update k tc ti id d a db)
  | OpDelete k id a => snd (delete k id a db)
  end.

Definition run_ops (ops : list store_op) (db : database) : database :=
  fold_left run_op ops db.

(** A history whose clock readings, from [t] on, never go back; and the
    reading after the last of them. *)
Fixpoint chronological (t : Z) (ops : list store_op) : Prop :=
  match ops with
  | [] => True
  | OpDelete _ _ _ :: ops' => chronological t ops'
  | OpCreate _ tc ti _ _ :: ops' | OpUpdate _ tc ti _ _ _ :: ops' =>
      t <= tc /\ tc <= ti /\ chronological ti ops'
  end.

Fixpoint end_time (t : Z) (ops : list store_op) : Z :=
  match ops with
  | [] => t
  | OpDelete _ _ _ :: ops' => end_time t ops'
  | OpCreate _ _ ti _ _ :: ops' | OpUpdate _ _ ti _ _ _ :: ops' => end_time ti ops'
  end.

(** No record of instrument [i] is closed later than [t]. *)
Definition closed_by (k : kind) (i : Z) (t : Z) (db : database) : Prop :=
  forall r u, In r (prices k db) -> instrument_id r = Some i ->
              effective_until r = Some u -> u <= t.

(** Two rows that differ at most in [effective_until]. *)
Definition same_quote (r r' : price_row) : Prop :=
  row_id r' = row_id r /\ instrument_id r' = instrument_id r /\
  buy_price r' = buy_price r /\ sell_price r' = sell_price r /\
  row_spread r' = row_spread r /\ margin_buy r' = margin_buy r /\
  margin_sell r' = margin_sell r /\ is_manual r' = is_manual r /\
  updated_by r' = updated_by r /\ effective_from r' = effective_from r /\
  created_at r' = created_at r.

(** Two rows that agree on the instrument and on the effective interval. *)
Definition same_version (r r' : price_row) : Prop :=
  row_id r' = row_id r /\ instrument_id r' = instrument_id r /\
  effective_from r' = effective_from r /\ effective_until r' = effective_until r /\
  created_at r' = created_at r.

(** The row that [update id d] writes when it finds [price]: the version
    it inserts for an open record, when the INSERT is accepted, and the
    amended record for a closed one. *)
Definition written (k : kind) (t_insert : Z) (id : Z) (price : PriceObject)
    (d : priceData) (updatedBy : option Z) (db : database) (r : price_row) : Prop :=
  match effectiveUntil price with
  | None => accepts k (merged price d) db = true /\
            r = created_row k t_insert (merged price d) updatedBy db
  | Some _ => exists r0, In r0 (prices k db) /\ row_id r0 = id /\
                         r = amend id price d updatedBy r0
  end.

(** The data of an [update] with a field left out. *)
Definition without_buy (d : priceData) : priceData :=
  mkData (dInstrumentId d) JUndefined (dSellPrice d) (dMarginBuy d) (dMarginSell d)
         (dIsManual d).

Definition without_sell (d : priceData) : priceData :=
  mkData (dInstrumentId d) (dBuyPrice d) JUndefined (dMarginBuy d) (dMarginSell d)
         (dIsManual d).

(** A store with the seeded gold types and no price yet, and sample data. *)
Definition karat (name : string) : instrument_row := mkInstrument name name true.

Definition fresh_db : database :=
  mkDb (list_to_map [(1, karat "Gold 24K"); (2, karat "Gold 22K");
                     (3, karat "Gold 21K"); (4, karat "Gold 18K")])
       [] 1
       (list_to_map [(1, mkInstrument "USD" "US Dollar" true);
                     (3, mkInstrument "SAR" "Saudi Riyal" true)])
       [] 1 [].

Definition quote_data (i : Z) (buy sell : Z) : priceData :=
  mkData (Some i) (JNum (of_Z buy)) (JNum (of_Z sell)) (JNum (dec 2 2)) (JNum (dec 2 2))
         (JBool true).

(** Data that lack the sell price. *)
Definition buy_only_quote (i : Z) (buy : Z) : priceData :=
  mkData (Some i) (JNum (of_Z buy)) JUndefined JUndefined JUndefined JUndefined.

(** Gold 24K quoted twice: record 1 is closed, record 2 is open. *)
Definition two_versions : database :=
  create_all [mkCall Gold 10 10 (quote_data 1 250 260) (Some 1);
              mkCall Gold 20 21 (quote_data 1 251 262) (Some 1)] fresh_db.

(** An update that supplies a zero buy price, a zero buy margin and
    isManual false, and nothing else. *)
Definition zero_update : priceData :=
  mkData None (JNum pzero) JUndefined (JNum pzero) JUndefined (JBool false).

(** The requests of one client, served one after the other at the given
    clock readings: the responses, in order, and the final state. *)
Fixpoint serve (o : RateLimit.limiterOptions) (identifier : string) (times : list Z)
    (s : RateLimit.limiterState) : list RateLimit.limiterResponse * RateLimit.limiterState :=
  match times with
  | [] => ([], s)
  | t :: times' =>
      let (r, s') := RateLimit.rateLimiter o identifier t s in
      let (rs, s'') := serve o identifier times' s' in
      (r :: rs, s'')
  end.

Definition is_pass (r : RateLimit.limiterResponse) : bool :=
  match r with RateLimit.Pass _ _ => true | _ => false end.

(** A limit of three requests per second, and a store without clients. *)
Definition three_per_second : RateLimit.limiterOptions :=
  RateLimit.mkLimiterOptions (Some 1000) (Some 3) None.

Definition no_clients : RateLimit.limiterState := RateLimit.mkLimiterState ∅ [].

(** The record the limiter works on for a client: the stored one, or a
    fresh one. *)
Definition client_of (s : RateLimit.limiterState) (identifier : string)
  : RateLimit.clientData :=
  match RateLimit.rateLimitStore s !! identifier with
  | Some c => c
  | None => RateLimit.mkClient [] false None
  end.

(** The entity that stands for a character in sanitized text, and the
    text escaped character by character. *)
Definition escape_char (c : ascii) : string :=
  if Ascii.eqb c "&" then "&amp;"
  else if Ascii.eqb c "<" then "&lt;"
  else if Ascii.eqb c ">" then "&gt;"
  else if Ascii.eqb c Xss.dquote then "&quot;"
  else if Ascii.eqb c "'" then "&#x27;"
  else if Ascii.eqb c "/" then "&#x2F;"
  else String c EmptyString.

Fixpoint escape_with (f : ascii -> string) (s : string) : string :=
  match s with
  | EmptyString => EmptyString
  | String c s' => f c +:+ escape_with f s'
  end.

Definition escape_all (s : string) : string := escape_with escape_char s.

Fixpoint contains (c : ascii) (s : string) : bool :=
  match s with
  | EmptyString => false
  | String a s' => Ascii.eqb a c || contains c s'
  end.

(** Every character of a text satisfies [P]. *)
Fixpoint all_chars (P : ascii -> bool) (s : string) : bool :=
  match s with
  | EmptyString => true
  | String a s' => P a && all_chars P s'
  end.

(** A character that the sanitizer leaves as it is. *)
Definition plain (c : ascii) : bool :=
  String.eqb (escape_char c) (String c EmptyString).

(** Text without any of the characters [<], [>], double quote, ['], [/]. *)
Definition markup_free (s : string) : bool :=
  negb (contains "<" s) && negb (contains ">" s) && negb (contains Xss.dquote s)
  && negb (contains "'" s) && negb (contains "/" s).

(** A string value at any depth of a request value satisfies [P]. *)
Fixpoint all_strings (P : string -> bool) (j : Xss.json) : bool :=
  match j with
  | Xss.JString s => P s
  | Xss.JPrim _ => true
  | Xss.JObject fields => forallb (fun kv => all_strings P kv.2) fields
  | Xss.JArray items => forallb (all_strings P) items
  end.

(** A string value held directly by a key satisfies [P]. *)
Definition top_strings (P : string -> bool) (fields : list (string * Xss.json)) : bool :=
  forallb (fun kv => match kv.2 with Xss.JString s => P s | _ => true end) fields.

(** A request whose query holds a nested object, as [?filter[name]=<b>]
    is parsed, and whose body nests a string two levels deep. *)
Definition nested_request : Xss.xssRequest :=
  Xss.mkXssRequest
    [("filter", Xss.JObject [("name", Xss.JString "<b>")])]
    (Some (Xss.JObject
             [("items", Xss.JArray [Xss.JObject [("note", Xss.JString "<i>x</i>")]])]))
    [].

(** No other row of the table carries the user name of row [id] (the
    UNIQUE constraint of [users.username]). *)
Definition unique_username (t : Accounts.accounts) (username : string) (id : Z) : Prop :=
  forall j b, t !! j = Some b -> Accounts.acc_username b = username -> j = id.

(** One login after the other, each with its password and its clock
    reading. *)
Fixpoint login_all (verifyPassword : string -> string -> bool) (username : string)
    (tries : list (string * Z)) (t : Accounts.accounts)
  : list (outcome Accounts.UserObject) * Accounts.accounts :=
  match tries with
  | [] => ([], t)
  | (password, now) :: rest =>
      let r := Accounts.login verifyPassword username password now now now t in
      let rs := login_all verifyPassword username rest r.2 in
      (r.1 :: rs.1, rs.2)
  end.

(** A password check for the examples: the stored hash is the password. *)
Definition plain_check (password hash : string) : bool := String.eqb password hash.

(** The account of the examples, with its counter, its lock and its last
    login. *)
Definition amal (attempts : Z) (lockedUntil lastLogin : option Z) : Accounts.account :=
  Accounts.mkAccount "amal" "s3cret" true attempts lockedUntil lastLogin
                     "amal@example.com" "Amal" "admin" 0.

Definition one_account : Accounts.accounts := {[ 1 := amal 0 None None ]}.

(** An empty settings database, with parsers that answer nothing and
    printers that answer the empty text. *)
Definition no_parse (s : string) : unit := tt.

Definition no_text {A : Type} (x : A) : string := EmptyString.

Definition no_settings : SettingsStore.database unit unit :=
  SettingsStore.mkDb unit unit [] [].

(** Gold 24K quoted once: record 1 is open. *)
Definition one_version : database :=
  create_all [mkCall Gold 10 10 (quote_data 1 250 260) (Some 1)] fresh_db.

(** Two codes that are the same up to the case of their ASCII letters:
    their lower-case forms are equal. *)
Definition lower_ascii (c : ascii) : ascii :=
  let n := nat_of_ascii c in
  if ((65 <=? n) && (n <=? 90))%nat then ascii_of_nat (n + 32) else c.

Fixpoint toLowerCase (s : string) : string :=
  match s with
  | EmptyString => EmptyString
  | String c s' => String (lower_ascii c) (toLowerCase s')
  end.

Definition same_code (a b : string) : bool :=
  String.eqb (toLowerCase a) (toLowerCase b).

(** The gold type [i] is among the rows handed to [autoUpdate]. *)
Definition listed (i : Z) (goldTypes : list (AutoUpdate.goldType * Z * Z)) : bool :=
  existsb (fun x => AutoUpdate.gt_id x.1.1 =? i) goldTypes.

(** Request bodies whose fields are numbers, and a reading of numeric
    strings that is never used on them. *)
Definition no_number (s : string) : number := NaN.

Definition quote_body (i buy sell : Z) : GoldController.createBody :=
  GoldController.mkCreateBody (Some i) (Csrf.RPrim (JNum (of_Z buy)))
    (Csrf.RPrim (JNum (of_Z sell))) Csrf.absent Csrf.absent (Csrf.RPrim (JBool true)).

Definition buy_only_body (buy : Z) : GoldController.updateBody :=
  GoldController.mkUpdateBody (Csrf.RPrim (JNum (of_Z buy))) Csrf.absent Csrf.absent
    Csrf.absent Csrf.absent.

(** The strings that a pattern denotes. *)
Inductive lang : RegExp.regex -> string -> Prop :=
  | lang_empty : lang RegExp.Empty EmptyString
  | lang_class P c : P c = true -> lang (RegExp.Class P) (String c EmptyString)
  | lang_seq r1 r2 s1 s2 :
      lang r1 s1 -> lang r2 s2 -> lang (RegExp.Seq r1 r2) (s1 +:+ s2)
  | lang_or_l r1 r2 s : lang r1 s -> lang (RegExp.Or r1 r2) s
  | lang_or_r r1 r2 s : lang r2 s -> lang (RegExp.Or r1 r2) s
  | lang_star_nil r : lang (RegExp.Star r) EmptyString
  | lang_star_cons r s1 s2 :
      lang r s1 -> lang (RegExp.Star r) s2 -> lang (RegExp.Star r) (s1 +:+ s2).

(** Every character class of the pattern lies within [P]. *)
Fixpoint within (P : ascii -> bool) (r : RegExp.regex) : Prop :=
  match r with
  | RegExp.Class Q => forall c, Q c = true -> P c = true
  | RegExp.Seq r1 r2 | RegExp.Or r1 r2 => within P r1 /\ within P r2
  | RegExp.Star r1 => within P r1
  | _ => True
  end.

(** Some character of the text satisfies [P]. *)
Fixpoint has_char (P : ascii -> bool) (s : string) : bool :=
  match s with
  | EmptyString => false
  | String c s' => P c || has_char P s'
  end.

(** The characters an e-mail address may hold. *)
Definition email_char (c : ascii) : bool :=
  Security.local_part c || RegExp.one_of "@" c.

(** The rows counted by
    [SELECT COUNT( * ) FROM users WHERE role = "admin" AND is_active = 1]. *)
Definition admin_count (t : Accounts.accounts) : nat :=
  size (filter (fun kv : Z * Accounts.account =>
                  Accounts.acc_role kv.2 = "admin"%string /\
                  Accounts.acc_is_active kv.2 = true) t).

(** An update of the role alone, and of the active flag alone. *)
Definition change_role (role : string) : Accounts.updateData :=
  Accounts.mkUpdateData None None None (Some role) None None.

Definition set_active (isActive : bool) : Accounts.updateData :=
  Accounts.mkUpdateData None None None None (Some isActive) None.

(** The prices that [autoUpdate] stores for a gold type: the base price
    times the purity, less and plus 2%, rounded to 2 decimals. *)
Definition auto_buy (base purity : number) : number :=
  AutoUpdate.round2 (fmul (fmul base purity) (fsub (of_Z 1) (dec 2 2))).

Definition auto_sell (base purity : number) : number :=
  AutoUpdate.round2 (fmul (fmul base purity) (fadd (of_Z 1) (dec 2 2))).

(** ** The margin / rate calculator *)

(** C3.  For every object with raw rates [r] (buy) and [r'] (sell) and
    margin fractions [m] and [m'], the final quoted price is [r + r*m] for
    type 'buy' and [r' - r'*m'] for type 'sell', in binary64 arithmetic;
    with raw rate 100 and margin 0.02 the final buy price is 102 and the
    final sell price is 98; and the spread of buy 98, sell 102 is 4. *)
Theorem getFinalPrice_formula :
  (forall (o : PriceObject) (r r' m m' : number),
      getFinalPrice (with_rates o r r' m m') "buy" = fadd r (fmul r m) /\
      getFinalPrice (with_rates o r r' m m') "sell" = fsub r' (fmul r' m')) /\
  getFinalPrice (with_rates blank (of_Z 100) (of_Z 100) (dec 2 2) (dec 2 2)) "buy"
    = of_Z 102 /\
  getFinalPrice (with_rates blank (of_Z 100) (of_Z 100) (dec 2 2) (dec 2 2)) "sell"
    = of_Z 98 /\
  calculateSpread (with_rates blank (of_Z 98) (of_Z 102) pzero pzero) = of_Z 4.
Proof.
  split.
  - intros o r r' m m'. split; reflexivity.
  - repeat split; vm_compute; reflexivity.
Qed.

Lemma convert_found db tf tt amount fromCode toCode type fr tr :
  fst (getCurrentRateByCode tf fromCode db) = Return (Some fr) ->
  fst (getCurrentRateByCode tt toCode db) = Return (Some tr) ->
  convert tf tt amount fromCode toCode type db =
    (Return {| c_amount := amount; c_from := fromCode; c_to := toCode;
               c_result := round4 (fmul (fdiv amount (getFinalPrice fr type))
                                        (getFinalPrice tr type));
               c_rate := round4 (fdiv (getFinalPrice tr type)
                                      (getFinalPrice fr type)) |}, db).
Proof.
  unfold convert, bind, getCurrentRateByCode, gets, ret. simpl.
  intros Hf Ht. injection Hf as Hf. injection Ht as Ht.
  rewrite Hf, Ht. reflexivity.
Qed.

Lemma round_half_up_bounds s m e :
  e < 0 ->
  2 ^ (- e) * (2 * round_half_up s m e - 1) <= 2 * cond_Zopp s (Zpos m)
    < 2 ^ (- e) * (2 * round_half_up s m e + 1).
Proof.
  intros He. unfold round_half_up.
  replace (1 - e) with (Z.succ (- e)) by lia.
  rewrite Z.pow_succ_r by lia.
  set (P := 2 ^ (- e)). set (a := cond_Zopp s (Zpos m)).
  assert (HP : 0 < P) by (apply Z.pow_pos_nonneg; lia).
  pose proof (Z.div_mod (2 * a + P) (2 * P) ltac:(lia)) as Hdm.
  pose proof (Z.mod_pos_bound (2 * a + P) (2 * P) ltac:(lia)) as Hb.
  nia.
Qed.

(** C4 (as amended).  When both currencies have a current rate, [convert]
    answers result = Math.round(v * 10^4) / 10^4 for v = (amount / source
    final rate) * target final rate, and rate = Math.round(w * 10^4) / 10^4
    for w = target final rate / source final rate.  [Math.round] leaves an
    integral number as it is and takes a finite number that is not
    integral to the integer n with n - 1/2 <= x < n + 1/2, so a tie goes
    towards +Infinity.  100 USD at final buy rate 1.0 into SAR at final buy
    rate 3.75 gives 375; 1 SAR into USD gives 0.2667, at the rate 0.2667;
    and 0.5 at a final rate of 10000 into SAR at 1.0, a tie at the fifth
    decimal, gives 0.0001. *)
Theorem convert_rounds_half_up :
  (forall db tf tt amount fromCode toCode type fr tr,
      fst (getCurrentRateByCode tf fromCode db) = Return (Some fr) ->
      fst (getCurrentRateByCode tt toCode db) = Return (Some tr) ->
      convert tf tt amount fromCode toCode type db =
        (Return {| c_amount := amount; c_from := fromCode; c_to := toCode;
                   c_result :=
                     fdiv (Math_round
                             (fmul (fmul (fdiv amount (getFinalPrice fr type))
                                         (getFinalPrice tr type))
                                   (of_Z 10000)))
                          (of_Z 10000);
                   c_rate :=
                     fdiv (Math_round
                             (fmul (fdiv (getFinalPrice tr type) (getFinalPrice fr type))
                                   (of_Z 10000)))
                          (of_Z 10000) |}, db)) /\
  (forall s m e,
      (0 <= e -> Math_round (S754_finite s m e) = S754_finite s m e) /\
      (e < 0 ->
       Math_round (S754_finite s m e)
         = binary_normalize prec emax (round_half_up s m e) 0 s /\
       2 ^ (- e) * (2 * round_half_up s m e - 1) <= 2 * cond_Zopp s (Zpos m)
         < 2 ^ (- e) * (2 * round_half_up s m e + 1))) /\
  fst (convert 0 0 (of_Z 100) "USD" "SAR" "buy" usd_sar_db)
  = Return {| c_amount := of_Z 100; c_from := "USD"; c_to := "SAR";
              c_result := of_Z 375; c_rate := dec 375 2 |} /\
  fst (convert 0 0 (of_Z 1) "SAR" "USD" "buy" usd_sar_db)
  = Return {| c_amount := of_Z 1; c_from := "SAR"; c_to := "USD";
              c_result := dec 2667 4; c_rate := dec 2667 4 |} /\
  fst (convert 0 0 (dec 5 1) "IRR" "SAR" "buy" negative_sell_db)
  = Return {| c_amount := dec 5 1; c_from := "IRR"; c_to := "SAR";
              c_result := dec 1 4; c_rate := dec 1 4 |}.
Proof.
  split; [|split; [|split; [|split]]].
  - intros. by apply convert_found.
  - intros s m e. split.
    + intros He. unfold Math_round. by rewrite (proj2 (Z.leb_le 0 e) He).
    + intros He. split.
      * unfold Math_round. destruct (0 <=? e) eqn:E; [lia | reflexivity].
      * by apply round_half_up_bounds.
  - vm_compute. reflexivity.
  - vm_compute. reflexivity.
  - vm_compute. reflexivity.
Qed.

Lemma convert_rounds_half_up_witness :
  convert 0 0 (of_Z 1) "SAR" "USD" "buy" usd_sar_db =
    (Return {| c_amount := of_Z 1; c_from := "SAR"; c_to := "USD";
               c_result := dec 2667 4; c_rate := dec 2667 4 |}, usd_sar_db)
  /\ Math_round (dec 26667 1) = of_Z 2667
  /\ Math_round (dec 5 1) = of_Z 1
  /\ Math_round (dec (-5) 1) = nzero.
Proof.
  split; [|split; [|split]].
  - pose proof (proj1 convert_rounds_half_up usd_sar_db 0 0 (of_Z 1)
                  "SAR"%string "USD"%string "buy"%string
                  (mkObject (Some 2) (Some 2) (JNum (dec 375 2)) (JNum (dec 375 2))
                            (JNum pzero) (JNum pzero) (JNum pzero) (JBool false)
                            None (Some 0) None (Some 0) (Some "SAR"%string)
                            (Some "SAR"%string))
                  (mkObject (Some 1) (Some 1) (JNum (of_Z 1)) (JNum (of_Z 1))
                            (JNum pzero) (JNum pzero) (JNum pzero) (JBool false)
                            None (Some 0) None (Some 0) (Some "USD"%string)
                            (Some "USD"%string))
                  ltac:(vm_compute; reflexivity) ltac:(vm_compute; reflexivity)) as H.
    rewrite H. vm_compute. reflexivity.
  - pose proof (proj1 (proj2 (proj1 (proj2 convert_rounds_half_up) false
                         5864135315580518%positive (-41)) ltac:(lia))) as H.
    vm_compute in H. vm_compute. exact H.
  - pose proof (proj1 (proj2 (proj1 (proj2 convert_rounds_half_up) false
                         4503599627370496%positive (-53)) ltac:(lia))) as H.
    vm_compute in H. vm_compute. exact H.
  - pose proof (proj1 (proj2 (proj1 (proj2 convert_rounds_half_up) true
                         4503599627370496%positive (-53)) ltac:(lia))) as H.
    vm_compute in H. vm_compute. exact H.
Defined.

(** C4, the claim as worded fails: converting 0.5 at a source final rate of
    10000 into a target whose final rate is -1 gives -0.00005, and
    [Math.round(-0.5)] is -0, so the result is -0; rounding half away from
    zero would give -0.0001. *)
Lemma convert_not_half_away_from_zero :
  exists c,
    fst (convert 0 0 (dec 5 1) "IRR" "SAR" "sell" negative_sell_db) = Return c /\
    c_result c = nzero /\
    round4_away (fmul (fdiv (dec 5 1) (of_Z 10000)) (of_Z (-1))) = dec (-1) 4 /\
    c_result c <> round4_away (fmul (fdiv (dec 5 1) (of_Z 10000)) (of_Z (-1))).
Proof.
  eexists. split; [vm_compute; reflexivity|].
  split; [vm_compute; reflexivity|].
  split; [vm_compute; reflexivity|].
  vm_compute. discriminate.
Qed.

(** *** Division by a zero final rate *)

Lemma fdiv_zero_not_finite x z : is_zero z = true -> is_finite (fdiv x z) = false.
Proof. destruct z; try discriminate. intros _. by destruct x. Qed.

Lemma fmul_not_finite x y : is_finite x = false -> is_finite (fmul x y) = false.
Proof. destruct x; try discriminate; intros _; by destruct y. Qed.

Lemma round4_not_finite x : is_finite x = false -> is_finite (round4 x) = false.
Proof. destruct x; try discriminate; intros _; vm_compute; reflexivity. Qed.

(** C5 (as amended).  [convert] has no guard on the source rate: when both
    currencies have a current rate and the source final rate is zero it
    raises no error and answers a conversion whose result and cross-rate
    are not finite (an infinity or NaN). *)
Theorem convert_zero_rate_not_guarded db tf tt amount fromCode toCode type fr tr :
  fst (getCurrentRateByCode tf fromCode db) = Return (Some fr) ->
  fst (getCurrentRateByCode tt toCode db) = Return (Some tr) ->
  is_zero (getFinalPrice fr type) = true ->
  exists c,
    convert tf tt amount fromCode toCode type db = (Return c, db) /\
    is_finite (c_result c) = false /\
    is_finite (c_rate c) = false.
Proof.
  intros Hf Ht Hz. eexists. split; [by apply convert_found|]. simpl. split.
  - apply round4_not_finite, fmul_not_finite. by apply fdiv_zero_not_finite.
  - apply round4_not_finite. by apply fdiv_zero_not_finite.
Qed.

Lemma convert_zero_rate_not_guarded_witness :
  exists c,
    convert 0 0 (of_Z 100) "EUR" "SAR" "sell" zero_sell_db = (Return c, zero_sell_db) /\
    is_finite (c_result c) = false /\
    is_finite (c_rate c) = false.
Proof.
  apply (convert_zero_rate_not_guarded zero_sell_db 0 0 (of_Z 100)
           "EUR"%string "SAR"%string "sell"%string
           (with_rates (mkObject (Some 1) (Some 1) (JNum pzero) (JNum pzero)
                          (JNum pzero) (JNum pzero) (JNum pzero) (JBool false)
                          None (Some 0) None (Some 0) (Some "EUR"%string)
                          (Some "EUR"%string))
              (of_Z 2) (of_Z 2) pzero (of_Z 1))
           (with_rates (mkObject (Some 2) (Some 2) (JNum pzero) (JNum pzero)
                          (JNum pzero) (JNum pzero) (JNum pzero) (JBool false)
                          None (Some 0) None (Some 0) (Some "SAR"%string)
                          (Some "SAR"%string))
              (dec 375 2) (dec 375 2) pzero pzero)).
  - vm_compute. reflexivity.
  - vm_compute. reflexivity.
  - vm_compute. reflexivity.
Defined.

(** C5, the claim as worded fails: with a source final rate of zero (EUR
    sold at 2.0 with a sell margin of 1), converting 100 into SAR raises no
    INVALID_RATE error; the answer carries Infinity as result and rate. *)
Lemma convert_zero_rate_gives_infinity :
  is_zero (getFinalPrice (with_rates blank (of_Z 2) (of_Z 2) pzero (of_Z 1)) "sell") = true /\
  fst (convert 0 0 (of_Z 100) "EUR" "SAR" "sell" zero_sell_db) =
    Return {| c_amount := of_Z 100; c_from := "EUR"; c_to := "SAR";
              c_result := Infinity; c_rate := Infinity |} /\
  fst (convert 0 0 (of_Z 100) "EUR" "SAR" "sell" zero_sell_db) <> Throw "INVALID_RATE".
Proof.
  split; [vm_compute; reflexivity|].
  split; [vm_compute; reflexivity|].
  vm_compute. discriminate.
Qed.

(** ** Market hours *)

Section MarketHours.
Import StoreSettings.

Lemma includes_In l x : includes l x = true <-> In x l.
Proof.
  unfold includes. rewrite existsb_exists. split.
  - intros (y & Hy & E). apply Z.eqb_eq in E. by subst.
  - intros H. exists x. split; [done | apply Z.eqb_refl].
Qed.

Lemma string_leb_refl s : String.leb s s = true.
Proof. by destruct (String.leb_total s s). Qed.

(** C8 (as amended).  [isMarketOpen()] answers true exactly when the
    current day-of-week in the configured zone is one of the configured
    open days and the current "HH:MM" string lies in the closed interval
    [[openTime, closeTime]] under the order of strings; in particular a
    current time equal to closeTime, on an open day with
    openTime <= closeTime, gives true. *)
Theorem isMarketOpen_closed_interval settings clock now :
  clock (zone settings) = Some now ->
  (isMarketOpen settings clock = true <->
     In (indexOf dayNames (weekday now)) (days settings) /\
     String.leb (openTime settings) (substring 0 5 (timeString now)) = true /\
     String.leb (substring 0 5 (timeString now)) (closeTime settings) = true) /\
  (In (indexOf dayNames (weekday now)) (days settings) ->
   substring 0 5 (timeString now) = closeTime settings ->
   String.leb (openTime settings) (closeTime settings) = true ->
   isMarketOpen settings clock = true).
Proof.
  intros Hc.
  assert (Hiff : isMarketOpen settings clock = true <->
     In (indexOf dayNames (weekday now)) (days settings) /\
     String.leb (openTime settings) (substring 0 5 (timeString now)) = true /\
     String.leb (substring 0 5 (timeString now)) (closeTime settings) = true).
  { unfold isMarketOpen. rewrite Hc. rewrite <- includes_In.
    unfold str_ge, str_le.
    destruct (includes (days settings) (indexOf dayNames (weekday now))); simpl.
    - rewrite andb_true_iff. tauto.
    - split; [discriminate | intros (H & _); discriminate]. }
  split; [exact Hiff|].
  intros Hd Ht Ho. apply Hiff. rewrite Ht. split; [done|].
  split; [done | apply string_leb_refl].
Qed.

Lemma isMarketOpen_closed_interval_witness :
  isMarketOpen default_market monday_at_close = true.
Proof.
  apply (proj2 (isMarketOpen_closed_interval default_market monday_at_close
                  (mkClock "22:00:00" "Mon") eq_refl)).
  - vm_compute. tauto.
  - reflexivity.
  - reflexivity.
Defined.

(** C8, the claim as worded fails: on a Monday at 22:00, the closing time
    of the default settings, [isMarketOpen()] answers true, although 22:00
    is outside the half-open interval [[08:00, 22:00)]. *)
Lemma isMarketOpen_true_at_closeTime :
  isMarketOpen default_market monday_at_close = true /\
  in_half_open (openTime default_market) (closeTime default_market) "22:00" = false.
Proof. split; vm_compute; reflexivity. Qed.

End MarketHours.

(** ** CSRF protection *)

Section CsrfGate.
Import Csrf.

Variable max_string_length : Z.

Lemma num_eqb_truthy x y :
  num_eqb x y = true -> is_zero x || is_nan x = false -> is_zero y || is_nan y = false.
Proof.
  unfold num_eqb, SFeqb.
  destruct x as [s| s| |s m e], y as [s'| s'| |s' m' e']; simpl; try done;
    destruct s; try done; destruct s'; done.
Qed.

Lemma req_eq_truthy a b : truthy a = true -> req_eq a b = true -> truthy b = true.
Proof.
  destruct a as [x|x|tx lx], b as [y|y|ty ly]; simpl; try done.
  - intros Ha E. apply String.eqb_eq in E. by subst.
  - destruct x as [| |bx|x], y as [| |by_|y]; simpl; try done.
    + intros Ha E. apply Bool.eqb_prop in E. by subst.
    + intros Ha E. apply negb_true_iff in Ha. apply negb_true_iff.
      by apply (num_eqb_truthy x y).
Qed.

Lemma supplied_truthy req :
  truthy (supplied req) = truthy (header_csrf req) || truthy (body_csrf req)
                          || truthy (query_csrf req).
Proof.
  unfold supplied, req_or.
  destruct (truthy (header_csrf req)) eqn:Hh; simpl.
  - by rewrite Hh.
  - destruct (truthy (body_csrf req)) eqn:Hb; simpl; [by rewrite Hb | done].
Qed.

Lemma csrf_mismatch req w :
  exempt (method req) = false ->
  truthy (supplied req) = true ->
  req_eq (supplied req) (session_csrf req) = false ->
  csrfProtection max_string_length req w
  = match maskSensitive max_string_length (supplied req) 4 with
    | Return masked => (forbidden_invalid, logSecurityEvent "INVALID_CSRF" masked w)
    | Throw name => (security_error, log_error "CSRF protection error:" name w)
    end.
Proof.
  intros He Hs E. unfold csrfProtection. by rewrite He, Hs, E, orb_true_r.
Qed.

(** C7 (as amended).  GET, HEAD and OPTIONS requests pass through
    unchecked.  For any other method: the request is rejected with 403
    CSRF_MISSING when neither the x-csrf-token header nor the body or query
    [_csrf] field holds a token; it passes through, and nothing is
    written, exactly when the supplied token is strictly equal (for
    strings: character by character, so case-sensitively) to the session's
    csrfToken.  On a mismatch the audit_log table is left unchanged, and:
    a token that is a string, a number or a boolean is rejected with 403
    CSRF_INVALID and one security-event line is written to the console,
    with the token masked (all stars for a string of at most 8 characters,
    the first and last 4 characters around stars for a longer one, the
    empty text for a number or a boolean); a token that is an object or an
    array is rejected in the same way, with as many stars as its length,
    when that length is not negative and within the engine's limit on
    strings, and otherwise answered with 500 SECURITY_ERROR, an error line
    and no security-event line. *)
Theorem csrfProtection_gate req w :
  (exempt (method req) = true -> csrfProtection max_string_length req w = (Next, w)) /\
  (exempt (method req) = false ->
     (truthy (header_csrf req) = false -> truthy (body_csrf req) = false ->
      truthy (query_csrf req) = false ->
      csrfProtection max_string_length req w = (forbidden_missing, w)) /\
     (fst (csrfProtection max_string_length req w) = Next <->
        truthy (supplied req) = true /\
        req_eq (supplied req) (session_csrf req) = true) /\
     (fst (csrfProtection max_string_length req w) = Next ->
      snd (csrfProtection max_string_length req w) = w) /\
     (truthy (supplied req) = true ->
      req_eq (supplied req) (session_csrf req) = false ->
      (forall s, supplied req = RStr s -> (String.length s <= 8)%nat ->
         csrfProtection max_string_length req w =
           (forbidden_invalid,
            mkWorld (console w ++ [("[SECURITY EVENT] INVALID_CSRF:"%string,
                                    stars (String.length s))])
                    (console_error w) (audit_log w))) /\
      (forall s, supplied req = RStr s -> (8 < String.length s)%nat ->
         csrfProtection max_string_length req w =
           (forbidden_invalid,
            mkWorld (console w ++ [("[SECURITY EVENT] INVALID_CSRF:"%string,
                                    (substring 0 4 s
                                     +:+ stars (String.length s - 8)
                                     +:+ substring (String.length s - 4) 4 s)%string)])
                    (console_error w) (audit_log w))) /\
      (forall p, supplied req = RPrim p ->
         csrfProtection max_string_length req w =
           (forbidden_invalid,
            mkWorld (console w ++ [("[SECURITY EVENT] INVALID_CSRF:"%string, EmptyString)])
                    (console_error w) (audit_log w))) /\
      (forall text len n, supplied req = RObj text len ->
         ToIntegerOrInfinity len = Some n -> 0 <= n <= max_string_length ->
         csrfProtection max_string_length req w =
           (forbidden_invalid,
            mkWorld (console w ++ [("[SECURITY EVENT] INVALID_CSRF:"%string,
                                    stars (Z.to_nat n))])
                    (console_error w) (audit_log w))) /\
      (forall text len, supplied req = RObj text len ->
         (ToIntegerOrInfinity len = None \/
          exists n, ToIntegerOrInfinity len = Some n /\ (n < 0 \/ max_string_length < n)) ->
         csrfProtection max_string_length req w =
           (security_error,
            mkWorld (console w)
                    (console_error w ++ [("CSRF protection error:"%string,
                                          "RangeError"%string)])
                    (audit_log w))))) /\
  fst (csrfProtection max_string_length
         (post_with "ABCDEF0123456789" "abcdef0123456789") w)
    = forbidden_invalid.
Proof.
  split; [|split].
  - intros He. unfold csrfProtection. by rewrite He.
  - intros He. split; [|split; [|split]].
    + intros Hh Hb Hq. unfold csrfProtection. rewrite He.
      rewrite supplied_truthy, Hh, Hb, Hq. reflexivity.
    + unfold csrfProtection. rewrite He.
      destruct (truthy (supplied req)) eqn:Hs; simpl.
      * destruct (req_eq (supplied req) (session_csrf req)) eqn:E.
        -- rewrite (req_eq_truthy _ _ Hs E). simpl. by split.
        -- rewrite orb_true_r.
           destruct (maskSensitive max_string_length (supplied req) 4);
             (split; [discriminate | by intros (_ & ?)]).
      * split; [discriminate | by intros (? & _)].
    + unfold csrfProtection. rewrite He.
      destruct (truthy (supplied req)) eqn:Hs; simpl; [|discriminate].
      destruct (negb (truthy (session_csrf req))
                || negb (req_eq (supplied req) (session_csrf req))); [|done].
      by destruct (maskSensitive max_string_length (supplied req) 4).
    + intros Hs E. rewrite (csrf_mismatch req w He Hs E).
      split; [|split; [|split; [|split]]].
      * intros s -> Hlen. cbn [maskSensitive].
        by rewrite (proj2 (Nat.leb_le (String.length s) (4 * 2)) Hlen).
      * intros s -> Hlen. cbn [maskSensitive].
        assert (El : (String.length s <=? 4 * 2)%nat = false) by (apply Nat.leb_gt; lia).
        rewrite El. reflexivity.
      * intros p Hp. rewrite Hp in Hs |- *. by destruct p as [| |[]|x].
      * intros text len n -> Hn Hr. cbn [maskSensitive]. unfold repeat_star. rewrite Hn.
        assert (El : (n <? 0) || (max_string_length <? n) = false).
        { apply orb_false_iff. split; apply Z.ltb_ge; lia. }
        by rewrite El.
      * intros text len -> [Hn|(n & Hn & Hr)]; cbn [maskSensitive]; unfold repeat_star;
          rewrite Hn; [reflexivity|].
        assert (El : (n <? 0) || (max_string_length <? n) = true).
        { apply orb_true_iff. destruct Hr; [left | right]; apply Z.ltb_lt; lia. }
        by rewrite El.
  - reflexivity.
Qed.

End CsrfGate.

Lemma csrfProtection_gate_witness :
  Csrf.csrfProtection sample_limit
    (Csrf.mkRequest "GET" Csrf.absent Csrf.absent Csrf.absent Csrf.absent) quiet
  = (Csrf.Next, quiet) /\
  Csrf.csrfProtection sample_limit
    (Csrf.mkRequest "DELETE" Csrf.absent Csrf.absent Csrf.absent
       (Csrf.RStr "abcdef0123456789")) quiet
  = (Csrf.forbidden_missing, quiet) /\
  fst (Csrf.csrfProtection sample_limit (post_with "abcdef0123456789" "abcdef0123456789")
         quiet) = Csrf.Next /\
  Csrf.csrfProtection sample_limit (post_with "ABCDEF0123456789" "abcdef0123456789") quiet
  = (Csrf.forbidden_invalid,
     Csrf.mkWorld [("[SECURITY EVENT] INVALID_CSRF:"%string, "ABCD********6789"%string)]
                  [] []) /\
  Csrf.csrfProtection sample_limit (post_with "ABCDEF" "abcdef0123456789") quiet
  = (Csrf.forbidden_invalid,
     Csrf.mkWorld [("[SECURITY EVENT] INVALID_CSRF:"%string, "******"%string)] [] []) /\
  Csrf.csrfProtection sample_limit (post_object (of_Z 3) "abcdef0123456789") quiet
  = (Csrf.forbidden_invalid,
     Csrf.mkWorld [("[SECURITY EVENT] INVALID_CSRF:"%string, "***"%string)] [] []) /\
  Csrf.csrfProtection sample_limit (post_object (of_Z (-1)) "abcdef0123456789") quiet
  = (Csrf.security_error,
     Csrf.mkWorld [] [("CSRF protection error:"%string, "RangeError"%string)] []).
Proof.
  split; [|split; [|split; [|split; [|split; [|split]]]]].
  - apply (proj1 (csrfProtection_gate sample_limit
             (Csrf.mkRequest "GET" Csrf.absent Csrf.absent Csrf.absent Csrf.absent) quiet)).
    reflexivity.
  - apply (proj1 (proj1 (proj2 (csrfProtection_gate sample_limit
             (Csrf.mkRequest "DELETE" Csrf.absent Csrf.absent Csrf.absent
                (Csrf.RStr "abcdef0123456789")) quiet))
             eq_refl)); reflexivity.
  - apply (proj1 (proj2 (proj1 (proj2 (csrfProtection_gate sample_limit
             (post_with "abcdef0123456789" "abcdef0123456789") quiet)) eq_refl))).
    split; reflexivity.
  - apply (proj1 (proj2 (proj2 (proj2 (proj2 (proj1 (proj2 (csrfProtection_gate sample_limit
             (post_with "ABCDEF0123456789" "abcdef0123456789") quiet)) eq_refl)))
             eq_refl eq_refl)) "ABCDEF0123456789"%string eq_refl).
    cbn. lia.
  - apply (proj1 (proj2 (proj2 (proj2 (proj1 (proj2 (csrfProtection_gate sample_limit
             (post_with "ABCDEF" "abcdef0123456789") quiet)) eq_refl)))
             eq_refl eq_refl) "ABCDEF"%string eq_refl).
    cbn. lia.
  - apply (proj1 (proj2 (proj2 (proj2 (proj2 (proj2 (proj2 (proj1 (proj2
             (csrfProtection_gate sample_limit
                (post_object (of_Z 3) "abcdef0123456789") quiet)) eq_refl)))
             eq_refl eq_refl)))) "[object Object]"%string (of_Z 3) 3 eq_refl).
    + vm_compute. reflexivity.
    + unfold sample_limit. lia.
  - apply (proj2 (proj2 (proj2 (proj2 (proj2 (proj2 (proj2 (proj1 (proj2
             (csrfProtection_gate sample_limit
                (post_object (of_Z (-1)) "abcdef0123456789") quiet)) eq_refl)))
             eq_refl eq_refl)))) "[object Object]"%string (of_Z (-1)) eq_refl).
    right. exists (-1). split; [vm_compute; reflexivity | left; lia].
Defined.

(** C7, the claim as worded fails: a POST whose token differs from the
    session's is rejected, but the audit_log table stays empty; the only
    trace is a console line with the masked token. *)
Lemma csrf_mismatch_leaves_audit_log_empty :
  Csrf.csrfProtection sample_limit (post_with "0123456789abcdef" "fedcba9876543210") quiet =
    (Csrf.forbidden_invalid,
     Csrf.mkWorld [("[SECURITY EVENT] INVALID_CSRF:"%string, "0123********cdef"%string)]
                  [] []) /\
  Csrf.audit_log
    (snd (Csrf.csrfProtection sample_limit
            (post_with "0123456789abcdef" "fedcba9876543210") quiet))
    = [].
Proof. split; reflexivity. Qed.

(** ** Deleting users *)

Section LastAdmin.
Import UserModel.

Lemma delete_refused db id deletedBy user :
  fst (findById id db) = Return (Some user) ->
  uRole user = "admin"%string ->
  (adminCount db <= 1)%nat ->
  delete id deletedBy db = (Throw "Cannot delete the last admin user", db).
Proof.
  unfold delete, bind, findById, gets. simpl. intros Hf Hr Hc.
  injection Hf as Hf. rewrite Hf, Hr. simpl.
  destruct (adminCount db <=? 1)%nat eqn:E; [reflexivity|].
  apply Nat.leb_gt in E. lia.
Qed.

Lemma active_admins_delete_other (m : gmap Z user_row) id r :
  m !! id = Some r -> role r <> "admin"%string ->
  size (active_admins (base.delete id m)) = size (active_admins m).
Proof.
  intros Hl Hr. unfold active_admins. rewrite map_filter_delete.
  apply map_size_delete_None. apply map_lookup_filter_None. right.
  intros x Hx [Hrole _]. simpl in Hrole. congruence.
Qed.

Lemma active_admins_delete_ge (m : gmap Z user_row) id :
  (size (active_admins m) - 1 <= size (active_admins (base.delete id m)))%nat.
Proof.
  unfold active_admins. rewrite map_filter_delete, map_size_delete.
  destruct (filter _ m !! id); simpl; lia.
Qed.

Lemma construct_role_admin id r : uRole (construct id r) = "admin"%string <-> role r = "admin"%string.
Proof.
  unfold construct; simpl. destruct (String.eqb (role r) EmptyString) eqn:E.
  - apply String.eqb_eq in E. rewrite E. split; discriminate.
  - reflexivity.
Qed.

Lemma delete_cases db id deletedBy :
  delete id deletedBy db =
    match users db !! id with
    | None => (Throw "User not found", db)
    | Some r =>
        if String.eqb (uRole (construct id r)) "admin" && (adminCount db <=? 1)%nat
        then (Throw "Cannot delete the last admin user", db)
        else (Return true,
              mkDb (base.delete id (users db))
                   (List.filter (fun s => negb (s_user_id s =? id)) (sessions db))
                   (audit_log db ++ [{| a_user_id := deletedBy; a_action := "DELETE";
                                        a_entity_id := id;
                                        a_new_values := construct id r |}]))
    end.
Proof.
  unfold delete, bind, findById, gets.
  destruct (users db !! id) as [r|]; [|reflexivity].
  cbn [fmap option_fmap option_map].
  destruct (String.eqb (uRole (construct id r)) "admin" && (adminCount db <=? 1)%nat);
    reflexivity.
Qed.

Lemma delete_keeps_admin db id deletedBy :
  (1 <= adminCount db)%nat -> (1 <= adminCount (snd (delete id deletedBy db)))%nat.
Proof.
  intros H1. rewrite delete_cases.
  destruct (users db !! id) as [r|] eqn:Hl; [|done].
  destruct (String.eqb (uRole (construct id r)) "admin") eqn:Hr.
  - destruct (adminCount db <=? 1)%nat eqn:E; [done|].
    apply Nat.leb_gt in E. unfold adminCount in *. cbn.
    pose proof (active_admins_delete_ge (users db) id). lia.
  - unfold adminCount in *. cbn.
    rewrite (active_admins_delete_other _ _ r); [done | done |].
    intros Hrole. apply construct_role_admin with (id := id) in Hrole.
    rewrite Hrole in Hr. discriminate.
Qed.

(** C10.  [User.delete(id, actor)] refuses to delete the last active admin:
    when the target user's role is 'admin' and at most one active user has
    role 'admin', it throws and leaves the database, so the users and the
    sessions tables, as it was.  Hence every sequence of [User.delete]
    calls that starts with at least one active admin ends with at least
    one active admin. *)
Theorem delete_never_removes_last_admin :
  (forall db id deletedBy user,
      fst (findById id db) = Return (Some user) ->
      uRole user = "admin"%string ->
      (adminCount db <= 1)%nat ->
      delete id deletedBy db = (Throw "Cannot delete the last admin user", db)) /\
  (forall calls db,
      (1 <= adminCount db)%nat -> (1 <= adminCount (delete_all calls db))%nat).
Proof.
  split.
  - apply delete_refused.
  - intros calls. induction calls as [|[id deletedBy] calls IH]; intros db H1; simpl.
    + exact H1.
    + apply IH. by apply delete_keeps_admin.
Qed.

Lemma delete_never_removes_last_admin_witness :
  delete 1 (Some 3) small_office = (Throw "Cannot delete the last admin user", small_office) /\
  (1 <= adminCount (delete_all [(3, Some 1); (1, Some 1); (2, Some 1); (1, None)]%Z
                       small_office))%nat.
Proof.
  split.
  - apply (proj1 delete_never_removes_last_admin small_office 1 (Some 3)
             (mkUserObject (Some 1) "admin" "admin@princessgold.com" "admin" true)).
    + vm_compute. reflexivity.
    + reflexivity.
    + vm_compute. lia.
  - apply (proj2 delete_never_removes_last_admin). vm_compute. lia.
Defined.

End LastAdmin.

(** ** The price version store *)

Section PriceStore.

Lemma prices_set_prices k rows db : prices k (set_prices k rows db) = rows.
Proof. by destruct k. Qed.

Lemma prices_set_prices_ne k k' rows db :
  k <> k' -> prices k' (set_prices k rows db) = prices k' db.
Proof. by destruct k, k'. Qed.

Lemma prices_set_seq k k' n db : prices k' (set_seq k n db) = prices k' db.
Proof. by destruct k, k'. Qed.

Lemma prices_add_audit k a db : prices k (add_audit a db) = prices k db.
Proof. by destruct k. Qed.

Lemma instruments_set_prices k k' rows db :
  instruments k' (set_prices k rows db) = instruments k' db.
Proof. by destruct k, k'. Qed.

Lemma instruments_set_seq k k' n db : instruments k' (set_seq k n db) = instruments k' db.
Proof. by destruct k, k'. Qed.

Lemma instruments_add_audit k a db : instruments k (add_audit a db) = instruments k db.
Proof. by destruct k. Qed.

Lemma seq_value_set_prices k k' rows db :
  seq_value k' (set_prices k rows db) = seq_value k' db.
Proof. by destruct k, k'. Qed.

Lemma seq_value_add_audit k a db : seq_value k (add_audit a db) = seq_value k db.
Proof. by destruct k. Qed.

Lemma filter_none {A} (l : list A) : List.filter (fun _ => false) l = [].
Proof. by induction l. Qed.

Lemma findById_null k db : findById k None db = (Return None, db).
Proof.
  unfold findById, gets. f_equal. f_equal.
  replace (fun x : price_row * instrument_row => sql_eq (Some (row_id x.1)) None)
    with (fun _ : price_row * instrument_row => false) by reflexivity.
  by rewrite filter_none.
Qed.

Lemma accepts_spec k d db :
  accepts k d db
  = not_null (dInstrumentId d) (dBuyPrice d) (dSellPrice d)
             (JNum (js_sub (dSellPrice d) (dBuyPrice d)))
    && references k (dInstrumentId d) db.
Proof.
  unfold accepts, not_null, references. cbn [is_null negb]. rewrite andb_true_r.
  destruct (dInstrumentId d) as [i|]; cbn [andb]; [|by rewrite bool_decide_eq_false_2
    by (intros [? ?]; discriminate)].
  rewrite (bool_decide_eq_true_2 (is_Some (Some i))) by eauto. cbn [andb].
  destruct (bool_decide (is_Some (instruments k db !! i))),
    (is_null (dBuyPrice d)), (is_null (dSellPrice d)); reflexivity.
Qed.

Lemma accepts_true k d db :
  accepts k d db = true <->
  (exists i g, dInstrumentId d = Some i /\ instruments k db !! i = Some g) /\
  is_null (dBuyPrice d) = false /\ is_null (dSellPrice d) = false.
Proof.
  unfold accepts. rewrite !andb_true_iff, !negb_true_iff. split.
  - intros [[Hi Hb] Hs]. split; [|done].
    destruct (dInstrumentId d) as [i|]; [|done].
    apply bool_decide_eq_true_1 in Hi as [g Hg]. by exists i, g.
  - intros [(i & g & -> & Hg) [Hb Hs]]. split; [split|]; try done.
    apply bool_decide_eq_true_2. by exists g.
Qed.

Lemma create_accepted k tc ti d updatedBy db :
  accepts k d db = true ->
  create k tc ti d updatedBy db = (Return None, after_create k tc ti d updatedBy db).
Proof.
  intros Ha. rewrite accepts_spec in Ha. apply andb_true_iff in Ha as [Hn Hr].
  unfold create, bind, insert_price, logChange, modify. cbv beta iota.
  unfold references in *. rewrite instruments_set_prices, Hn, Hr. cbn [negb run_id].
  rewrite findById_null. unfold after_create, created_row.
  rewrite prices_set_prices, seq_value_set_prices.
  by destruct k.
Qed.

Lemma create_refused k tc ti d updatedBy db :
  accepts k d db = false ->
  create k tc ti d updatedBy db
  = (Throw (if not_null (dInstrumentId d) (dBuyPrice d) (dSellPrice d)
                        (JNum (js_sub (dSellPrice d) (dBuyPrice d)))
            then foreign_key_violation else not_null_violation),
     after_refused k tc d db).
Proof.
  intros Ha. rewrite accepts_spec in Ha.
  unfold create, bind, insert_price, modify. cbv beta iota.
  unfold references in *. rewrite instruments_set_prices, seq_value_set_prices.
  unfold after_refused.
  destruct (not_null _ _ _ _); cbn [negb andb] in *; [|reflexivity].
  by rewrite Ha.
Qed.

Lemma create_state k tc ti d updatedBy db :
  snd (create k tc ti d updatedBy db)
  = if accepts k d db then after_create k tc ti d updatedBy db
    else after_refused k tc d db.
Proof.
  destruct (accepts k d db) eqn:E.
  - by rewrite create_accepted.
  - by rewrite create_refused.
Qed.

Lemma create_prices k tc ti d updatedBy db :
  prices k (snd (create k tc ti d updatedBy db)) =
    map (close_open (dInstrumentId d) tc) (prices k db)
    ++ (if accepts k d db then [created_row k ti d updatedBy db] else []).
Proof.
  rewrite create_state. destruct (accepts k d db).
  - unfold after_create. by rewrite prices_add_audit, prices_set_seq, prices_set_prices.
  - unfold after_refused. by rewrite prices_set_seq, prices_set_prices, app_nil_r.
Qed.

Lemma create_prices_ne k k' tc ti d updatedBy db :
  k <> k' -> prices k' (snd (create k tc ti d updatedBy db)) = prices k' db.
Proof.
  intros Hk. rewrite create_state. destruct (accepts k d db).
  - unfold after_create. by rewrite prices_add_audit, prices_set_seq, prices_set_prices_ne.
  - unfold after_refused. by rewrite prices_set_seq, prices_set_prices_ne.
Qed.

Lemma create_instruments k k' tc ti d updatedBy db :
  instruments k' (snd (create k tc ti d updatedBy db)) = instruments k' db.
Proof.
  rewrite create_state. destruct (accepts k d db).
  - unfold after_create.
    by rewrite instruments_add_audit, instruments_set_seq, instruments_set_prices.
  - unfold after_refused. by rewrite instruments_set_seq, instruments_set_prices.
Qed.

(** *** At most one open record per instrument *)

Lemma open_for_closed i tc r : open_for i (close_open (Some i) tc r) = false.
Proof.
  unfold close_open. fold (open_for i r).
  destruct (open_for i r) eqn:E; [|exact E].
  unfold open_for. cbn. apply andb_false_r.
Qed.

Lemma open_for_close_other i j tc r :
  j <> Some i -> open_for i (close_open j tc r) = open_for i r.
Proof.
  intros Hj. unfold close_open.
  destruct (sql_eq (instrument_id r) j && bool_decide (effective_until r = None)) eqn:E;
    [|reflexivity].
  apply andb_true_iff in E as [E _]. unfold open_for. cbn.
  destruct (instrument_id r) as [a|], j as [b|]; try discriminate.
  cbn in E. apply Z.eqb_eq in E. subst b.
  assert (a <> i) by congruence. cbn.
  by destruct (Z.eqb_spec a i).
Qed.

Lemma close_open_not_open i tc r : open_for i r = false -> close_open (Some i) tc r = r.
Proof. unfold close_open. fold (open_for i r). by intros ->. Qed.

Lemma close_open_open i tc r :
  open_for i r = true ->
  close_open (Some i) tc r
  = mkRow (row_id r) (instrument_id r) (buy_price r) (sell_price r) (row_spread r)
          (margin_buy r) (margin_sell r) (is_manual r) (updated_by r)
          (effective_from r) (Some tc) (created_at r).
Proof. unfold close_open. fold (open_for i r). by intros ->. Qed.

Lemma closed_rows_not_open i tc l :
  List.filter (open_for i) (map (close_open (Some i) tc) l) = [].
Proof.
  induction l as [|r l IH]; [reflexivity|].
  cbn [map List.filter]. by rewrite open_for_closed.
Qed.

Lemma other_rows_keep_open i j tc l :
  j <> Some i ->
  length (List.filter (open_for i) (map (close_open j tc) l))
    = length (List.filter (open_for i) l).
Proof.
  intros Hj. induction l as [|r l IH]; [reflexivity|].
  cbn [map List.filter]. rewrite open_for_close_other by done.
  destruct (open_for i r); cbn [length]; by rewrite IH.
Qed.

Lemma open_for_created k ti d updatedBy db i :
  open_for i (created_row k ti d updatedBy db) = sql_eq (dInstrumentId d) (Some i).
Proof. unfold open_for. cbn. apply andb_true_r. Qed.

Lemma create_open_count_same k tc ti d updatedBy db i :
  dInstrumentId d = Some i ->
  open_count k i (snd (create k tc ti d updatedBy db))
  = if accepts k d db then 1%nat else 0%nat.
Proof.
  intros Hd. unfold open_count. rewrite create_prices, List.filter_app, Hd.
  rewrite closed_rows_not_open. destruct (accepts k d db); [|reflexivity].
  cbn [List.filter app].
  rewrite open_for_created, Hd. cbn. by rewrite Z.eqb_refl.
Qed.

Lemma create_open_count_other k k' tc ti d updatedBy db i :
  (k' <> k \/ dInstrumentId d <> Some i) ->
  open_count k' i (snd (create k tc ti d updatedBy db)) = open_count k' i db.
Proof.
  intros H. unfold open_count.
  destruct (decide (k = k')) as [<-|Hk].
  - destruct H as [H|H]; [done|].
    rewrite create_prices, List.filter_app, length_app.
    rewrite other_rows_keep_open by done.
    destruct (accepts k d db); cbn [List.filter length]; [|lia].
    rewrite open_for_created.
    destruct (dInstrumentId d) as [j|]; cbn; [|lia].
    destruct (Z.eqb_spec j i); [congruence | cbn; lia].
  - by rewrite create_prices_ne.
Qed.

Lemma create_at_most_one_open k tc ti d updatedBy db :
  at_most_one_open db -> at_most_one_open (snd (create k tc ti d updatedBy db)).
Proof.
  intros Hinv k' i.
  destruct (decide (k' = k /\ dInstrumentId d = Some i)) as [[-> Hd]|Hn].
  - rewrite create_open_count_same by done. destruct (accepts k d db); lia.
  - rewrite create_open_count_other; [apply Hinv|].
    destruct (decide (k' = k)); [right | left]; tauto.
Qed.

Lemma param_not_null v : is_null v = false -> param v = v.
Proof. by destruct v. Qed.

Lemma js_or_zero_param a : param (js_or a (JNum pzero)) = js_or a (JNum pzero).
Proof. unfold js_or. by destruct a as [| |[]|x]; cbn; try destruct (_ || _). Qed.

Lemma flag_param v : param (flag v) = flag v.
Proof. unfold flag. by destruct (ToBoolean v). Qed.

Lemma created_row_fields k ti d updatedBy db :
  is_null (dBuyPrice d) = false -> is_null (dSellPrice d) = false ->
  created_row k ti d updatedBy db
  = mkRow (seq_value k db) (dInstrumentId d) (dBuyPrice d) (dSellPrice d)
          (JNum (js_sub (dSellPrice d) (dBuyPrice d)))
          (js_or (dMarginBuy d) (JNum pzero)) (js_or (dMarginSell d) (JNum pzero))
          (flag (dIsManual d)) updatedBy ti None ti.
Proof.
  intros Hb Hs. unfold created_row.
  by rewrite (param_not_null _ Hb), (param_not_null _ Hs), !js_or_zero_param, flag_param.
Qed.

Lemma accepts_false k d db :
  accepts k d db = false <->
  dInstrumentId d = None \/
  (exists i, dInstrumentId d = Some i /\ instruments k db !! i = None) \/
  is_null (dBuyPrice d) = true \/ is_null (dSellPrice d) = true.
Proof.
  split.
  - intros Ha. destruct (dInstrumentId d) as [i|] eqn:Ei; [|by left]. right.
    destruct (instruments k db !! i) as [g|] eqn:Eg; [|left; by exists i].
    right. destruct (is_null (dBuyPrice d)) eqn:Eb; [by left|].
    destruct (is_null (dSellPrice d)) eqn:Es; [by right|].
    assert (accepts k d db = true); [|congruence].
    apply accepts_true. split; [|done]. by exists i, g.
  - intros H. destruct (accepts k d db) eqn:Ha; [|done].
    apply accepts_true in Ha as [(i & g & Hi & Hg) [Hb Hs]].
    destruct H as [H|[(j & Hj & Hn)|[H|H]]]; congruence.
Qed.

(** C1 (as amended).  [create] closes, at its clock reading, every open
    record of the instrument and leaves the other rows as they are.  When
    the INSERT meets the constraints of the table (the instrument is a row
    of the store and both prices are given) it then appends exactly one
    row, whose effectiveUntil is null, and the instrument has exactly one
    open record.  Otherwise the INSERT is refused: [create] throws after
    the close, nothing is appended, and the instrument is left without an
    open record.  In both cases, from a store in which every instrument
    has at most one open record, every sequence of [create] calls on the
    gold or the currency store leads to a store in which every instrument
    has at most one open record. *)
Theorem create_keeps_one_open :
  (forall i tc r,
      (open_for i r = true ->
       close_open (Some i) tc r
       = mkRow (row_id r) (instrument_id r) (buy_price r) (sell_price r) (row_spread r)
               (margin_buy r) (margin_sell r) (is_manual r) (updated_by r)
               (effective_from r) (Some tc) (created_at r)) /\
      (open_for i r = false -> close_open (Some i) tc r = r)) /\
  (forall k tc ti d updatedBy db i g,
      dInstrumentId d = Some i -> instruments k db !! i = Some g ->
      is_null (dBuyPrice d) = false -> is_null (dSellPrice d) = false ->
      fst (create k tc ti d updatedBy db) = Return None /\
      prices k (snd (create k tc ti d updatedBy db)) =
        map (close_open (Some i) tc) (prices k db)
        ++ [mkRow (seq_value k db) (Some i) (dBuyPrice d) (dSellPrice d)
                  (JNum (js_sub (dSellPrice d) (dBuyPrice d)))
                  (js_or (dMarginBuy d) (JNum pzero)) (js_or (dMarginSell d) (JNum pzero))
                  (flag (dIsManual d)) updatedBy ti None ti] /\
      open_count k i (snd (create k tc ti d updatedBy db)) = 1%nat) /\
  (forall k tc ti d updatedBy db,
      dInstrumentId d = None \/
      (exists i, dInstrumentId d = Some i /\ instruments k db !! i = None) \/
      is_null (dBuyPrice d) = true \/ is_null (dSellPrice d) = true ->
      (exists msg, fst (create k tc ti d updatedBy db) = Throw msg) /\
      prices k (snd (create k tc ti d updatedBy db)) =
        map (close_open (dInstrumentId d) tc) (prices k db) /\
      (forall i, dInstrumentId d = Some i ->
                 open_count k i (snd (create k tc ti d updatedBy db)) = 0%nat)) /\
  (forall calls db, at_most_one_open db -> at_most_one_open (create_all calls db)).
Proof.
  split; [|split; [|split]].
  - intros i tc r. split; [apply close_open_open | apply close_open_not_open].
  - intros k tc ti d updatedBy db i g Hd Hg Hb Hs.
    assert (Ha : accepts k d db = true).
    { apply accepts_true. split; [|done]. by exists i, g. }
    split; [by rewrite create_accepted|]. split.
    + rewrite create_prices, Ha, (created_row_fields _ _ _ _ _ Hb Hs). by rewrite Hd.
    + rewrite create_open_count_same by done. by rewrite Ha.
  - intros k tc ti d updatedBy db H. apply accepts_false in H as Ha.
    split; [rewrite create_refused by done; by eexists|]. split.
    + by rewrite create_prices, Ha, app_nil_r.
    + intros i Hd. rewrite create_open_count_same by done. by rewrite Ha.
  - intros calls. induction calls as [|c calls IH]; intros db Hinv; [exact Hinv|].
    cbn [create_all fold_left]. apply IH. by apply create_at_most_one_open.
Qed.

Lemma create_keeps_one_open_witness :
  open_count Gold 1
    (snd (create Gold 20 21 (quote_data 1 251 262) (Some 1) one_version)) = 1%nat /\
  open_count Gold 1
    (snd (create Gold 20 21 (buy_only_quote 1 251) (Some 1) one_version)) = 0%nat /\
  Nat.le (open_count Gold 1
     (create_all [mkCall Gold 10 10 (quote_data 1 250 260) (Some 1);
                  mkCall Currency 11 12 (quote_data 3 3 4) None;
                  mkCall Gold 20 21 (quote_data 9 251 262) (Some 1);
                  mkCall Gold 22 23 (quote_data 1 251 262) (Some 1);
                  mkCall Gold 24 25 (buy_only_quote 2 230) (Some 1)] fresh_db)) 1%nat.
Proof.
  destruct create_keeps_one_open as (_ & Hok & Hno & Hinv).
  split; [|split].
  - apply (Hok Gold 20 21 (quote_data 1 251 262) (Some 1) one_version 1 (karat "Gold 24K"));
      reflexivity.
  - apply (Hno Gold 20 21 (buy_only_quote 1 251) (Some 1) one_version);
      [right; right; right|]; reflexivity.
  - apply Hinv. intros k i. destruct k; cbn; lia.
Defined.

(** C1, the claim as worded fails: [create] does not always insert a
    record.  With record 1 of Gold 24K open, a [create] for the unknown
    gold type 9 violates the FOREIGN KEY and leaves the table as it was,
    and a [create] for Gold 24K without a sell price violates NOT NULL
    after record 1 has been closed: nothing is inserted and Gold 24K is
    left without an open record. *)
Lemma create_refused_inserts_nothing :
  fst (create Gold 20 21 (quote_data 9 251 262) (Some 1) one_version)
  = Throw foreign_key_violation /\
  gold_prices (snd (create Gold 20 21 (quote_data 9 251 262) (Some 1) one_version))
  = gold_prices one_version /\
  fst (create Gold 20 21 (buy_only_quote 1 251) (Some 1) one_version)
  = Throw not_null_violation /\
  gold_prices (snd (create Gold 20 21 (buy_only_quote 1 251) (Some 1) one_version))
  = [mkRow 1 (Some 1) (JNum (of_Z 250)) (JNum (of_Z 260)) (JNum (of_Z 10))
           (JNum (dec 2 2)) (JNum (dec 2 2)) (JNum (of_Z 1)) (Some 1) 10 (Some 20) 10] /\
  open_count Gold 1 (snd (create Gold 20 21 (buy_only_quote 1 251) (Some 1) one_version))
  = 0%nat.
Proof. repeat split; vm_compute; reflexivity. Qed.

(** *** The current record after a create *)

Lemma filter_omap_nil {A B} (f : A -> option B) (P : B -> bool) (l : list A) :
  (forall a b, In a l -> f a = Some b -> P b = false) ->
  List.filter P (omap f l) = [].
Proof.
  induction l as [|a l IH]; intros H; [reflexivity|].
  cbn [omap list_omap]. destruct (f a) as [b|] eqn:E.
  - cbn [List.filter]. rewrite (H a b); [|by left|done].
    apply IH. intros a' b' Hin. apply H. by right.
  - apply IH. intros a' b' Hin. apply H. by right.
Qed.

Lemma joined_fst k db r x : joined k db r = Some x -> x.1 = r.
Proof.
  unfold joined. destruct (instrument_id r); [|done].
  destruct (_ !! _); [|done]. by intros [= <-].
Qed.

Lemma closed_row_not_current k i tc tq db r :
  closed_by k i tc db -> tc <= tq -> In r (prices k db) ->
  sql_eq (instrument_id (close_open (Some i) tc r)) (Some i)
  && current_at tq (close_open (Some i) tc r) = false.
Proof.
  intros Hc Hle Hin. unfold close_open.
  destruct (sql_eq (instrument_id r) (Some i)) eqn:Ei; cbn [andb].
  - destruct (effective_until r) as [u|] eqn:Eu.
    + rewrite bool_decide_eq_false_2 by done. rewrite Ei. cbn [andb].
      unfold current_at. rewrite Eu.
      assert (u <= tc).
      { apply (Hc r u); [done| |done].
        destruct (instrument_id r) as [a|]; [|done].
        cbn in Ei. apply Z.eqb_eq in Ei. by subst. }
      apply andb_false_iff. right. apply Z.ltb_ge. lia.
    + rewrite bool_decide_eq_true_2 by done. cbn. rewrite Ei. cbn [andb].
      unfold current_at. cbn.
      apply andb_false_iff. right. apply Z.ltb_ge. lia.
  - by rewrite Ei.
Qed.

Lemma create_current_rows k db tc ti tq i g d updatedBy :
  instruments k db !! i = Some g ->
  dInstrumentId d = Some i ->
  closed_by k i tc db ->
  tc <= ti -> ti <= tq ->
  current_rows k (Some i) tq (snd (create k tc ti d updatedBy db))
    = if accepts k d db then [(created_row k ti d updatedBy db, g)] else [].
Proof.
  intros Hg Hd Hc H1 H2. unfold current_rows, join.
  rewrite create_prices, omap_app, List.filter_app.
  rewrite filter_omap_nil.
  - destruct (accepts k d db); [|reflexivity].
    cbn [app omap list_omap]. unfold joined at 1.
    rewrite create_instruments. cbn [created_row instrument_id].
    rewrite Hd, Hg. cbn [List.filter fst].
    unfold current_at. cbn [created_row instrument_id effective_from effective_until].
    rewrite Hd. cbn [sql_eq]. rewrite Z.eqb_refl.
    by rewrite (proj2 (Z.leb_le ti tq) H2).
  - intros r x Hin Hj. apply joined_fst in Hj. rewrite Hj.
    apply list_elem_of_In, list_elem_of_fmap in Hin as (r0 & -> & Hin0).
    rewrite Hd. apply (closed_row_not_current k i tc tq db); [done|lia|].
    by apply list_elem_of_In.
Qed.

Lemma create_closed_by k k' i t tc ti d updatedBy db :
  closed_by k i t db -> t <= tc ->
  closed_by k i tc (snd (create k' tc ti d updatedBy db)).
Proof.
  intros Hc Hle r u Hin Hi Hu.
  destruct (decide (k' = k)) as [->|Hk].
  - rewrite create_prices in Hin. apply in_app_or in Hin as [Hin|Hin].
    + apply list_elem_of_In, list_elem_of_fmap in Hin as (r0 & -> & Hin0).
      apply list_elem_of_In in Hin0. unfold close_open in *.
      destruct (sql_eq (instrument_id r0) (dInstrumentId d)
                && bool_decide (effective_until r0 = None)).
      * cbn in Hu. injection Hu as <-. lia.
      * specialize (Hc r0 u Hin0 Hi Hu). lia.
    + destruct (accepts k d db); [|destruct Hin].
      destruct Hin as [<-|[]]. discriminate.
  - rewrite create_prices_ne in Hin by done.
    specialize (Hc r u Hin Hi Hu). lia.
Qed.

Lemma closed_by_mono k i t t' db : closed_by k i t db -> t <= t' -> closed_by k i t' db.
Proof. intros Hc Hle r u Hin Hi Hu. specialize (Hc r u Hin Hi Hu). lia. Qed.

Lemma closed_by_no_prices k i t db : prices k db = [] -> closed_by k i t db.
Proof. intros E r u Hin. rewrite E in Hin. destruct Hin. Qed.

Lemma js_or_zero_idem a : js_or (js_or a (JNum pzero)) (JNum pzero) = js_or a (JNum pzero).
Proof. unfold js_or. by destruct (ToBoolean a) eqn:E; [rewrite E|]. Qed.

Lemma js_or_number x : js_or (JNum x) (JNum pzero) = JNum (or_zero x).
Proof. unfold js_or, or_zero. cbn. by destruct (is_zero x || is_nan x). Qed.

Lemma js_or_flag v :
  js_or (flag v) (JBool false) = if ToBoolean v then JNum (of_Z 1) else JBool false.
Proof. unfold flag. by destruct (ToBoolean v). Qed.

(** The object that the constructor makes of the row that [create]
    inserts, field by field. *)
Lemma construct_created k ti d updatedBy db g :
  is_null (dBuyPrice d) = false -> is_null (dSellPrice d) = false ->
  construct (created_row k ti d updatedBy db) g
  = mkObject (nz (seq_value k db)) (from_option nz None (dInstrumentId d))
             (js_or (dBuyPrice d) (JNum pzero)) (js_or (dSellPrice d) (JNum pzero))
             (JNum (or_zero (js_sub (dSellPrice d) (dBuyPrice d))))
             (js_or (dMarginBuy d) (JNum pzero)) (js_or (dMarginSell d) (JNum pzero))
             (if ToBoolean (dIsManual d) then JNum (of_Z 1) else JBool false)
             (from_option nz None updatedBy) (Some ti) None (Some ti)
             (or_null (ins_code g)) (or_null (ins_name g)).
Proof.
  intros Hb Hs. rewrite (created_row_fields _ _ _ _ _ Hb Hs). unfold construct.
  cbn [row_id instrument_id buy_price sell_price row_spread margin_buy margin_sell
       is_manual updated_by effective_from effective_until created_at].
  by rewrite !js_or_zero_idem, js_or_number, js_or_flag.
Qed.

(** C2 (as amended).  For an instrument of the store, [create] with both
    prices given, immediately followed by [getCurrent] (getCurrentPrice /
    getCurrentRate), answers the record just created: it is the only row
    that qualifies, its effectiveFrom is the clock reading of the insert,
    which is not after the query, and its effectiveUntil is null; a record
    that was open is closed with effectiveUntil equal to the clock reading
    of the close, and so fails effectiveUntil > now.  When a price is
    missing, the INSERT is refused after the close and [getCurrent] answers
    null.  The clock does not go back, and no record of the instrument was
    closed later than the call. *)
Theorem create_then_getCurrent k db tc ti tq i g d updatedBy :
  instruments k db !! i = Some g ->
  dInstrumentId d = Some i ->
  closed_by k i tc db ->
  tc <= ti -> ti <= tq ->
  (is_null (dBuyPrice d) = false -> is_null (dSellPrice d) = false ->
   getCurrent k tq (Some i) (snd (create k tc ti d updatedBy db))
   = (Return (Some
        (mkObject (nz (seq_value k db)) (nz i)
                  (js_or (dBuyPrice d) (JNum pzero)) (js_or (dSellPrice d) (JNum pzero))
                  (JNum (or_zero (js_sub (dSellPrice d) (dBuyPrice d))))
                  (js_or (dMarginBuy d) (JNum pzero)) (js_or (dMarginSell d) (JNum pzero))
                  (if ToBoolean (dIsManual d) then JNum (of_Z 1) else JBool false)
                  (from_option nz None updatedBy) (Some ti) None (Some ti)
                  (or_null (ins_code g)) (or_null (ins_name g)))),
      snd (create k tc ti d updatedBy db)) /\
   current_rows k (Some i) tq (snd (create k tc ti d updatedBy db))
   = [(mkRow (seq_value k db) (Some i) (dBuyPrice d) (dSellPrice d)
             (JNum (js_sub (dSellPrice d) (dBuyPrice d)))
             (js_or (dMarginBuy d) (JNum pzero)) (js_or (dMarginSell d) (JNum pzero))
             (flag (dIsManual d)) updatedBy ti None ti, g)]) /\
  (is_null (dBuyPrice d) = true \/ is_null (dSellPrice d) = true ->
   (exists msg, fst (create k tc ti d updatedBy db) = Throw msg) /\
   getCurrent k tq (Some i) (snd (create k tc ti d updatedBy db))
   = (Return None, snd (create k tc ti d updatedBy db))) /\
  (forall r, In r (prices k db) -> open_for i r = true ->
     effective_until (close_open (Some i) tc r) = Some tc /\
     current_at tq (close_open (Some i) tc r) = false).
Proof.
  intros Hg Hd Hc H1 H2.
  pose proof (create_current_rows k db tc ti tq i g d updatedBy Hg Hd Hc H1 H2) as Hrows.
  split; [|split].
  - intros Hb Hs.
    assert (Ha : accepts k d db = true).
    { apply accepts_true. split; [|done]. by exists i, g. }
    rewrite Ha in Hrows. split.
    + unfold getCurrent, gets. rewrite Hrows. cbn [latest fold_left later].
      rewrite (construct_created _ _ _ _ _ _ Hb Hs). by rewrite Hd.
    + rewrite Hrows, (created_row_fields _ _ _ _ _ Hb Hs). by rewrite Hd.
  - intros Hn.
    assert (Ha : accepts k d db = false).
    { apply accepts_false. right. right. exact Hn. }
    rewrite Ha in Hrows. split.
    + rewrite create_refused by done. by eexists.
    + unfold getCurrent, gets. by rewrite Hrows.
  - intros r Hin Ho. unfold close_open. fold (open_for i r). rewrite Ho.
    split; [reflexivity|]. unfold current_at. cbn.
    apply andb_false_iff. right. apply Z.ltb_ge. lia.
Qed.

Lemma create_then_getCurrent_witness :
  fst (getCurrent Gold 21 (Some 1)
         (snd (create Gold 20 21 (quote_data 1 251 262) (Some 1) one_version)))
  = Return (Some (mkObject (Some 2) (Some 1) (JNum (of_Z 251)) (JNum (of_Z 262))
                           (JNum (of_Z 11)) (JNum (dec 2 2)) (JNum (dec 2 2))
                           (JNum (of_Z 1)) (Some 1) (Some 21) None (Some 21)
                           (Some "Gold 24K"%string) (Some "Gold 24K"%string))) /\
  fst (getCurrent Gold 21 (Some 1)
         (snd (create Gold 20 21 (buy_only_quote 1 251) (Some 1) one_version)))
  = Return None.
Proof.
  assert (Hc : closed_by Gold 1 20 one_version).
  { intros r u Hin Hi Hu. vm_compute in Hin. destruct Hin as [<-|[]].
    vm_compute in Hu. discriminate. }
  split.
  - pose proof (create_then_getCurrent Gold one_version 20 21 21 1 (karat "Gold 24K")
                  (quote_data 1 251 262) (Some 1) eq_refl eq_refl Hc
                  ltac:(lia) ltac:(lia)) as (H & _ & _).
    destruct (H eq_refl eq_refl) as [-> _]. vm_compute. reflexivity.
  - pose proof (create_then_getCurrent Gold one_version 20 21 21 1 (karat "Gold 24K")
                  (buy_only_quote 1 251) (Some 1) eq_refl eq_refl Hc
                  ltac:(lia) ltac:(lia)) as (_ & H & _).
    destruct (H (or_intror eq_refl)) as [_ ->]. reflexivity.
Defined.

(** C2, the claim as worded fails: with record 1 of Gold 24K current, a
    [create] for Gold 24K without a sell price throws on NOT NULL after it
    has closed record 1; a [getCurrent] right after it answers null, where
    it answered record 1 before the call. *)
Lemma create_refused_then_no_current :
  fst (getCurrent Gold 19 (Some 1) one_version)
  = Return (Some (mkObject (Some 1) (Some 1) (JNum (of_Z 250)) (JNum (of_Z 260))
                           (JNum (of_Z 10)) (JNum (dec 2 2)) (JNum (dec 2 2))
                           (JNum (of_Z 1)) (Some 1) (Some 10) None (Some 10)
                           (Some "Gold 24K"%string) (Some "Gold 24K"%string))) /\
  fst (create Gold 20 21 (buy_only_quote 1 251) (Some 1) one_version)
  = Throw not_null_violation /\
  fst (getCurrent Gold 21 (Some 1)
         (snd (create Gold 20 21 (buy_only_quote 1 251) (Some 1) one_version)))
  = Return None.
Proof. repeat split; vm_compute; reflexivity. Qed.

(** *** Updating a record *)

Lemma findById_state k id db : findById k id db = (fst (findById k id db), db).
Proof. reflexivity. Qed.

Lemma first_object_Some rows price :
  first_object rows = Some price ->
  exists r g rest, rows = (r, g) :: rest /\ price = construct r g.
Proof.
  destruct rows as [|[r g] rest]; [done|]. cbn. intros [= <-]. by exists r, g, rest.
Qed.

Lemma join_In k db r g :
  In (r, g) (join k db) -> In r (prices k db) /\ joined k db r = Some (r, g).
Proof.
  unfold join. rewrite <- list_elem_of_In, list_elem_of_omap.
  intros (r0 & Hin & Hj). pose proof (joined_fst _ _ _ _ Hj) as E. cbn in E. subst r0.
  split; [by apply list_elem_of_In | done].
Qed.

Lemma findById_Some k id db price :
  fst (findById k (Some id) db) = Return (Some price) ->
  exists r g, In r (prices k db) /\ row_id r = id /\ joined k db r = Some (r, g) /\
              price = construct r g.
Proof.
  unfold findById, gets. cbn [fst].
  remember (List.filter _ (join k db)) as rows eqn:Erows. intros [= H].
  apply first_object_Some in H as (r & g & rest & Hrows & ->).
  assert (Hin : In (r, g) rows) by (rewrite Hrows; by left).
  rewrite Erows in Hin.
  apply List.filter_In in Hin as [Hin Hid]. cbn in Hid. apply Z.eqb_eq in Hid.
  apply join_In in Hin as [Hin Hj]. by exists r, g.
Qed.

Lemma nz_Some z i : nz z = Some i -> z = i.
Proof. unfold nz. by destruct (z =? 0); intros [= <-]. Qed.

(** The record that [findById] answers belongs to an instrument of the
    store. *)
Lemma findById_instrument k id db price i :
  fst (findById k (Some id) db) = Return (Some price) ->
  instrumentId price = Some i ->
  is_Some (instruments k db !! i).
Proof.
  intros Hf Hi. destruct (findById_Some _ _ _ _ Hf) as (r & g & _ & _ & Hj & ->).
  unfold joined in Hj. cbn in Hi.
  destruct (instrument_id r) as [gid|]; [|done]. cbn in Hi. apply nz_Some in Hi. subst gid.
  destruct (instruments k db !! i); [by eexists | done].
Qed.

Lemma js_or_not_null a b : is_null b = false -> is_null (js_or a b) = false.
Proof. unfold js_or. intros Hb. destruct (ToBoolean a) eqn:E; [by destruct a | done]. Qed.

Lemma stored_price_not_null v : is_null (js_or v (JNum pzero)) = false.
Proof. by apply js_or_not_null. Qed.

Lemma merged_accepts k id db price d i :
  fst (findById k (Some id) db) = Return (Some price) ->
  instrumentId price = Some i ->
  accepts k (merged price d) db = true.
Proof.
  intros Hf Hi. pose proof (findById_instrument _ _ _ _ _ Hf Hi) as [g Hg].
  destruct (findById_Some _ _ _ _ Hf) as (r & g' & _ & _ & _ & Hp).
  apply accepts_true. split; [by exists i, g|]. cbn [merged dBuyPrice dSellPrice].
  subst price. split; apply js_or_not_null, stored_price_not_null.
Qed.

Lemma update_open k db tc ti id d updatedBy price :
  fst (findById k (Some id) db) = Return (Some price) ->
  effectiveUntil price = None ->
  update k tc ti id d updatedBy db = create k tc ti (merged price d) updatedBy db.
Proof.
  intros Hf Ho. unfold update, bind. rewrite findById_state, Hf. by rewrite Ho.
Qed.

Lemma update_closed k db tc ti id d updatedBy price u :
  fst (findById k (Some id) db) = Return (Some price) ->
  effectiveUntil price = Some u ->
  update k tc ti id d updatedBy db
  = (fst (findById k (Some id) (after_amend k id price d updatedBy db)),
     after_amend k id price d updatedBy db).
Proof.
  intros Hf Hc. unfold update, bind. rewrite findById_state, Hf. rewrite Hc.
  reflexivity.
Qed.

Lemma close_open_same_quote i tc r : same_quote r (close_open i tc r).
Proof.
  unfold close_open, same_quote. by destruct (_ && _).
Qed.

Lemma amend_same_version id price d updatedBy r :
  same_version r (amend id price d updatedBy r).
Proof.
  unfold amend, same_version. by destruct (row_id r =? id).
Qed.

Lemma amend_other id price d updatedBy r :
  row_id r <> id -> amend id price d updatedBy r = r.
Proof.
  intros H. unfold amend. by destruct (Z.eqb_spec (row_id r) id).
Qed.

Lemma amend_record_count id price d updatedBy i l :
  length (List.filter (of_instrument i) (map (amend id price d updatedBy) l))
    = length (List.filter (of_instrument i) l).
Proof.
  induction l as [|r l IH]; [reflexivity|]. cbn [map List.filter].
  replace (of_instrument i (amend id price d updatedBy r)) with (of_instrument i r).
  - destruct (of_instrument i r); cbn [length]; by rewrite IH.
  - unfold of_instrument. by destruct (amend_same_version id price d updatedBy r) as (_ & -> & _).
Qed.

(** The fields that [update] stores, given the record it found. *)
Lemma param_defined_or d x :
  is_null x = false -> param (if is_defined d then d else x) = if is_defined d then d else x.
Proof. intros Hx. destruct d; cbn; try done. by apply param_not_null. Qed.

Lemma js_or_price_param a v :
  param (js_or a (js_or v (JNum pzero))) = js_or a (js_or v (JNum pzero)).
Proof. apply param_not_null, js_or_not_null, stored_price_not_null. Qed.

Lemma amend_fields id r g d updatedBy r' :
  amend id (construct r g) d updatedBy r'
  = if row_id r' =? id then
      mkRow (row_id r') (instrument_id r')
            (js_or (dBuyPrice d) (buyPrice (construct r g)))
            (js_or (dSellPrice d) (sellPrice (construct r g)))
            (JNum (js_sub (js_or (dSellPrice d) (sellPrice (construct r g)))
                          (js_or (dBuyPrice d) (buyPrice (construct r g)))))
            (if is_defined (dMarginBuy d) then dMarginBuy d
             else marginBuy (construct r g))
            (if is_defined (dMarginSell d) then dMarginSell d
             else marginSell (construct r g))
            (flag (if is_defined (dIsManual d) then dIsManual d
                   else isManual (construct r g)))
            updatedBy (effective_from r') (effective_until r') (created_at r')
    else r'.
Proof.
  unfold amend. destruct (row_id r' =? id); [|reflexivity].
  cbn [construct buyPrice sellPrice marginBuy marginSell isManual].
  rewrite !js_or_price_param, !param_defined_or by apply stored_price_not_null.
  by destruct (is_defined (dIsManual d)).
Qed.

Lemma merged_row_fields k ti r g d updatedBy db :
  created_row k ti (merged (construct r g) d) updatedBy db
  = mkRow (seq_value k db) (instrumentId (construct r g))
          (js_or (dBuyPrice d) (buyPrice (construct r g)))
          (js_or (dSellPrice d) (sellPrice (construct r g)))
          (JNum (js_sub (js_or (dSellPrice d) (sellPrice (construct r g)))
                        (js_or (dBuyPrice d) (buyPrice (construct r g)))))
          (js_or (if is_defined (dMarginBuy d) then dMarginBuy d
                  else marginBuy (construct r g)) (JNum pzero))
          (js_or (if is_defined (dMarginSell d) then dMarginSell d
                  else marginSell (construct r g)) (JNum pzero))
          (flag (if is_defined (dIsManual d) then dIsManual d
                 else isManual (construct r g)))
          updatedBy ti None ti.
Proof.
  rewrite created_row_fields; [reflexivity| |];
    cbn [merged dBuyPrice dSellPrice construct buyPrice sellPrice];
    apply js_or_not_null, stored_price_not_null.
Qed.

(** *** The record that [update] answers for a closed record *)

Lemma joined_amend k id price d updatedBy db db' r :
  instruments k db' = instruments k db ->
  joined k db' (amend id price d updatedBy r)
  = (fun x => (amend id price d updatedBy x.1, x.2)) <$> joined k db r.
Proof.
  intros Hi. unfold joined. rewrite Hi.
  destruct (amend_same_version id price d updatedBy r) as (_ & -> & _).
  destruct (instrument_id r) as [gid|]; [|done].
  by destruct (instruments k db !! gid).
Qed.

Lemma join_after_amend k id price d updatedBy db :
  join k (after_amend k id price d updatedBy db)
  = map (fun x => (amend id price d updatedBy x.1, x.2)) (join k db).
Proof.
  unfold join.
  assert (Hi : instruments k (after_amend k id price d updatedBy db) = instruments k db).
  { unfold after_amend. by rewrite instruments_add_audit, instruments_set_prices. }
  assert (Hp : prices k (after_amend k id price d updatedBy db)
               = map (amend id price d updatedBy) (prices k db)).
  { unfold after_amend. by rewrite prices_add_audit, prices_set_prices. }
  rewrite Hp. clear Hp. generalize (prices k db). intros l.
  induction l as [|r l IH]; [reflexivity|].
  cbn [map omap list_omap]. rewrite IH.
  rewrite (joined_amend k id price d updatedBy db _ r Hi).
  by destruct (joined k db r).
Qed.

Lemma first_object_amended id price d updatedBy rows :
  first_object (List.filter (fun x => sql_eq (Some (row_id x.1)) (Some id))
                  (map (fun x => (amend id price d updatedBy x.1, x.2)) rows))
  = match List.filter (fun x => sql_eq (Some (row_id x.1)) (Some id)) rows with
    | (r, g) :: _ => Some (construct (amend id price d updatedBy r) g)
    | [] => None
    end.
Proof.
  induction rows as [|[r g] l IH]; [reflexivity|].
  cbn [map List.filter fst snd].
  destruct (amend_same_version id price d updatedBy r) as (-> & _).
  destruct (sql_eq (Some (row_id r)) (Some id)); [reflexivity | exact IH].
Qed.

Lemma js_or_keeps a v :
  js_or (js_or a (js_or v (JNum pzero))) (JNum pzero) = js_or a (js_or v (JNum pzero)).
Proof.
  unfold js_or. destruct (ToBoolean a) eqn:E; [by rewrite E|].
  destruct (ToBoolean v) eqn:Ev; [by rewrite Ev | reflexivity].
Qed.

Lemma findById_after_amend k id price d updatedBy db :
  fst (findById k (Some id) db) = Return (Some price) ->
  fst (findById k (Some id) (after_amend k id price d updatedBy db))
  = Return (Some
      (mkObject (objId price) (instrumentId price)
         (js_or (dBuyPrice d) (buyPrice price))
         (js_or (dSellPrice d) (sellPrice price))
         (JNum (or_zero (js_sub (js_or (dSellPrice d) (sellPrice price))
                                (js_or (dBuyPrice d) (buyPrice price)))))
         (js_or (if is_defined (dMarginBuy d) then dMarginBuy d else marginBuy price)
                (JNum pzero))
         (js_or (if is_defined (dMarginSell d) then dMarginSell d else marginSell price)
                (JNum pzero))
         (if ToBoolean (if is_defined (dIsManual d) then dIsManual d else isManual price)
          then JNum (of_Z 1) else JBool false)
         (from_option nz None updatedBy)
         (effectiveFrom price) (effectiveUntil price) (createdAt price)
         (instrumentCode price) (instrumentName price))).
Proof.
  unfold findById, gets. cbn [fst]. rewrite join_after_amend, first_object_amended.
  destruct (List.filter _ (join k db)) as [|[r g] rest] eqn:E; [done|].
  cbn [first_object]. intros [= <-].
  assert (Hid : row_id r = id).
  { assert (Hin : In (r, g) (List.filter
                     (fun x => sql_eq (Some (row_id x.1)) (Some id)) (join k db)))
      by (rewrite E; by left).
    apply List.filter_In in Hin as [_ Hid]. cbn in Hid. by apply Z.eqb_eq in Hid. }
  rewrite amend_fields, (proj2 (Z.eqb_eq _ _) Hid).
  unfold construct at 1.
  cbn [row_id instrument_id buy_price sell_price row_spread margin_buy margin_sell
       is_manual updated_by effective_from effective_until created_at].
  cbn [construct objId instrumentId buyPrice sellPrice marginBuy marginSell isManual
       effectiveFrom effectiveUntil createdAt instrumentCode instrumentName].
  by rewrite !js_or_keeps, js_or_number, js_or_flag.
Qed.

(** C6.  For an existing record [id] of an instrument [i].  If the record
    is open, [update] answers what [create] answers, closes the record as
    [create] does, changing nothing else of it or of any earlier row, and
    appends one new version: its prices are the supplied ones, or the
    record's where the supplied one is missing or falsy; its margins and
    its manual flag are the supplied ones, or the record's where none is
    supplied.  If the record is closed, [update] rewrites the prices, the
    spread, the margins, the manual flag and the actor of the rows with
    that id in the same way, keeps their id, instrument and effective
    interval, leaves every other row untouched and inserts nothing: the
    number of rows, the record count of every instrument and the id
    sequence are unchanged. *)
Theorem update_versions_or_amends k db tc ti id d updatedBy price :
  fst (findById k (Some id) db) = Return (Some price) ->
  (forall i, effectiveUntil price = None -> instrumentId price = Some i ->
     fst (update k tc ti id d updatedBy db) = Return None /\
     prices k (snd (update k tc ti id d updatedBy db)) =
       map (close_open (Some i) tc) (prices k db)
       ++ [mkRow (seq_value k db) (Some i)
                 (js_or (dBuyPrice d) (buyPrice price))
                 (js_or (dSellPrice d) (sellPrice price))
                 (JNum (js_sub (js_or (dSellPrice d) (sellPrice price))
                               (js_or (dBuyPrice d) (buyPrice price))))
                 (js_or (if is_defined (dMarginBuy d) then dMarginBuy d
                         else marginBuy price) (JNum pzero))
                 (js_or (if is_defined (dMarginSell d) then dMarginSell d
                         else marginSell price) (JNum pzero))
                 (flag (if is_defined (dIsManual d) then dIsManual d else isManual price))
                 updatedBy ti None ti] /\
     (forall r, same_quote r (close_open (Some i) tc r)) /\
     (forall r, open_for i r = true ->
                effective_until (close_open (Some i) tc r) = Some tc) /\
     (forall r, open_for i r = false -> close_open (Some i) tc r = r)) /\
  (forall u, effectiveUntil price = Some u ->
     prices k (snd (update k tc ti id d updatedBy db)) =
       map (fun r =>
              if row_id r =? id then
                mkRow (row_id r) (instrument_id r)
                      (js_or (dBuyPrice d) (buyPrice price))
                      (js_or (dSellPrice d) (sellPrice price))
                      (JNum (js_sub (js_or (dSellPrice d) (sellPrice price))
                                    (js_or (dBuyPrice d) (buyPrice price))))
                      (if is_defined (dMarginBuy d) then dMarginBuy d else marginBuy price)
                      (if is_defined (dMarginSell d) then dMarginSell d
                       else marginSell price)
                      (flag (if is_defined (dIsManual d) then dIsManual d
                             else isManual price))
                      updatedBy (effective_from r) (effective_until r) (created_at r)
              else r) (prices k db) /\
     length (prices k (snd (update k tc ti id d updatedBy db))) = length (prices k db) /\
     (forall i, record_count k i (snd (update k tc ti id d updatedBy db))
                = record_count k i db) /\
     seq_value k (snd (update k tc ti id d updatedBy db)) = seq_value k db).
Proof.
  intros Hf. destruct (findById_Some _ _ _ _ Hf) as (r0 & g & _ & _ & _ & Hp). split.
  - intros i Ho Hi. rewrite (update_open _ _ _ _ _ _ _ _ Hf Ho).
    pose proof (merged_accepts k id db price d i Hf Hi) as Ha.
    split; [by rewrite create_accepted|]. split; [|split; [|split]].
    + rewrite create_prices, Ha. cbn [merged dInstrumentId]. rewrite Hi.
      do 2 f_equal. subst price. rewrite merged_row_fields. by rewrite Hi.
    + intros r. apply close_open_same_quote.
    + intros r Hr. by rewrite close_open_open.
    + intros r. apply close_open_not_open.
  - intros u Hc. rewrite (update_closed _ _ _ _ _ _ _ _ _ Hf Hc). cbn [snd].
    unfold after_amend, record_count.
    rewrite prices_add_audit, prices_set_prices, seq_value_add_audit, seq_value_set_prices.
    split; [|split; [apply length_map|split; [intros i; apply amend_record_count|done]]].
    apply map_ext. intros r. subst price. apply amend_fields.
Qed.

Lemma update_versions_or_amends_witness :
  gold_prices (snd (update Gold 30 31 2 zero_update (Some 1) two_versions))
  = [mkRow 1 (Some 1) (JNum (of_Z 250)) (JNum (of_Z 260)) (JNum (of_Z 10))
           (JNum (dec 2 2)) (JNum (dec 2 2)) (JNum (of_Z 1)) (Some 1) 10 (Some 20) 10;
     mkRow 2 (Some 1) (JNum (of_Z 251)) (JNum (of_Z 262)) (JNum (of_Z 11))
           (JNum (dec 2 2)) (JNum (dec 2 2)) (JNum (of_Z 1)) (Some 1) 21 (Some 30) 21;
     mkRow 3 (Some 1) (JNum (of_Z 251)) (JNum (of_Z 262)) (JNum (of_Z 11))
           (JNum pzero) (JNum (dec 2 2)) (JNum pzero) (Some 1) 31 None 31] /\
  gold_prices (snd (update Gold 30 31 1 zero_update (Some 1) two_versions))
  = [mkRow 1 (Some 1) (JNum (of_Z 250)) (JNum (of_Z 260)) (JNum (of_Z 10))
           (JNum pzero) (JNum (dec 2 2)) (JNum pzero) (Some 1) 10 (Some 20) 10;
     mkRow 2 (Some 1) (JNum (of_Z 251)) (JNum (of_Z 262)) (JNum (of_Z 11))
           (JNum (dec 2 2)) (JNum (dec 2 2)) (JNum (of_Z 1)) (Some 1) 21 None 21].
Proof.
  split.
  - pose proof (update_versions_or_amends Gold two_versions 30 31 2 zero_update (Some 1)
                  _ ltac:(vm_compute; reflexivity)) as [H _].
    destruct (H 1 eq_refl eq_refl) as (_ & E & _).
    change (gold_prices ?x) with (prices Gold x). rewrite E. vm_compute. reflexivity.
  - pose proof (update_versions_or_amends Gold two_versions 30 31 1 zero_update (Some 1)
                  _ ltac:(vm_compute; reflexivity)) as [_ H].
    destruct (H 20 eq_refl) as (E & _).
    change (gold_prices ?x) with (prices Gold x). rewrite E. vm_compute. reflexivity.
Defined.

(** *** Falsy prices in an update *)

Lemma js_or_falsy a b : ToBoolean a = false -> js_or a b = b.
Proof. unfold js_or. by intros ->. Qed.

Lemma js_or_truthy_r a b : ToBoolean b = true -> ToBoolean (js_or a b) = true.
Proof. unfold js_or. by destruct (ToBoolean a) eqn:E. Qed.

Lemma truthy_defined v : ToBoolean v = true -> is_defined v = true.
Proof. by destruct v. Qed.

Lemma param_defined v : is_defined v = true -> param v = v.
Proof. by destruct v. Qed.

Lemma param_truthy v : ToBoolean (param v) = ToBoolean v.
Proof. by destruct v. Qed.

Lemma js_or_zero_defined a : is_defined (js_or a (JNum pzero)) = true.
Proof. unfold js_or. destruct (ToBoolean a) eqn:E; [by apply truthy_defined | done]. Qed.

Lemma js_or_false_defined a : is_defined (js_or a (JBool false)) = true.
Proof. unfold js_or. destruct (ToBoolean a) eqn:E; [by apply truthy_defined | done]. Qed.

Lemma flag_falsy v : ToBoolean v = false -> flag v = JNum pzero.
Proof. unfold flag. by intros ->. Qed.

Lemma merged_without_buy price d :
  ToBoolean (dBuyPrice d) = false -> merged price (without_buy d) = merged price d.
Proof. intros H. unfold merged, without_buy. cbn. by rewrite (js_or_falsy _ _ H). Qed.

Lemma merged_without_sell price d :
  ToBoolean (dSellPrice d) = false -> merged price (without_sell d) = merged price d.
Proof. intros H. unfold merged, without_sell. cbn. by rewrite (js_or_falsy _ _ H). Qed.

Lemma amend_without_buy id price d updatedBy r :
  ToBoolean (dBuyPrice d) = false ->
  amend id price (without_buy d) updatedBy r = amend id price d updatedBy r.
Proof. intros H. unfold amend, without_buy. cbn. by rewrite (js_or_falsy _ _ H). Qed.

Lemma amend_without_sell id price d updatedBy r :
  ToBoolean (dSellPrice d) = false ->
  amend id price (without_sell d) updatedBy r = amend id price d updatedBy r.
Proof. intros H. unfold amend, without_sell. cbn. by rewrite (js_or_falsy _ _ H). Qed.

Lemma update_prices k db tc ti id d updatedBy price :
  fst (findById k (Some id) db) = Return (Some price) ->
  prices k (snd (update k tc ti id d updatedBy db)) =
    match effectiveUntil price with
    | None => map (close_open (instrumentId price) tc) (prices k db)
              ++ (if accepts k (merged price d) db
                  then [created_row k ti (merged price d) updatedBy db] else [])
    | Some _ => map (amend id price d updatedBy) (prices k db)
    end.
Proof.
  intros Hf. destruct (effectiveUntil price) as [u|] eqn:E.
  - rewrite (update_closed _ _ _ _ _ _ _ _ _ Hf E). cbn [snd]. unfold after_amend.
    by rewrite prices_add_audit, prices_set_prices.
  - rewrite (update_open _ _ _ _ _ _ _ _ Hf E). apply create_prices.
Qed.

(** *** The store never holds a record closed in the future *)

Lemma update_state k db tc ti id d updatedBy :
  snd (update k tc ti id d updatedBy db) =
    match fst (findById k (Some id) db) with
    | Return (Some price) =>
        match effectiveUntil price with
        | None => snd (create k tc ti (merged price d) updatedBy db)
        | Some _ => after_amend k id price d updatedBy db
        end
    | _ => db
    end.
Proof.
  unfold update, bind. rewrite findById_state.
  destruct (fst (findById k (Some id) db)) as [[price|]|msg]; try reflexivity.
  cbn [fst]. destruct (effectiveUntil price); reflexivity.
Qed.

Lemma delete_state k db id deletedBy :
  prices k (snd (delete k id deletedBy db)) = prices k db \/
  prices k (snd (delete k id deletedBy db))
    = List.filter (fun r => negb (row_id r =? id)) (prices k db).
Proof.
  unfold delete, bind. rewrite findById_state.
  destruct (fst (findById k (Some id) db)) as [[price|]|msg]; try by left.
  right. unfold logChange, modify, ret. cbn [snd].
  by rewrite prices_set_prices, prices_add_audit.
Qed.

Lemma delete_prices_ne k k' db id deletedBy :
  k <> k' -> prices k' (snd (delete k id deletedBy db)) = prices k' db.
Proof.
  intros Hk. unfold delete, bind. rewrite findById_state.
  destruct (fst (findById k (Some id) db)) as [[price|]|msg]; try reflexivity.
  unfold logChange, modify, ret. cbn [snd].
  by rewrite prices_set_prices_ne, prices_add_audit.
Qed.

Lemma amend_closed_by k k' i t id price d updatedBy db :
  closed_by k i t db -> closed_by k i t (after_amend k' id price d updatedBy db).
Proof.
  intros Hc r u Hin Hi Hu. unfold after_amend in Hin. rewrite prices_add_audit in Hin.
  destruct (decide (k' = k)) as [->|Hk].
  - rewrite prices_set_prices in Hin.
    apply list_elem_of_In, list_elem_of_fmap in Hin as (r0 & -> & Hin0).
    apply list_elem_of_In in Hin0.
    destruct (amend_same_version id price d updatedBy r0) as (_ & Ei & _ & Eu & _).
    rewrite Ei in Hi. rewrite Eu in Hu. by apply (Hc r0 u).
  - rewrite prices_set_prices_ne in Hin by done. by apply (Hc r u).
Qed.

Lemma run_op_closed_by k i t o db :
  closed_by k i t db -> chronological t [o] ->
  closed_by k i (end_time t [o]) (run_op db o).
Proof.
  intros Hc Hchr.
  destruct o as [k' tc ti d a|k' tc ti id d a|k' id a];
    cbn [run_op end_time chronological] in *.
  - destruct Hchr as (H1 & H2 & _).
    apply closed_by_mono with (t := tc); [|done]. by apply create_closed_by with (t := t).
  - destruct Hchr as (H1 & H2 & _). rewrite update_state.
    destruct (fst (findById k' (Some id) db)) as [[price|]|msg];
      try (apply closed_by_mono with (t := t); [done | lia]).
    destruct (effectiveUntil price).
    + apply closed_by_mono with (t := t); [|lia]. by apply amend_closed_by.
    + apply closed_by_mono with (t := tc); [|done]. by apply create_closed_by with (t := t).
  - intros r u Hin. destruct (decide (k' = k)) as [->|Hk].
    + destruct (delete_state k db id a) as [E|E]; rewrite E in Hin.
      * by apply Hc.
      * apply List.filter_In in Hin as [Hin _]. by apply Hc.
    + rewrite delete_prices_ne in Hin by done. by apply Hc.
Qed.

(** The side condition of [create_then_getCurrent] holds in every store
    that a chronological history of creates, updates and deletes builds
    from a store without prices. *)
Lemma run_ops_closed_by ops : forall k i t db,
  closed_by k i t db -> chronological t ops ->
  closed_by k i (end_time t ops) (run_ops ops db).
Proof.
  induction ops as [|o ops IH]; intros k i t db Hc Hchr; [exact Hc|].
  cbn [run_ops fold_left].
  assert (Hstep : closed_by k i (end_time t [o]) (run_op db o)).
  { apply run_op_closed_by; [done|]. destruct o; cbn [chronological] in *; tauto. }
  destruct o as [k' tc ti d a|k' tc ti id d a|k' id a];
    cbn [end_time chronological] in *; apply IH; tauto.
Qed.

Lemma written_In k db tc ti id d updatedBy price r :
  fst (findById k (Some id) db) = Return (Some price) ->
  written k ti id price d updatedBy db r ->
  In r (prices k (snd (update k tc ti id d updatedBy db))).
Proof.
  intros Hf Hw. rewrite (update_prices _ _ _ _ _ _ _ _ Hf). unfold written in Hw.
  destruct (effectiveUntil price).
  - destruct Hw as (r0 & Hin & _ & ->). by apply in_map.
  - destruct Hw as [-> ->]. apply in_or_app. right. by left.
Qed.

Lemma written_buy k db ti id d updatedBy price r :
  written k ti id price d updatedBy db r ->
  buy_price r = param (js_or (dBuyPrice d) (buyPrice price)).
Proof.
  unfold written. destruct (effectiveUntil price).
  - intros (r0 & _ & Hid & ->). unfold amend. by rewrite (proj2 (Z.eqb_eq _ _) Hid).
  - by intros [_ ->].
Qed.

Lemma written_sell k db ti id d updatedBy price r :
  written k ti id price d updatedBy db r ->
  sell_price r = param (js_or (dSellPrice d) (sellPrice price)).
Proof.
  unfold written. destruct (effectiveUntil price).
  - intros (r0 & _ & Hid & ->). unfold amend. by rewrite (proj2 (Z.eqb_eq _ _) Hid).
  - by intros [_ ->].
Qed.

Lemma written_margin_buy k db ti id d updatedBy price r :
  written k ti id price d updatedBy db r ->
  is_defined (dMarginBuy d) = true ->
  margin_buy r = match effectiveUntil price with
                 | None => param (js_or (dMarginBuy d) (JNum pzero))
                 | Some _ => param (dMarginBuy d)
                 end.
Proof.
  unfold written. destruct (effectiveUntil price).
  - intros (r0 & _ & Hid & ->) Hd. unfold amend.
    by rewrite (proj2 (Z.eqb_eq _ _) Hid), Hd.
  - intros [_ ->] Hd. cbn. by rewrite Hd.
Qed.

Lemma written_margin_sell k db ti id d updatedBy price r :
  written k ti id price d updatedBy db r ->
  is_defined (dMarginSell d) = true ->
  margin_sell r = match effectiveUntil price with
                  | None => param (js_or (dMarginSell d) (JNum pzero))
                  | Some _ => param (dMarginSell d)
                  end.
Proof.
  unfold written. destruct (effectiveUntil price).
  - intros (r0 & _ & Hid & ->) Hd. unfold amend.
    by rewrite (proj2 (Z.eqb_eq _ _) Hid), Hd.
  - intros [_ ->] Hd. cbn. by rewrite Hd.
Qed.

Lemma written_is_manual k db ti id d updatedBy price r :
  written k ti id price d updatedBy db r ->
  is_defined (dIsManual d) = true ->
  is_manual r = flag (dIsManual d).
Proof.
  unfold written. destruct (effectiveUntil price).
  - intros (r0 & _ & Hid & ->) Hd. unfold amend.
    by rewrite (proj2 (Z.eqb_eq _ _) Hid), Hd.
  - intros [_ ->] Hd. cbn. rewrite Hd. unfold flag. by destruct (ToBoolean (dIsManual d)).
Qed.

Lemma update_without_buy k db tc ti id d updatedBy price :
  fst (findById k (Some id) db) = Return (Some price) ->
  ToBoolean (dBuyPrice d) = false ->
  prices k (snd (update k tc ti id (without_buy d) updatedBy db))
    = prices k (snd (update k tc ti id d updatedBy db)).
Proof.
  intros Hf Hb. rewrite !(update_prices _ _ _ _ _ _ _ _ Hf).
  destruct (effectiveUntil price).
  - apply map_ext. intros r. by apply amend_without_buy.
  - by rewrite merged_without_buy.
Qed.

Lemma update_without_sell k db tc ti id d updatedBy price :
  fst (findById k (Some id) db) = Return (Some price) ->
  ToBoolean (dSellPrice d) = false ->
  prices k (snd (update k tc ti id (without_sell d) updatedBy db))
    = prices k (snd (update k tc ti id d updatedBy db)).
Proof.
  intros Hf Hb. rewrite !(update_prices _ _ _ _ _ _ _ _ Hf).
  destruct (effectiveUntil price).
  - apply map_ext. intros r. by apply amend_without_sell.
  - by rewrite merged_without_sell.
Qed.

(** C9.  For an existing record, an [update] whose buy price (buyPrice /
    buyRate) or sell price is 0 or any other falsy value leaves the price
    table exactly as the same update without that field does: the row it
    writes, the new version of an open record or the amended closed
    record, carries the previous record's price.  A price that was not
    falsy therefore stays not falsy, whatever is supplied.  An explicit
    falsy margin, by contrast, is written as a falsy margin, and an
    explicit falsy isManual as 0, whatever their previous values. *)
Theorem update_ignores_falsy_price k db tc ti id d updatedBy price :
  fst (findById k (Some id) db) = Return (Some price) ->
  (forall r, written k ti id price d updatedBy db r ->
             In r (prices k (snd (update k tc ti id d updatedBy db)))) /\
  (ToBoolean (dBuyPrice d) = false ->
     prices k (snd (update k tc ti id d updatedBy db))
       = prices k (snd (update k tc ti id (without_buy d) updatedBy db)) /\
     forall r, written k ti id price d updatedBy db r -> buy_price r = buyPrice price) /\
  (ToBoolean (dSellPrice d) = false ->
     prices k (snd (update k tc ti id d updatedBy db))
       = prices k (snd (update k tc ti id (without_sell d) updatedBy db)) /\
     forall r, written k ti id price d updatedBy db r -> sell_price r = sellPrice price) /\
  (forall r, written k ti id price d updatedBy db r ->
     (ToBoolean (buyPrice price) = true -> ToBoolean (buy_price r) = true) /\
     (ToBoolean (sellPrice price) = true -> ToBoolean (sell_price r) = true)) /\
  (forall r, written k ti id price d updatedBy db r ->
     (is_defined (dMarginBuy d) = true -> ToBoolean (dMarginBuy d) = false ->
      ToBoolean (margin_buy r) = false) /\
     (is_defined (dMarginSell d) = true -> ToBoolean (dMarginSell d) = false ->
      ToBoolean (margin_sell r) = false) /\
     (is_defined (dIsManual d) = true -> ToBoolean (dIsManual d) = false ->
      is_manual r = JNum pzero)).
Proof.
  intros Hf.
  destruct (findById_Some _ _ _ _ Hf) as (r0 & g & _ & _ & _ & Hprice).
  assert (Hpb : param (buyPrice price) = buyPrice price).
  { subst price. apply param_defined, js_or_zero_defined. }
  assert (Hps : param (sellPrice price) = sellPrice price).
  { subst price. apply param_defined, js_or_zero_defined. }
  split; [|split; [|split; [|split]]].
  - intros r. by apply written_In.
  - intros Hb. split; [symmetry; by apply (update_without_buy _ _ _ _ _ _ _ price)|].
    intros r Hw. by rewrite (written_buy _ _ _ _ _ _ _ _ Hw), (js_or_falsy _ _ Hb).
  - intros Hs. split; [symmetry; by apply (update_without_sell _ _ _ _ _ _ _ price)|].
    intros r Hw. by rewrite (written_sell _ _ _ _ _ _ _ _ Hw), (js_or_falsy _ _ Hs).
  - intros r Hw. split; intros Ht.
    + rewrite (written_buy _ _ _ _ _ _ _ _ Hw), param_truthy. by apply js_or_truthy_r.
    + rewrite (written_sell _ _ _ _ _ _ _ _ Hw), param_truthy. by apply js_or_truthy_r.
  - intros r Hw. split; [|split].
    + intros Hd Hb. rewrite (written_margin_buy _ _ _ _ _ _ _ _ Hw Hd).
      destruct (effectiveUntil price); rewrite param_truthy; [done|].
      by rewrite (js_or_falsy _ _ Hb).
    + intros Hd Hb. rewrite (written_margin_sell _ _ _ _ _ _ _ _ Hw Hd).
      destruct (effectiveUntil price); rewrite param_truthy; [done|].
      by rewrite (js_or_falsy _ _ Hb).
    + intros Hd Hb. rewrite (written_is_manual _ _ _ _ _ _ _ _ Hw Hd).
      by apply flag_falsy.
Qed.

Lemma update_ignores_falsy_price_witness :
  (exists price,
    fst (findById Gold (Some 1) two_versions) = Return (Some price) /\
    prices Gold (snd (update Gold 30 31 1 zero_update (Some 1) two_versions))
      = prices Gold (snd (update Gold 30 31 1 (without_buy zero_update) (Some 1)
                            two_versions)) /\
    forall r, written Gold 31 1 price zero_update (Some 1) two_versions r ->
      buy_price r = JNum (of_Z 250) /\
      ToBoolean (margin_buy r) = false /\
      is_manual r = JNum pzero) /\
  (exists price,
    fst (findById Gold (Some 2) two_versions) = Return (Some price) /\
    prices Gold (snd (update Gold 30 31 2 zero_update (Some 1) two_versions))
      = prices Gold (snd (update Gold 30 31 2 (without_buy zero_update) (Some 1)
                            two_versions)) /\
    forall r, written Gold 31 2 price zero_update (Some 1) two_versions r ->
      buy_price r = JNum (of_Z 251) /\
      ToBoolean (margin_buy r) = false /\
      is_manual r = JNum pzero).
Proof.
  split.
  - eexists. split; [vm_compute; reflexivity|].
    pose proof (update_ignores_falsy_price Gold two_versions 30 31 1 zero_update (Some 1)
                  _ ltac:(vm_compute; reflexivity)) as (_ & Hb & _ & _ & Hm).
    split; [exact (proj1 (Hb eq_refl))|].
    intros r Hw. split; [exact (proj2 (Hb eq_refl) r Hw)|].
    split; [exact (proj1 (Hm r Hw) eq_refl eq_refl)|].
    exact (proj2 (proj2 (Hm r Hw)) eq_refl eq_refl).
  - eexists. split; [vm_compute; reflexivity|].
    pose proof (update_ignores_falsy_price Gold two_versions 30 31 2 zero_update (Some 1)
                  _ ltac:(vm_compute; reflexivity)) as (_ & Hb & _ & _ & Hm).
    split; [exact (proj1 (Hb eq_refl))|].
    intros r Hw. split; [exact (proj2 (Hb eq_refl) r Hw)|].
    split; [exact (proj1 (Hm r Hw) eq_refl eq_refl)|].
    exact (proj2 (proj2 (Hm r Hw)) eq_refl eq_refl).
Defined.

End PriceStore.

(** ** Rate limiting *)

Section RateLimiting.
Import RateLimit.

Lemma ceil_seconds_bounds x :
  1000 * (ceil_seconds x - 1) < x <= 1000 * ceil_seconds x.
Proof.
  unfold ceil_seconds.
  pose proof (Z.div_mod (- x) 1000 ltac:(lia)).
  pose proof (Z.mod_pos_bound (- x) 1000 ltac:(lia)). lia.
Qed.

Lemma ceil_seconds_mono x y : x <= y -> ceil_seconds x <= ceil_seconds y.
Proof.
  intros H. unfold ceil_seconds.
  pose proof (Z.div_le_mono (- y) (- x) 1000 ltac:(lia) ltac:(lia)). lia.
Qed.

Lemma filter_length_le {A} (f : A -> bool) (l : list A) :
  (length (List.filter f l) <= length l)%nat.
Proof. induction l as [|a l IH]; cbn; [lia|]. destruct (f a); cbn; lia. Qed.

Lemma filter_all {A} (f : A -> bool) (l : list A) :
  (forall a, In a l -> f a = true) -> List.filter f l = l.
Proof.
  induction l as [|a l IH]; intros H; [reflexivity|]. cbn.
  rewrite (H a) by (by left). f_equal. apply IH. intros b Hb. apply H. by right.
Qed.

Lemma filter_nothing {A} (f : A -> bool) (l : list A) :
  (forall a, In a l -> f a = false) -> List.filter f l = [].
Proof.
  induction l as [|a l IH]; intros H; [reflexivity|]. cbn.
  rewrite (H a) by (by left). apply IH. intros b Hb. apply H. by right.
Qed.

(** X1.  Whenever the limiter lets a request through, the client's stored
    window holds the current request, at most maxRequests timestamps, and
    no timestamp that is windowMs old or older; the client is not marked
    blocked, and the X-RateLimit-Remaining header is maxRequests minus the
    number of stored timestamps, which is not negative. *)
Theorem rateLimiter_pass_window o identifier now s limit remaining s' :
  rateLimiter o identifier now s = (Pass limit remaining, s') ->
  exists c,
    rateLimitStore s' !! identifier = Some c /\
    blocked c = false /\ blockedUntil c = None /\
    In now (requests c) /\
    Z.of_nat (length (requests c)) <= maxOf o /\
    (forall t, In t (requests c) -> t = now \/ now - t < windowOf o) /\
    limit = maxOf o /\
    remaining = maxOf o - Z.of_nat (length (requests c)) /\ 0 <= remaining.
Proof.
  unfold rateLimiter.
  set (c0 := match rateLimitStore s !! identifier with
             | Some c => c | None => mkClient [] false None end).
  destruct (blocked c0 && (now <? null_to_zero (blockedUntil c0))); [discriminate|].
  set (kept := List.filter (fun timestamp => now - timestamp <? windowOf o) (requests c0)).
  destruct (maxOf o <=? Z.of_nat (length kept)) eqn:E; [discriminate|].
  apply Z.leb_gt in E. intros [= <- <- <-].
  exists (mkClient (kept ++ [now]) false None). cbn.
  rewrite lookup_insert_eq. rewrite !length_app. cbn [length].
  split; [done|]. split; [done|]. split; [done|].
  split; [apply in_or_app; right; by left|].
  split; [lia|]. split; [|split; [done|lia]].
  intros t Ht. apply in_app_or in Ht as [Ht|[<-|[]]]; [|by left].
  right. apply List.filter_In in Ht as [_ Ht]. by apply Z.ltb_lt in Ht.
Qed.

Lemma rateLimiter_pass_window_witness :
  exists c,
    rateLimitStore (snd (rateLimiter three_per_second "10.0.0.7" 5000 no_clients))
      !! "10.0.0.7"%string = Some c /\
    requests c = [5000].
Proof.
  destruct (rateLimiter_pass_window three_per_second "10.0.0.7" 5000 no_clients 3 2
              (snd (rateLimiter three_per_second "10.0.0.7" 5000 no_clients)) eq_refl)
    as (c & Hc & _).
  exists c. split; [exact Hc|].
  vm_compute in Hc. by injection Hc as <-.
Defined.

Lemma rateLimiter_count_pass o identifier now s :
  blocked (client_of s identifier) = false ->
  (forall t, In t (requests (client_of s identifier)) -> now - t < windowOf o) ->
  Z.of_nat (length (requests (client_of s identifier))) < maxOf o ->
  is_pass (fst (rateLimiter o identifier now s)) = true /\
  client_of (snd (rateLimiter o identifier now s)) identifier
    = mkClient (requests (client_of s identifier) ++ [now]) false None.
Proof.
  intros Hb Hw Hn. unfold rateLimiter. fold (client_of s identifier). rewrite Hb.
  cbn [andb]. rewrite filter_all.
  - destruct (maxOf o <=? _) eqn:E; [apply Z.leb_le in E; lia|].
    cbn. unfold client_of at 1. cbn. by rewrite lookup_insert_eq.
  - intros t Ht. apply Z.ltb_lt. by apply Hw.
Qed.

Lemma serve_all_pass o identifier now times : forall s,
  blocked (client_of s identifier) = false ->
  (forall t, In t (requests (client_of s identifier) ++ times) ->
             t <= now /\ now - t < windowOf o) ->
  Z.of_nat (length (requests (client_of s identifier)) + length times) <= maxOf o ->
  forallb is_pass (fst (serve o identifier times s)) = true /\
  length (fst (serve o identifier times s)) = length times /\
  requests (client_of (snd (serve o identifier times s)) identifier)
    = requests (client_of s identifier) ++ times /\
  blocked (client_of (snd (serve o identifier times s)) identifier) = false /\
  limiterEvents (snd (serve o identifier times s)) = limiterEvents s.
Proof.
  induction times as [|t times IH]; intros s Hb Hw Hn.
  - cbn. by rewrite app_nil_r.
  - assert (Ht : t <= now) by (apply Hw, in_or_app; right; by left).
    destruct (rateLimiter_count_pass o identifier t s Hb) as [Hp Hc].
    { intros t' Ht'. destruct (Hw t') as [? ?]; [apply in_or_app; by left|]. lia. }
    { cbn [length] in Hn. lia. }
    assert (He : limiterEvents (snd (rateLimiter o identifier t s)) = limiterEvents s).
    { revert Hp. unfold rateLimiter.
      destruct (_ && _); [done|]. by destruct (_ <=? _). }
    cbn [serve]. destruct (rateLimiter o identifier t s) as [r s1]. cbn [fst snd] in *.
    destruct (IH s1) as (H1 & H2 & H3 & H4 & H5).
    { by rewrite Hc. }
    { rewrite Hc. cbn [requests]. rewrite <- app_assoc. exact Hw. }
    { rewrite Hc. cbn [requests length]. rewrite length_app. cbn [length] in *. lia. }
    destruct (serve o identifier times s1) as [rs s2]. cbn [fst snd forallb length] in *.
    rewrite Hp, H1, H2, H3, H4, H5, Hc. cbn [requests]. rewrite <- app_assoc.
    by rewrite He.
Qed.

(** X2.  A client without an entry that sends maxRequests requests, all of
    them less than windowMs before the clock reading [now] of a further
    request, is let through every time; the further request is rejected
    with the configured message and a retry-after of ceil(windowMs/1000)
    seconds, the client is blocked until now + windowMs, and one
    RATE_LIMIT_EXCEEDED event with the request count is logged. *)
Theorem rateLimiter_rejects_after_max o identifier times now s :
  rateLimitStore s !! identifier = None ->
  Z.of_nat (length times) = maxOf o ->
  (forall t, In t times -> t <= now /\ now - t < windowOf o) ->
  forallb is_pass (fst (serve o identifier times s)) = true /\
  length (fst (serve o identifier times s)) = length times /\
  fst (rateLimiter o identifier now (snd (serve o identifier times s)))
    = TooMany (messageOf o) (ceil_seconds (windowOf o)) None /\
  client_of (snd (rateLimiter o identifier now (snd (serve o identifier times s))))
            identifier
    = mkClient times true (Some (now + windowOf o)) /\
  limiterEvents (snd (rateLimiter o identifier now (snd (serve o identifier times s))))
    = limiterEvents s ++ [("RATE_LIMIT_EXCEEDED"%string, maxOf o)].
Proof.
  intros Hnone Hlen Hw.
  assert (Hc0 : client_of s identifier = mkClient [] false None).
  { unfold client_of. by rewrite Hnone. }
  destruct (serve_all_pass o identifier now times s) as (H1 & H2 & H3 & H4 & H5).
  { by rewrite Hc0. }
  { by rewrite Hc0. }
  { rewrite Hc0. cbn. lia. }
  rewrite Hc0 in H3. cbn in H3.
  split; [exact H1|]. split; [exact H2|].
  set (s1 := snd (serve o identifier times s)) in *.
  unfold rateLimiter. fold (client_of s1 identifier). rewrite H4, H3. cbn [andb].
  rewrite filter_all by (intros t Ht; apply Z.ltb_lt; by apply Hw).
  rewrite (proj2 (Z.leb_le _ _)) by lia. cbn [fst snd].
  split; [done|]. split.
  - unfold client_of. cbn. by rewrite lookup_insert_eq.
  - cbn. by rewrite H5, Hlen.
Qed.

Lemma rateLimiter_rejects_after_max_witness :
  fst (rateLimiter three_per_second "10.0.0.7" 5950
         (snd (serve three_per_second "10.0.0.7" [5000; 5400; 5900] no_clients)))
    = TooMany "Too many requests, please try again later" 1 None.
Proof.
  refine (proj1 (proj2 (proj2 (rateLimiter_rejects_after_max three_per_second "10.0.0.7"
                                 [5000; 5400; 5900] 5950 no_clients eq_refl eq_refl _)))).
  intros t [<-|[<-|[<-|[]]]]; vm_compute; split; congruence.
Defined.

(** X3.  Once a request at [tb] has been rejected for exceeding the limit
    (the store holding no timestamp later than [tb]), every request of that
    client before tb + windowMs is rejected with 'Rate limit exceeded' and
    a Retry-After between 1 and ceil(windowMs/1000) seconds, without any
    change to the store, so that rejected requests neither count nor extend
    the block; and the first request at or after tb + windowMs is let
    through, with a window that holds that request alone. *)
Theorem rateLimiter_block_lifecycle o identifier tb s message retryAfter s1 :
  rateLimiter o identifier tb s = (TooMany message retryAfter None, s1) ->
  (forall t, In t (requests (client_of s identifier)) -> t <= tb) ->
  1 <= maxOf o ->
  (forall now, tb <= now < tb + windowOf o ->
     exists r, rateLimiter o identifier now s1
                 = (TooMany "Rate limit exceeded" r (Some r), s1) /\
               1 <= r <= ceil_seconds (windowOf o)) /\
  (forall now, tb + windowOf o <= now ->
     rateLimiter o identifier now s1
       = (Pass (maxOf o) (maxOf o - 1),
          mkLimiterState (<[identifier := mkClient [now] false None]> (rateLimitStore s1))
                         (limiterEvents s1))).
Proof.
  unfold rateLimiter at 1. fold (client_of s identifier).
  destruct (blocked (client_of s identifier)
            && (tb <? null_to_zero (blockedUntil (client_of s identifier))));
    [discriminate|].
  set (kept := List.filter (fun timestamp => tb - timestamp <? windowOf o)
                           (requests (client_of s identifier))).
  destruct (maxOf o <=? Z.of_nat (length kept)); [|discriminate].
  intros [= _ _ Hs1] Hpast Hmax.
  assert (Hc : client_of s1 identifier = mkClient kept true (Some (tb + windowOf o))).
  { rewrite <- Hs1. unfold client_of. cbn. by rewrite lookup_insert_eq. }
  clear Hs1. split.
  - intros now [H1 H2]. exists (ceil_seconds (tb + windowOf o - now)).
    unfold rateLimiter. fold (client_of s1 identifier). rewrite Hc. cbn.
    rewrite (proj2 (Z.ltb_lt _ _) H2). split; [done|].
    pose proof (ceil_seconds_bounds (tb + windowOf o - now)).
    split; [lia|]. apply ceil_seconds_mono. lia.
  - intros now Hnow. unfold rateLimiter. fold (client_of s1 identifier). rewrite Hc. cbn.
    rewrite (proj2 (Z.ltb_ge _ _) Hnow).
    rewrite filter_nothing.
    + cbn. rewrite (proj2 (Z.leb_gt _ _)) by lia. do 2 f_equal. lia.
    + intros t Ht. apply Z.ltb_ge.
      apply List.filter_In in Ht as [Ht _]. specialize (Hpast t Ht). lia.
Qed.

Lemma rateLimiter_block_lifecycle_witness :
  rateLimiter three_per_second "10.0.0.7" 6950
    (snd (serve three_per_second "10.0.0.7" [5000; 5400; 5900; 5950; 6100] no_clients))
  = (Pass 3 2,
     mkLimiterState {[ "10.0.0.7"%string := mkClient [6950] false None ]}
                    [("RATE_LIMIT_EXCEEDED"%string, 3)]).
Proof.
  refine (proj2 (rateLimiter_block_lifecycle three_per_second "10.0.0.7" 5950
              (snd (serve three_per_second "10.0.0.7" [5000; 5400; 5900] no_clients))
              "Too many requests, please try again later" 1
              (snd (serve three_per_second "10.0.0.7" [5000; 5400; 5900; 5950; 6100]
                      no_clients))
              eq_refl _ _) 6950 _).
  - intros t Ht. vm_compute in Ht. destruct Ht as [<-|[<-|[<-|[]]]]; discriminate.
  - vm_compute. discriminate.
  - vm_compute. discriminate.
Defined.

(** *** Brute-force protection *)

(** X4.  A client whose [loginAttempts] entry carries a lock: before the
    lock time it is answered 423 with the remaining seconds, at least 1,
    provided its count has reached maxAttempts, and the map is left as it
    is; from the lock time on the entry is deleted, whatever its count, and
    the request proceeds.  A client without an entry always proceeds. *)
Theorem bruteForce_lock_clears_lazily o identifier username now m a u :
  m !! identifier = Some a ->
  lockedUntil a = Some u -> u <> 0 ->
  (now < u -> num_or (optMaxAttempts o) MAX_LOGIN_ATTEMPTS <= count a ->
     bruteForceProtection o identifier username now m
       = (Locked (ceil_seconds (u - now)), m) /\ 1 <= ceil_seconds (u - now)) /\
  (u <= now ->
     exists ctx, bruteForceProtection o identifier username now m
                   = (Proceed ctx, base.delete identifier m) /\
     forall username' now',
       exists ctx', bruteForceProtection o identifier username' now'
                      (base.delete identifier m)
                    = (Proceed ctx', base.delete identifier m)).
Proof.
  intros Hm Hu Hnz. split.
  - intros Hlt Hc. unfold bruteForceProtection. rewrite Hm, Hu. cbn.
    rewrite (proj2 (Z.leb_le _ _) Hc), (proj2 (Z.ltb_lt _ _) Hlt). cbn.
    split; [done|]. pose proof (ceil_seconds_bounds (u - now)). lia.
  - intros Hle. unfold bruteForceProtection. rewrite Hm, Hu. cbn.
    rewrite (proj2 (Z.ltb_ge _ _) Hle), andb_false_r.
    rewrite (proj2 (Z.eqb_neq _ _) Hnz), (proj2 (Z.leb_le _ _) Hle). cbn.
    eexists. split; [reflexivity|].
    intros username' now'. rewrite lookup_delete_eq. by eexists.
Qed.

Lemma bruteForce_lock_clears_lazily_witness :
  bruteForceProtection (mkBruteForceOptions None None) "10.0.0.7" (Some "admin"%string) 1500
    {[ "10.0.0.7"%string := mkAttempt 5 (Some 9000) ]}
  = (Locked 8, {[ "10.0.0.7"%string := mkAttempt 5 (Some 9000) ]}).
Proof.
  refine (proj1 (proj1 (bruteForce_lock_clears_lazily (mkBruteForceOptions None None)
                          "10.0.0.7" (Some "admin"%string) 1500
                          {[ "10.0.0.7"%string := mkAttempt 5 (Some 9000) ]}
                          (mkAttempt 5 (Some 9000)) 9000 _ eq_refl _) _ _)).
  - vm_compute. reflexivity.
  - discriminate.
  - reflexivity.
  - vm_compute. discriminate.
Defined.

End RateLimiting.

(** ** Input sanitization *)

Section Sanitizing.
Import Xss.

Lemma append_nil (y : string) : EmptyString +:+ y = y.
Proof. reflexivity. Qed.

Lemma append_cons a (x y : string) : String a x +:+ y = String a (x +:+ y).
Proof. reflexivity. Qed.

Lemma append_assoc (x y z : string) : (x +:+ y) +:+ z = x +:+ (y +:+ z).
Proof.
  induction x as [|a x IH]; [reflexivity|]. rewrite !append_cons. by rewrite IH.
Qed.

Lemma replaceAll_app c r x y :
  replaceAll c r (x +:+ y) = replaceAll c r x +:+ replaceAll c r y.
Proof.
  induction x as [|a x IH]; [reflexivity|]. rewrite append_cons. cbn [replaceAll].
  destruct (Ascii.eqb a c); rewrite IH; [symmetry; apply append_assoc | reflexivity].
Qed.

Lemma replaceAll_escape_with c r f s :
  replaceAll c r (escape_with f s) = escape_with (fun a => replaceAll c r (f a)) s.
Proof.
  induction s as [|a s IH]; [reflexivity|]. cbn [escape_with].
  by rewrite replaceAll_app, IH.
Qed.

Lemma escape_with_single s : escape_with (fun a => String a EmptyString) s = s.
Proof. induction s as [|a s IH]; cbn; [done | by rewrite IH]. Qed.

Lemma escape_with_ext f g s : (forall a, f a = g a) -> escape_with f s = escape_with g s.
Proof. intros H. induction s as [|a s IH]; cbn; [done | by rewrite H, IH]. Qed.

Lemma six_passes_on_a_character a :
  replaceAll "/" "&#x2F;"
    (replaceAll "'" "&#x27;"
       (replaceAll dquote "&quot;"
          (replaceAll ">" "&gt;"
             (replaceAll "<" "&lt;"
                (replaceAll "&" "&amp;" (String a EmptyString))))))
  = escape_char a.
Proof. destruct a as [[] [] [] [] [] [] [] []]; reflexivity. Qed.

Lemma sanitizeInput_escape_all s : sanitizeInput s = escape_all (trim s).
Proof.
  unfold sanitizeInput, escape_all.
  rewrite <- (escape_with_single (trim s)) at 1.
  rewrite !replaceAll_escape_with. apply escape_with_ext.
  intros a. apply six_passes_on_a_character.
Qed.

Lemma contains_app c x y : contains c (x +:+ y) = contains c x || contains c y.
Proof.
  induction x as [|a x IH]; [reflexivity|]. rewrite append_cons. cbn [contains].
  by rewrite IH, orb_assoc.
Qed.

Lemma markup_free_app x y :
  markup_free (x +:+ y) = markup_free x && markup_free y.
Proof.
  unfold markup_free. rewrite !contains_app.
  destruct (contains "<" x), (contains ">" x), (contains dquote x), (contains "'" x),
    (contains "/" x); cbn; try reflexivity;
  destruct (contains "<" y), (contains ">" y), (contains dquote y), (contains "'" y),
    (contains "/" y); reflexivity.
Qed.

Lemma escape_char_markup_free a : markup_free (escape_char a) = true.
Proof. destruct a as [[] [] [] [] [] [] [] []]; reflexivity. Qed.

Lemma escape_all_markup_free s : markup_free (escape_all s) = true.
Proof.
  induction s as [|a s IH]; [reflexivity|]. unfold escape_all in *. cbn.
  by rewrite markup_free_app, escape_char_markup_free, IH.
Qed.

(** X5.  [Security.sanitizeInput]: its six successive replacements amount
    to one pass that trims the input and replaces each of [&], [<], [>],
    double quote, ['] and [/] by its entity, so that no ampersand written
    by an earlier replacement is escaped again; the result holds none of
    [<], [>], double quote, ['] and [/]. *)
Theorem sanitizeInput_one_pass s :
  sanitizeInput s = escape_all (trim s) /\ markup_free (sanitizeInput s) = true.
Proof.
  split; [apply sanitizeInput_escape_all|].
  rewrite sanitizeInput_escape_all. apply escape_all_markup_free.
Qed.

(** *** Sanitizing twice *)

Lemma length_append (x y : string) :
  String.length (x +:+ y) = (String.length x + String.length y)%nat.
Proof.
  induction x as [|a x IH]; [reflexivity|]. rewrite append_cons. cbn. by rewrite IH.
Qed.

Lemma append_nil_r (x : string) : x +:+ EmptyString = x.
Proof. induction x as [|a x IH]; [reflexivity|]. by rewrite append_cons, IH. Qed.

Lemma escape_char_length a : (1 <= String.length (escape_char a))%nat.
Proof. destruct a as [[] [] [] [] [] [] [] []]; vm_compute; lia. Qed.

Lemma escape_char_not_plain a :
  plain a = false ->
  (2 <= String.length (escape_char a))%nat /\ all_chars plain (escape_char a) = false.
Proof.
  destruct a as [[] [] [] [] [] [] [] []]; vm_compute; intros H; try discriminate;
    (split; [lia | reflexivity]).
Qed.

Lemma escape_all_length t : (String.length t <= String.length (escape_all t))%nat.
Proof.
  induction t as [|a t IH]; [cbn; lia|]. unfold escape_all in *. cbn [escape_with].
  rewrite length_append. pose proof (escape_char_length a). cbn. lia.
Qed.

Lemma all_chars_app P x y : all_chars P (x +:+ y) = all_chars P x && all_chars P y.
Proof.
  induction x as [|a x IH]; [reflexivity|]. rewrite append_cons. cbn.
  by rewrite IH, andb_assoc.
Qed.

Lemma escape_all_plain t : all_chars plain t = true -> escape_all t = t.
Proof.
  induction t as [|a t IH]; [reflexivity|]. cbn. intros H.
  apply andb_true_iff in H as [Ha Ht]. unfold escape_all in *. cbn [escape_with].
  apply String.eqb_eq in Ha. rewrite Ha, IH by done. reflexivity.
Qed.

Lemma escape_all_fixed t : escape_all t = t -> all_chars plain t = true.
Proof.
  induction t as [|a t IH]; [reflexivity|]. unfold escape_all in *. cbn [escape_with].
  intros H. cbn. destruct (plain a) eqn:Ha.
  - pose proof Ha as Ha'. apply String.eqb_eq in Ha'. rewrite Ha' in H.
    rewrite append_cons, append_nil in H. injection H as H. by rewrite IH.
  - exfalso. apply (f_equal String.length) in H. rewrite length_append in H.
    destruct (escape_char_not_plain a Ha) as [H2 _].
    pose proof (escape_all_length t) as H3. unfold escape_all in H3. cbn in H. lia.
Qed.

Lemma plain_before_escape t :
  all_chars plain (escape_all t) = true -> all_chars plain t = true.
Proof.
  induction t as [|a t IH]; [reflexivity|]. unfold escape_all in *. cbn [escape_with].
  rewrite all_chars_app. intros H. apply andb_true_iff in H as [Ha Ht]. cbn.
  rewrite IH by done. destruct (plain a) eqn:E; [done|].
  destruct (escape_char_not_plain a E) as [_ H2]. congruence.
Qed.

Lemma trimStart_length s : (String.length (trimStart s) <= String.length s)%nat.
Proof. induction s as [|c s IH]; cbn; [lia|]. destruct (is_ws c); cbn; lia. Qed.

Lemma trimEnd_length s : (String.length (trimEnd s) <= String.length s)%nat.
Proof.
  induction s as [|c s IH]; cbn; [lia|].
  destruct (trimEnd s); [destruct (is_ws c)|]; cbn in *; lia.
Qed.

Lemma trimStart_fixed s :
  trimStart s = s <-> match s with EmptyString => True | String c _ => is_ws c = false end.
Proof.
  destruct s as [|c s]; [done|]. cbn. destruct (is_ws c) eqn:E; [|done].
  split; [|done]. intros H. apply (f_equal String.length) in H.
  pose proof (trimStart_length s). cbn in H. lia.
Qed.

Lemma trimStart_idem s : trimStart (trimStart s) = trimStart s.
Proof.
  induction s as [|c s IH]; [reflexivity|]. cbn. destruct (is_ws c) eqn:E; [exact IH|].
  cbn. by rewrite E.
Qed.

Lemma trimEnd_idem s : trimEnd (trimEnd s) = trimEnd s.
Proof.
  induction s as [|c s IH]; [reflexivity|]. cbn.
  destruct (trimEnd s) as [|d r] eqn:E.
  - destruct (is_ws c) eqn:Ec; [reflexivity|]. cbn. by rewrite Ec.
  - cbn [trimEnd] in *. by rewrite IH.
Qed.

Lemma trimEnd_keeps_start s :
  trimStart s = s -> trimStart (trimEnd s) = trimEnd s.
Proof.
  intros H. apply trimStart_fixed in H. apply trimStart_fixed.
  destruct s as [|c s]; [done|]. cbn.
  destruct (trimEnd s); [by rewrite H | done].
Qed.

Lemma trim_idem s : trim (trim s) = trim s.
Proof.
  unfold trim. rewrite trimEnd_keeps_start by apply trimStart_idem.
  apply trimEnd_idem.
Qed.

Lemma trim_fixed s : trim s = s -> trimStart s = s /\ trimEnd s = s.
Proof.
  unfold trim. intros H.
  assert (Hs : trimStart s = s).
  { apply trimStart_fixed. destruct s as [|c s]; [done|].
    destruct (is_ws c) eqn:E; [|done]. exfalso.
    apply (f_equal String.length) in H. cbn in H. rewrite E in H.
    pose proof (trimEnd_length (trimStart s)). pose proof (trimStart_length s). lia. }
  split; [exact Hs|]. by rewrite Hs in H.
Qed.

Lemma escape_char_start c :
  is_ws c = false ->
  exists d rest, escape_char c = String d rest /\ is_ws d = false
                 /\ trimEnd (escape_char c) = escape_char c.
Proof.
  destruct c as [[] [] [] [] [] [] [] []]; intros H; try discriminate H;
    eexists _, _; (split; [vm_compute; reflexivity|]); split; reflexivity.
Qed.

Lemma trimEnd_app x y :
  y <> EmptyString -> trimEnd y = y -> trimEnd (x +:+ y) = x +:+ y.
Proof.
  intros Hy Hf. induction x as [|a x IH]; [exact Hf|].
  rewrite append_cons. cbn [trimEnd]. rewrite IH.
  destruct (x +:+ y) eqn:E; [|reflexivity].
  destruct x; [by rewrite append_nil in E | by rewrite append_cons in E].
Qed.

Lemma escape_all_nonempty t : t <> EmptyString -> escape_all t <> EmptyString.
Proof.
  intros Ht E. apply (f_equal String.length) in E.
  pose proof (escape_all_length t). destruct t; [done|]. cbn in *. lia.
Qed.

Lemma trimEnd_escape t : trimEnd t = t -> trimEnd (escape_all t) = escape_all t.
Proof.
  induction t as [|c t IH]; [reflexivity|]. intros H.
  unfold escape_all in *. cbn [escape_with].
  destruct t as [|d t'].
  - cbn in H. destruct (is_ws c) eqn:E; [discriminate|].
    destruct (escape_char_start c E) as (? & ? & _ & _ & Hc).
    cbn [escape_with]. by rewrite append_nil_r.
  - assert (Ht : trimEnd (String d t') = String d t').
    { cbn [trimEnd] in H |- *. destruct (trimEnd t') eqn:E1.
      - destruct (is_ws d).
        + destruct (is_ws c); discriminate.
        + congruence.
      - congruence. }
    apply trimEnd_app; [|by apply IH].
    by apply (escape_all_nonempty (String d t')).
Qed.

Lemma trimStart_escape t : trimStart t = t -> trimStart (escape_all t) = escape_all t.
Proof.
  intros H. apply trimStart_fixed in H. apply trimStart_fixed.
  destruct t as [|c t]; [done|]. unfold escape_all. cbn [escape_with].
  destruct (escape_char_start c H) as (d & rest & -> & Hd & _).
  by rewrite append_cons.
Qed.

Lemma trim_escape t : trim t = t -> trim (escape_all t) = escape_all t.
Proof.
  intros H. apply trim_fixed in H as [Hs He]. unfold trim.
  rewrite trimStart_escape by done. by apply trimEnd_escape.
Qed.

(** X6.  Sanitizing is not idempotent: sanitizing a text a second time
    gives the same text exactly when the first pass had nothing to escape,
    that is when the trimmed input holds none of [&], [<], [>], double
    quote, ['] and [/]; otherwise the entities of the first pass are
    escaped again. *)
Theorem sanitizeInput_twice s :
  (sanitizeInput (sanitizeInput s) = sanitizeInput s <-> sanitizeInput s = trim s) /\
  (sanitizeInput s = trim s <-> all_chars plain (trim s) = true).
Proof.
  rewrite !sanitizeInput_escape_all.
  assert (Hplain : escape_all (trim s) = trim s <-> all_chars plain (trim s) = true).
  { split; [apply escape_all_fixed | apply escape_all_plain]. }
  split; [|exact Hplain].
  rewrite (trim_escape (trim s)) by apply trim_idem. split.
  - intros H. apply Hplain. apply plain_before_escape. by apply escape_all_fixed.
  - intros H. by rewrite !H.
Qed.

Lemma sanitizeInput_twice_witness :
  sanitizeInput (sanitizeInput "  gold_admin ") = sanitizeInput "  gold_admin " /\
  sanitizeInput (sanitizeInput "a&b") <> sanitizeInput "a&b".
Proof.
  split.
  - apply (proj2 (proj1 (sanitizeInput_twice "  gold_admin "))). reflexivity.
  - intros H. apply (proj1 (proj1 (sanitizeInput_twice "a&b"))) in H. discriminate H.
Defined.

(** *** The request sanitizer *)

Lemma sanitizeInput_markup_free s : markup_free (sanitizeInput s) = true.
Proof. rewrite sanitizeInput_escape_all. apply escape_all_markup_free. Qed.

Lemma sanitized_member_markup_free (j : json) :
  all_strings markup_free
    (match j with
     | JString s => JString (sanitizeInput s)
     | JObject _ | JArray _ => sanitizeObject j
     | JPrim _ => j
     end) = true.
Proof.
  revert j. fix IH 1. intros [s|p|fields|items].
  - apply sanitizeInput_markup_free.
  - reflexivity.
  - cbn [sanitizeObject all_strings].
    induction fields as [|[k v] fields IHf]; [reflexivity|].
    cbn [map forallb fst snd]. rewrite IHf, andb_true_r. apply IH.
  - cbn [sanitizeObject all_strings].
    induction items as [|v items IHi]; [reflexivity|].
    cbn [map forallb]. rewrite IHi, andb_true_r. apply IH.
Qed.

Lemma sanitizeTop_markup_free fields :
  top_strings markup_free (sanitizeTop fields) = true.
Proof.
  unfold top_strings, sanitizeTop.
  induction fields as [|[k v] fields IH]; [reflexivity|].
  cbn [map forallb fst snd]. rewrite IH, andb_true_r.
  destruct v; cbn [snd]; try reflexivity. apply sanitizeInput_markup_free.
Qed.

Lemma sanitizeTop_keeps_nested fields k v :
  In (k, v) fields -> (forall s, v <> JString s) -> In (k, v) (sanitizeTop fields).
Proof.
  intros Hin Hv. unfold sanitizeTop. apply in_map_iff. exists (k, v).
  split; [|exact Hin]. cbn [fst snd]. destruct v; try reflexivity. by destruct (Hv s).
Qed.

(** X7.  [xssProtection] and [sanitizeObject]: in a body that is an object
    or an array, every string at every depth comes out without [<], [>],
    double quote, ['] and [/]; in the query and the route parameters only
    the strings held directly by a key are sanitized, and a key that holds
    anything else (a nested object or array, as the query parser builds for
    [a[b]=...]) keeps its value untouched, markup included. *)
Theorem xssProtection_depth (req : xssRequest) :
  (forall j, xBody req = Some j -> (forall s, j <> JString s) ->
     exists j', xBody (xssProtection req) = Some j' /\
                all_strings markup_free j' = true) /\
  top_strings markup_free (xQuery (xssProtection req)) = true /\
  top_strings markup_free (xParams (xssProtection req)) = true /\
  (forall k v, In (k, v) (xQuery req) -> (forall s, v <> JString s) ->
     In (k, v) (xQuery (xssProtection req))) /\
  (forall k v, In (k, v) (xParams req) -> (forall s, v <> JString s) ->
     In (k, v) (xParams (xssProtection req))).
Proof.
  split; [|split; [|split; [|split]]].
  - intros j Hj Hs. unfold xssProtection. cbn [xBody]. rewrite Hj.
    destruct j as [s|p|fields|items].
    + by destruct (Hs s).
    + by exists (JPrim p).
    + eexists; split; [reflexivity|].
      apply (sanitized_member_markup_free (JObject fields)).
    + eexists; split; [reflexivity|].
      apply (sanitized_member_markup_free (JArray items)).
  - apply sanitizeTop_markup_free.
  - apply sanitizeTop_markup_free.
  - intros k v. apply sanitizeTop_keeps_nested.
  - intros k v. apply sanitizeTop_keeps_nested.
Qed.

Lemma xssProtection_depth_witness :
  (exists j', xBody (xssProtection nested_request) = Some j' /\
              all_strings markup_free j' = true) /\
  In ("filter", JObject [("name", JString "<b>")])
     (xQuery (xssProtection nested_request)).
Proof.
  destruct (xssProtection_depth nested_request) as (Hb & _ & _ & Hq & _).
  split.
  - apply (Hb _ eq_refl). intros s H. discriminate H.
  - apply Hq; [left; reflexivity|]. intros s H. discriminate H.
Defined.

End Sanitizing.

(** ** Login and account lockout *)

Section Lockout.

Import Accounts.

Variable verifyPassword : string -> string -> bool.

Lemma alter_as_insert (f : account -> account) (t : accounts) i a :
  t !! i = Some a -> alter f i t = <[i := f a]> t.
Proof.
  intros H. apply map_eq. intros j. destruct (decide (i = j)) as [->|Hne].
  - by rewrite lookup_alter_eq, lookup_insert_eq, H.
  - by rewrite lookup_alter_ne, lookup_insert_ne.
Qed.

Lemma findByUsername_unique t username id a :
  unique_username t username id -> t !! id = Some a -> acc_username a = username ->
  findByUsername username t = (Return (Some (construct (id, a))), t).
Proof.
  intros Hu Hl Hn. unfold findByUsername, gets.
  set (P := fun kv : Z * account => String.eqb (acc_username kv.2) username).
  assert (Hall : forall x, In x (List.filter P (map_to_list t)) -> x = (id, a)).
  { intros [j b] Hx. apply List.filter_In in Hx as [Hx HP].
    apply list_elem_of_In, elem_of_map_to_list in Hx.
    unfold P in HP. cbn in HP. apply String.eqb_eq in HP.
    pose proof (Hu j b Hx HP) as ->. congruence. }
  assert (Hin : In (id, a) (List.filter P (map_to_list t))).
  { apply List.filter_In. split.
    - by apply list_elem_of_In, elem_of_map_to_list.
    - unfold P. cbn. by apply String.eqb_eq. }
  assert (Hnd : List.NoDup (List.filter P (map_to_list t))).
  { apply List.NoDup_filter. apply NoDup_ListNoDup, NoDup_map_to_list. }
  destruct (List.filter P (map_to_list t)) as [|x l]; [destruct Hin|].
  rewrite (Hall x) by (left; reflexivity). reflexivity.
Qed.

Lemma unique_username_insert t username id a a' :
  unique_username t username id -> t !! id = Some a ->
  unique_username (<[id := a']> t) username id.
Proof.
  intros Hu Hl j b Hj Hb. destruct (decide (j = id)) as [|Hne]; [done|].
  rewrite lookup_insert_ne in Hj by done. by apply (Hu j b).
Qed.

Lemma login_wrong_password t username id a password tc tr now :
  unique_username t username id -> t !! id = Some a -> id <> 0 ->
  acc_username a = username -> acc_is_active a = true ->
  (forall u, acc_locked_until a = Some u -> u <= tc) ->
  verifyPassword password (acc_password_hash a) = false ->
  login verifyPassword username password tc tr now t
  = (Throw "Invalid credentials",
     <[id := set_attempts (acc_login_attempts a + 1)
               (if 5 <=? acc_login_attempts a + 1 then Some (now + 900000) else None) a]> t).
Proof.
  intros Hu Hl Hid Hn Hact Hlock Hpw. unfold login, bind.
  rewrite (findByUsername_unique t username id a) by done.
  cbn [construct with_default_role fst snd acc_is_active acc_password_hash
       acc_locked_until acc_login_attempts]. rewrite Hact, Hpw. cbn [negb].
  assert (Hstep : (let* _ := incrementLoginAttempts (nz id) now in
                   throw (A := UserObject) "Invalid credentials") t
          = (Throw "Invalid credentials",
             <[id := set_attempts (acc_login_attempts a + 1)
                (if 5 <=? acc_login_attempts a + 1 then Some (now + 900000) else None) a]> t)).
  { unfold bind, incrementLoginAttempts, bind, findById, gets, update_row, modify, throw, nz.
    assert (E : (id =? 0) = false) by lia. rewrite !E, Hl.
    cbn [fmap option_fmap option_map construct with_default_role fst snd
         acc_login_attempts].
    by rewrite (alter_as_insert _ t id a Hl). }
  unfold bind in Hstep. destruct (acc_locked_until a) as [u|] eqn:Eu; [|exact Hstep].
  destruct (tc <? u) eqn:E; [|exact Hstep]. specialize (Hlock u eq_refl). lia.
Qed.

Lemma login_locked t username id a password tc tr now u :
  unique_username t username id -> t !! id = Some a ->
  acc_username a = username -> acc_is_active a = true ->
  acc_locked_until a = Some u -> tc < u ->
  login verifyPassword username password tc tr now t
  = (Throw (locked_message (RateLimit.ceil_seconds (u - tr))), t).
Proof.
  intros Hu Hl Hn Hact Hlock Hlt. unfold login, bind.
  rewrite (findByUsername_unique t username id a) by done.
  cbn [construct with_default_role fst snd acc_is_active acc_password_hash
       acc_locked_until acc_login_attempts]. rewrite Hact, Hlock. cbn [negb].
  assert (E : (tc <? u) = true) by lia. by rewrite E.
Qed.

Lemma login_right_password t username id a password tc tr now :
  unique_username t username id -> t !! id = Some a -> id <> 0 ->
  acc_username a = username -> acc_is_active a = true ->
  (forall u, acc_locked_until a = Some u -> u <= tc) ->
  verifyPassword password (acc_password_hash a) = true ->
  login verifyPassword username password tc tr now t
  = (Return (Some id, with_default_role a),
     <[id := set_last_login now (set_attempts 0 None a)]> t).
Proof.
  intros Hu Hl Hid Hn Hact Hlock Hpw. unfold login, bind.
  rewrite (findByUsername_unique t username id a) by done.
  cbn [construct with_default_role fst snd acc_is_active acc_password_hash
       acc_locked_until acc_login_attempts]. rewrite Hact, Hpw. cbn [negb].
  assert (E : (id =? 0) = false) by lia.
  assert (Hstep : (let* _ := resetLoginAttempts (nz id) in
                   let* _ := update_row (set_last_login now) (nz id) in
                   ret (nz id, with_default_role a)) t
          = (Return (Some id, with_default_role a),
             <[id := set_last_login now (set_attempts 0 None a)]> t)).
  { unfold bind, resetLoginAttempts, update_row, modify, ret, nz. rewrite E.
    rewrite (alter_as_insert _ t id a Hl).
    rewrite (alter_as_insert _ _ id (set_attempts 0 None a)) by apply lookup_insert_eq.
    by rewrite insert_insert_eq. }
  unfold bind in Hstep. destruct (acc_locked_until a) as [u|] eqn:Eu; [|exact Hstep].
  destruct (tc <? u) eqn:E'; [|exact Hstep]. specialize (Hlock u eq_refl). lia.
Qed.

Lemma login_all_app username tries1 tries2 t :
  login_all verifyPassword username (tries1 ++ tries2) t
  = ((login_all verifyPassword username tries1 t).1
       ++ (login_all verifyPassword username tries2
             (login_all verifyPassword username tries1 t).2).1,
     (login_all verifyPassword username tries2
        (login_all verifyPassword username tries1 t).2).2).
Proof.
  revert t. induction tries1 as [|[pw now] tries1 IH]; intros t.
  - cbn. by destruct (login_all verifyPassword username tries2 t).
  - cbn. by rewrite IH.
Qed.

Lemma login_all_below_five t username id a tries :
  unique_username t username id -> t !! id = Some a -> id <> 0 ->
  acc_username a = username -> acc_is_active a = true ->
  acc_locked_until a = None ->
  acc_login_attempts a + Z.of_nat (length tries) < 5 ->
  (forall pw now, In (pw, now) tries -> verifyPassword pw (acc_password_hash a) = false) ->
  Forall (fun o => o = Throw "Invalid credentials")
         (login_all verifyPassword username tries t).1 /\
  (login_all verifyPassword username tries t).2
  = <[id := set_attempts (acc_login_attempts a + Z.of_nat (length tries)) None a]> t.
Proof.
  revert t a. induction tries as [|[pw now] tries IH]; intros t a Hu Hl Hid Hn Hact Hlock Hk Hpw.
  - cbn. split; [constructor|]. rewrite Z.add_0_r. symmetry. apply insert_id.
    rewrite Hl. f_equal. destruct a. cbn in *. by subst.
  - cbn [login_all length] in *.
    rewrite (login_wrong_password t username id a pw now now now); try done.
    2: { intros u Hu'. congruence. }
    2: { apply (Hpw pw now). by left. }
    assert (E : (5 <=? acc_login_attempts a + 1) = false) by lia. rewrite E.
    cbn [fst snd].
    set (a' := set_attempts (acc_login_attempts a + 1) None a).
    destruct (IH (<[id := a']> t) a') as [IH1 IH2]; try done.
    + by apply (unique_username_insert t username id a).
    + apply lookup_insert_eq.
    + cbn. lia.
    + intros pw' now' Hin. apply (Hpw pw' now'). by right.
    + split; [by constructor|]. rewrite IH2, insert_insert_eq. f_equal.
      unfold a', set_attempts. cbn. f_equal. lia.
Qed.

(** X8.  Account lockout of [User.login]: for an active account without a
    lock, wrong passwords are answered 'Invalid credentials' and counted,
    and the failure that brings [login_attempts] to 5 locks the account for
    15 minutes from that attempt.  Until then every login of that user,
    with the right password too, is refused with the lock message and the
    remaining seconds, and leaves the table as it is. *)
Theorem login_locks_on_fifth_failure t username id a tries password last :
  unique_username t username id -> t !! id = Some a -> id <> 0 ->
  acc_username a = username -> acc_is_active a = true ->
  acc_locked_until a = None ->
  acc_login_attempts a + Z.of_nat (length tries) + 1 = 5 ->
  (forall pw now, In (pw, now) (tries ++ [(password, last)]) ->
     verifyPassword pw (acc_password_hash a) = false) ->
  let r := login_all verifyPassword username (tries ++ [(password, last)]) t in
  Forall (fun o => o = Throw "Invalid credentials") r.1 /\
  length r.1 = S (length tries) /\
  r.2 = <[id := set_attempts 5 (Some (last + 900000)) a]> t /\
  forall pw tc tr now, tc < last + 900000 ->
    login verifyPassword username pw tc tr now r.2
    = (Throw (locked_message (RateLimit.ceil_seconds (last + 900000 - tr))), r.2).
Proof.
  intros Hu Hl Hid Hn Hact Hlock Hk Hpw r.
  destruct (login_all_below_five t username id a tries) as [H1 H2]; try done.
  { lia. }
  { intros pw now Hin. apply (Hpw pw now). apply in_or_app. by left. }
  set (a1 := set_attempts (acc_login_attempts a + Z.of_nat (length tries)) None a) in *.
  assert (Hr : r = ((login_all verifyPassword username tries t).1
                      ++ [Throw "Invalid credentials"],
                    <[id := set_attempts 5 (Some (last + 900000)) a]> t)).
  { unfold r. rewrite login_all_app, H2. cbn [login_all fst snd].
    rewrite (login_wrong_password _ username id a1 password last last last);
      [ | by apply (unique_username_insert t username id a)
        | apply lookup_insert_eq
        | done | done | done
        | intros u Hu'; discriminate Hu'
        | apply (Hpw password last); apply in_or_app; right; by left ].
    cbn [fst snd]. rewrite insert_insert_eq. f_equal. f_equal.
    unfold a1, set_attempts. cbn.
    assert (E : (5 <=? acc_login_attempts a + Z.of_nat (length tries) + 1) = true) by lia.
    rewrite E. f_equal. lia. }
  rewrite Hr. cbn [fst snd]. split; [|split; [|split]].
  - apply Forall_app. split; [done|]. by constructor.
  - rewrite length_app. cbn.
    assert (Hlen : forall tries' t', length (login_all verifyPassword username tries' t').1
                                     = length tries').
    { induction tries' as [|[??] ? IH]; intros t'; cbn; [done|]. by rewrite IH. }
    rewrite Hlen. lia.
  - done.
  - intros pw tc tr now Hlt.
    apply (login_locked _ username id (set_attempts 5 (Some (last + 900000)) a)); try done.
    + by apply (unique_username_insert t username id a).
    + apply lookup_insert_eq.
Qed.

(** X9.  A lock that has run out does not clear the counter.  With
    [login_attempts] at 4 or more and the lock time reached, a wrong
    password locks the account again at once, for 15 minutes from that
    attempt; only a login with the right password sets the counter to 0,
    removes the lock and records the login time. *)
Theorem login_after_lock_expiry t username id a password tc tr now u :
  unique_username t username id -> t !! id = Some a -> id <> 0 ->
  acc_username a = username -> acc_is_active a = true ->
  acc_locked_until a = Some u -> u <= tc -> 4 <= acc_login_attempts a ->
  (verifyPassword password (acc_password_hash a) = false ->
     login verifyPassword username password tc tr now t
     = (Throw "Invalid credentials",
        <[id := set_attempts (acc_login_attempts a + 1) (Some (now + 900000)) a]> t)) /\
  (verifyPassword password (acc_password_hash a) = true ->
     login verifyPassword username password tc tr now t
     = (Return (Some id, with_default_role a),
        <[id := set_last_login now (set_attempts 0 None a)]> t)).
Proof.
  intros Hu Hl Hid Hn Hact Hlock Hle Hk.
  assert (Hexp : forall u', acc_locked_until a = Some u' -> u' <= tc).
  { intros u' Hu'. congruence. }
  split; intros Hpw.
  - rewrite (login_wrong_password t username id a); try done.
    assert (E : (5 <=? acc_login_attempts a + 1) = true) by lia. by rewrite E.
  - by rewrite (login_right_password t username id a).
Qed.

End Lockout.

Lemma login_locks_on_fifth_failure_witness :
  (login_all plain_check "amal"
     ([("a", 1000); ("b", 2000); ("c", 3000); ("d", 4000)] ++ [("e", 5000)])
     one_account).2 !! 1
  = Some (amal 5 (Some 905000) None) /\
  Accounts.login plain_check "amal" "s3cret" 6000 6000 6000
    (login_all plain_check "amal"
       ([("a", 1000); ("b", 2000); ("c", 3000); ("d", 4000)] ++ [("e", 5000)])
       one_account).2
  = (Throw "Account locked. Try again in 899 seconds",
     (login_all plain_check "amal"
        ([("a", 1000); ("b", 2000); ("c", 3000); ("d", 4000)] ++ [("e", 5000)])
        one_account).2).
Proof.
  destruct (login_locks_on_fifth_failure plain_check one_account "amal" 1
              (amal 0 None None)
              [("a", 1000); ("b", 2000); ("c", 3000); ("d", 4000)] "e" 5000)
    as (_ & _ & H3 & H4).
  - intros j b Hj _. destruct (decide (j = 1)) as [|Hne]; [done|].
    unfold one_account in Hj. by rewrite lookup_singleton_ne in Hj.
  - reflexivity.
  - lia.
  - reflexivity.
  - reflexivity.
  - reflexivity.
  - reflexivity.
  - intros pw now Hin. cbn in Hin.
    repeat (destruct Hin as [Hin|Hin]; [injection Hin as <- <-; reflexivity|]).
    destruct Hin.
  - split.
    + rewrite H3. apply lookup_insert_eq.
    + apply (H4 "s3cret"%string 6000 6000 6000). lia.
Defined.

Lemma login_after_lock_expiry_witness :
  Accounts.login plain_check "amal" "guess" 905000 905000 905000
    {[ 1 := amal 5 (Some 905000) None ]}
  = (Throw "Invalid credentials",
     <[1 := amal 6 (Some 1805000) None]>
       {[ 1 := amal 5 (Some 905000) None ]}) /\
  Accounts.login plain_check "amal" "s3cret" 905000 905000 905000
    {[ 1 := amal 5 (Some 905000) None ]}
  = (Return (Some 1, amal 5 (Some 905000) None),
     <[1 := amal 0 None (Some 905000)]>
       {[ 1 := amal 5 (Some 905000) None ]}).
Proof.
  assert (Hu : unique_username
                 {[ 1 := amal 5 (Some 905000) None ]}
                 "amal" 1).
  { intros j b Hj _. destruct (decide (j = 1)) as [|Hne]; [done|].
    by rewrite lookup_singleton_ne in Hj. }
  destruct (login_after_lock_expiry plain_check _ "amal" 1 _ "guess" 905000 905000 905000
              905000 Hu eq_refl ltac:(lia) eq_refl eq_refl eq_refl ltac:(lia)
              ltac:(cbn; lia)) as [H1 _].
  destruct (login_after_lock_expiry plain_check _ "amal" 1 _ "s3cret" 905000 905000 905000
              905000 Hu eq_refl ltac:(lia) eq_refl eq_refl eq_refl ltac:(lia)
              ltac:(cbn; lia)) as [_ H2].
  split; [exact (H1 eq_refl) | exact (H2 eq_refl)].
Defined.

(** ** The settings table *)

Section Settings.

Import SettingsStore.

Variables (decimal json : Type).
Variable parseFloat_or_0 : string -> decimal.
Variable JSON_parse_or_empty : string -> json.
Variable JSON_stringify : value -> string.
Variable Number_toString : number -> string.

Ltac eval_digit :=
  match goal with
  | |- context [digit ?c] =>
      let x := eval vm_compute in (digit c) in change (digit c) with x
  end.

Lemma digits_of_uint_acc d acc :
  digits (NilEmpty.string_of_uint d) (Some (Z.pos acc))
  = Some (Z.pos (Pos.of_uint_acc d acc)).
Proof.
  revert acc. induction d; intros acc; cbn [NilEmpty.string_of_uint digits Pos.of_uint_acc];
    [reflexivity|..]; eval_digit; rewrite <- IHd; cbn [from_option id];
    f_equal; f_equal; lia.
Qed.

Lemma digits_of_uint d acc :
  d <> Decimal.Nil -> acc = None \/ acc = Some 0 ->
  digits (NilEmpty.string_of_uint d) acc = Some (Z.of_N (Pos.of_uint d)).
Proof.
  revert acc. induction d; intros acc Hd Hacc; [done|..];
    cbn [NilEmpty.string_of_uint digits Pos.of_uint]; eval_digit; cbv iota beta;
    assert (Ha : from_option id 0 acc = 0) by (destruct Hacc as [->| ->]; reflexivity);
    rewrite Ha; try apply digits_of_uint_acc.
  change (10 * 0 + 0) with 0.
  destruct d; [reflexivity|..]; apply IHd; solve [discriminate | by right].
Qed.

Lemma uint_first_digit d :
  d <> Decimal.Nil ->
  exists c r, NilEmpty.string_of_uint d = String c r /\ Xss.is_ws c = false
              /\ c <> "-"%char /\ c <> "+"%char.
Proof.
  destruct d; intros H; [done|..]; eexists _, _; (split; [reflexivity|]);
    (split; [reflexivity|]); split; discriminate.
Qed.

(** *** Integers up to 2^53 are exact in binary64 *)

Lemma digits2_pos_bounds p :
  2 ^ (Z.pos (digits2_pos p) - 1) <= Z.pos p < 2 ^ Z.pos (digits2_pos p).
Proof.
  induction p as [p IH|p IH|]; cbn [digits2_pos]; [| |cbn; lia];
    rewrite Pos2Z.inj_succ;
    replace (Z.succ (Z.pos (digits2_pos p)) - 1) with (Z.succ (Z.pos (digits2_pos p) - 1))
      by lia;
    rewrite !Z.pow_succ_r by lia; lia.
Qed.

Lemma iter_xO_digits p k :
  digits2_pos (Pos.iter xO p k) = (digits2_pos p + k)%positive.
Proof.
  induction k as [|k IH] using Pos.peano_ind.
  - cbn. lia.
  - rewrite Pos.iter_succ. cbn [digits2_pos]. rewrite IH. lia.
Qed.

Lemma iter_xO_value p k : Z.pos (Pos.iter xO p k) = Z.pos p * 2 ^ Z.pos k.
Proof.
  induction k as [|k IH] using Pos.peano_ind.
  - cbn. lia.
  - rewrite Pos.iter_succ, Pos2Z.inj_succ, Z.pow_succ_r by lia.
    rewrite Pos2Z.inj_xO, IH. lia.
Qed.

Lemma binary_round_aux_exact sx m e :
  Z.pos (digits2_pos m) = 53 -> -1074 <= e <= 971 ->
  binary_round_aux prec emax sx (Z.pos m) e loc_Exact = S754_finite sx m e.
Proof.
  intros Hm He. unfold binary_round_aux, shr_fexp, Zdigits2, fexp, emin, prec, emax.
  rewrite Hm.
  replace ((53 + e - 53) `max` (3 - 1024 - 53) - e) with 0 by lia.
  cbn [shr shr_record_of_loc loc_of_shr_record shr_m round_nearest_even].
  rewrite Hm.
  replace ((53 + e - 53) `max` (3 - 1024 - 53) - e) with 0 by lia.
  cbn [shr shr_record_of_loc shr_m].
  by rewrite (proj2 (Z.leb_le e (1024 - 53))) by lia.
Qed.

Lemma binary_round_small sx p :
  Z.pos p < 2 ^ 53 ->
  exists m e,
    binary_round prec emax sx p 0 = S754_finite sx m e /\
    e <= 0 /\ Z.pos m = Z.pos p * 2 ^ (- e).
Proof.
  intros Hp. pose proof (digits2_pos_bounds p) as [Hlo Hhi].
  assert (Hd : Z.pos (digits2_pos p) <= 53).
  { destruct (Z.le_gt_cases (Z.pos (digits2_pos p)) 53) as [H|H]; [done|].
    assert (2 ^ 53 <= 2 ^ (Z.pos (digits2_pos p) - 1)) by (apply Z.pow_le_mono_r; lia).
    lia. }
  unfold binary_round, shl_align, fexp, emin, prec, emax.
  rewrite Z.max_l by lia.
  destruct (Z.pos (digits2_pos p) + 0 - 53 - 0) as [|q|q] eqn:E; [|lia|].
  - exists p, 0. split; [|split; [lia | cbn; lia]].
    cbv beta iota. apply binary_round_aux_exact; lia.
  - exists (Pos.iter xO p q), (Z.pos (digits2_pos p) + 0 - 53).
    split; [|split; [lia|]].
    + cbv beta iota. apply binary_round_aux_exact; [|lia]. rewrite iter_xO_digits. lia.
    + rewrite iter_xO_value. do 2 f_equal. lia.
Qed.

Lemma of_Z_safe z :
  z <> 0 -> Z.abs z <= 2 ^ 53 ->
  exists m e,
    of_Z z = S754_finite (z <? 0) m e /\
    (if e <=? 0 then Z.pos m = Z.abs z * 2 ^ (- e) else Z.abs z = Z.pos m * 2 ^ e).
Proof.
  intros Hz Hb. unfold of_Z, binary_normalize.
  destruct z as [|p|p]; [done|..]; cbn [Z.abs] in Hb.
  - destruct (Z.eq_dec (Z.pos p) (2 ^ 53)) as [E|E].
    + injection E as ->. eexists _, _. split; [vm_compute; reflexivity|]. reflexivity.
    + destruct (binary_round_small false p ltac:(lia)) as (m & e & -> & He & Hm).
      exists m, e. split; [reflexivity|]. by rewrite (proj2 (Z.leb_le e 0) He).
  - destruct (Z.eq_dec (Z.pos p) (2 ^ 53)) as [E|E].
    + injection E as ->. eexists _, _. split; [vm_compute; reflexivity|]. reflexivity.
    + destruct (binary_round_small true p ltac:(lia)) as (m & e & -> & He & Hm).
      exists m, e. split; [reflexivity|]. by rewrite (proj2 (Z.leb_le e 0) He).
Qed.

Lemma or_zero_of_Z z : Z.abs z <= 2 ^ 53 -> or_zero (of_Z z) = of_Z z.
Proof.
  intros Hb. destruct (Z.eq_dec z 0) as [->|Hz]; [reflexivity|].
  by destruct (of_Z_safe z Hz Hb) as (m & e & -> & _).
Qed.

Lemma of_Z_safe_inj z z' :
  Z.abs z <= 2 ^ 53 -> Z.abs z' <= 2 ^ 53 -> of_Z z = of_Z z' -> z = z'.
Proof.
  intros Hb Hb' E.
  destruct (Z.eq_dec z 0) as [->|Hz], (Z.eq_dec z' 0) as [->|Hz']; [done|..].
  - destruct (of_Z_safe z' Hz' Hb') as (m & e & Em & _). rewrite Em in E. discriminate.
  - destruct (of_Z_safe z Hz Hb) as (m & e & Em & _). rewrite Em in E. discriminate.
  - destruct (of_Z_safe z Hz Hb) as (m & e & Em & Hm).
    destruct (of_Z_safe z' Hz' Hb') as (m' & e' & Em' & Hm').
    rewrite Em, Em' in E. injection E as Es <- <-.
    assert (Ha : Z.abs z = Z.abs z').
    { destruct (e <=? 0) eqn:Ee.
      - apply Z.leb_le in Ee. rewrite Hm in Hm'.
        assert (0 < 2 ^ (- e)) by (apply Z.pow_pos_nonneg; lia). nia.
      - lia. }
    destruct (Z.ltb_spec z 0), (Z.ltb_spec z' 0); try discriminate; lia.
Qed.

Lemma parseInt_unsigned d :
  d <> Decimal.Nil ->
  parseInt (NilEmpty.string_of_uint d)
  = signed_digits false (NilEmpty.string_of_uint d).
Proof.
  intros Hd. destruct (uint_first_digit d Hd) as (c & r & E & Hws & Hm & Hp).
  unfold parseInt. rewrite E. cbn [Xss.trimStart]. rewrite Hws.
  destruct c as [[] [] [] [] [] [] [] []]; try reflexivity; congruence.
Qed.

Lemma to_uint_nonnil p : Pos.to_uint p <> Decimal.Nil.
Proof.
  intros H. pose proof (DecimalPos.Unsigned.of_to p) as E. rewrite H in E. discriminate E.
Qed.

Lemma signed_digits_pos negative p :
  signed_digits negative (NilEmpty.string_of_uint (Pos.to_uint p))
  = of_Z (if negative then Z.neg p else Z.pos p).
Proof.
  unfold signed_digits.
  rewrite (digits_of_uint _ None (to_uint_nonnil p)) by (by left).
  rewrite DecimalPos.Unsigned.of_to. cbn [Z.of_N Z.eqb]. by destruct negative.
Qed.

Lemma string_of_uint_pos p :
  NilZero.string_of_uint (Pos.to_uint p) = NilEmpty.string_of_uint (Pos.to_uint p).
Proof.
  unfold NilZero.string_of_uint. pose proof (to_uint_nonnil p).
  by destruct (Pos.to_uint p).
Qed.

(** The digits that [String] prints for a safe integer read back as the
    Number of that integer. *)
Lemma parseInt_ToString z :
  Z.abs z <= 2 ^ 53 -> parseInt (ToString Number_toString (VInt z)) = of_Z z.
Proof.
  intros Hz. unfold ToString. rewrite (proj2 (Z.leb_le _ _) Hz).
  destruct z as [|p|p]; [reflexivity|..]; cbn [Z.to_int NilZero.string_of_int].
  - rewrite string_of_uint_pos, parseInt_unsigned by apply to_uint_nonnil.
    apply (signed_digits_pos false).
  - rewrite string_of_uint_pos. unfold parseInt. cbn [Xss.trimStart].
    change (Xss.is_ws "-") with false. cbn iota.
    apply (signed_digits_pos true).
Qed.

Lemma set_effect key v type updatedBy now (db : database decimal json) :
  exists stringValue,
    stringValue = (if String.eqb type "json" then JSON_stringify v
                   else if String.eqb type "boolean"
                        then (if truthy v then "1" else "0")%string
                        else ToString Number_toString v) /\
    set JSON_stringify Number_toString key v type updatedBy now db
    = (Return true,
       mkDb decimal json
         (match row_of key db with
          | Some _ =>
              map (fun r => if String.eqb (setting_key r) key
                            then mkSetting (setting_key r) stringValue type
                                           (description r) updatedBy now
                            else r) (store_settings db)
          | None => store_settings db
                      ++ [mkSetting key stringValue type EmptyString updatedBy now]
          end)
         (audit_log db ++ [mkAudit decimal json updatedBy "SET" key (SetDetails decimal json v type)])).
Proof.
  eexists. split; [reflexivity|].
  unfold set, bind, gets, modify, logChange, ret. by destruct (row_of key db).
Qed.

Lemma find_updated key (f : setting_row -> setting_row) l :
  (forall r, setting_key (f r) = setting_key r) ->
  List.find (fun r => String.eqb (setting_key r) key)
    (map (fun r => if String.eqb (setting_key r) key then f r else r) l)
  = f <$> List.find (fun r => String.eqb (setting_key r) key) l.
Proof.
  intros Hf. induction l as [|r l IH]; [reflexivity|]. cbn [map List.find].
  destruct (String.eqb (setting_key r) key) eqn:E.
  - by rewrite Hf, E.
  - by rewrite E.
Qed.

Lemma find_updated_other key k (f : setting_row -> setting_row) l :
  k <> key -> (forall r, setting_key (f r) = setting_key r) ->
  List.find (fun r => String.eqb (setting_key r) k)
    (map (fun r => if String.eqb (setting_key r) key then f r else r) l)
  = List.find (fun r => String.eqb (setting_key r) k) l.
Proof.
  intros Hk Hf. induction l as [|r l IH]; [reflexivity|]. cbn [map List.find].
  destruct (String.eqb (setting_key r) key) eqn:E.
  - rewrite Hf. apply String.eqb_eq in E. rewrite E.
    assert (E' : String.eqb key k = false) by (apply String.eqb_neq; congruence).
    by rewrite E'.
  - by rewrite IH.
Qed.

Lemma find_app_last (P : setting_row -> bool) l x :
  List.find P (l ++ [x])
  = match List.find P l with
    | Some y => Some y
    | None => if P x then Some x else None
    end.
Proof.
  induction l as [|r l IH]; [reflexivity|]. cbn. by destruct (P r).
Qed.

Lemma row_of_after_set key v type updatedBy now (db : database decimal json) :
  exists r,
    row_of key (set JSON_stringify Number_toString key v type updatedBy now db).2 = Some r /\
    setting_type r = type /\
    setting_value r = (if String.eqb type "json" then JSON_stringify v
                       else if String.eqb type "boolean"
                            then (if truthy v then "1" else "0")%string
                            else ToString Number_toString v).
Proof.
  destruct (set_effect key v type updatedBy now db) as (sv & Hsv & ->).
  cbn [snd]. unfold row_of at 1. cbn [store_settings].
  destruct (row_of key db) as [r0|] eqn:E; unfold row_of in E.
  - rewrite (find_updated key (fun r => mkSetting (setting_key r) sv type
                                          (description r) updatedBy now)) by done.
    rewrite E. eexists. split; [reflexivity|]. by split.
  - rewrite find_app_last, E. cbn [setting_key]. rewrite String.eqb_refl.
    eexists. split; [reflexivity|]. by split.
Qed.

Lemma row_of_other_after_set key k v type updatedBy now (db : database decimal json) :
  k <> key ->
  row_of k (set JSON_stringify Number_toString key v type updatedBy now db).2 = row_of k db.
Proof.
  intros Hk. destruct (set_effect key v type updatedBy now db) as (sv & Hsv & ->).
  cbn [snd]. destruct (row_of key db) as [r0|] eqn:E; unfold row_of; cbn [store_settings].
  - by apply find_updated_other.
  - rewrite find_app_last. cbn [setting_key].
    assert (E' : String.eqb key k = false) by (apply String.eqb_neq; congruence).
    rewrite E'. by destruct (List.find _ (store_settings db)).
Qed.

Lemma get_reads key d (db : database decimal json) :
  get parseFloat_or_0 JSON_parse_or_empty key d db
  = (Return (match row_of key db with
             | Some row => getTypedValue decimal json parseFloat_or_0 JSON_parse_or_empty
                             (construct row)
             | None => d
             end), db).
Proof. unfold get, bind, gets, ret. by destruct (row_of key db). Qed.

(** X10.  [StoreSettings.set] followed by [StoreSettings.get]: [set]
    answers [true], and whatever the table held for the key, [get] then
    answers the value just written, never the default: [!!value] for type
    'boolean', [String(value)] for type 'string' (a string itself, 'true'
    or 'false' for a boolean), and, for an integer of magnitude up to 2^53
    written with type 'integer', the Number of that integer, which
    different integers of that range do not share.  Beyond 2^53 the
    integer is not read back: the digits of 2^53 + 1 read as 2^53, and the
    text '1e+21' reads as 1.  The
    settings of the other keys read as before, and when no two rows shared
    a key before, none do afterwards: [set] updates the row of an existing
    key and adds a row only for a new one. *)
Theorem set_then_get key v type updatedBy now (db : database decimal json) d :
  (set JSON_stringify Number_toString key v type updatedBy now db).1 = Return true /\
  (get parseFloat_or_0 JSON_parse_or_empty key d
     (set JSON_stringify Number_toString key v "boolean" updatedBy now db).2).1
  = Return (TBoolean (truthy v)) /\
  (get parseFloat_or_0 JSON_parse_or_empty key d
     (set JSON_stringify Number_toString key v "string" updatedBy now db).2).1
  = Return (TString (ToString Number_toString v)) /\
  (forall s, ToString Number_toString (VStr s) = s) /\
  ToString Number_toString (VBool true) = "true"%string /\
  ToString Number_toString (VBool false) = "false"%string /\
  (forall z, Z.abs z <= 2 ^ 53 ->
     (get parseFloat_or_0 JSON_parse_or_empty key d
        (set JSON_stringify Number_toString key (VInt z) "integer" updatedBy now db).2).1
     = Return (TInteger (of_Z z))) /\
  (forall z z', Z.abs z <= 2 ^ 53 -> Z.abs z' <= 2 ^ 53 -> of_Z z = of_Z z' -> z = z') /\
  parseInt "9007199254740993" = of_Z (2 ^ 53) /\
  parseInt "1e+21" = of_Z 1 /\
  (forall k d', k <> key ->
     (get parseFloat_or_0 JSON_parse_or_empty k d'
        (set JSON_stringify Number_toString key v type updatedBy now db).2).1
     = (get parseFloat_or_0 JSON_parse_or_empty k d' db).1) /\
  (NoDup (map setting_key (store_settings db)) ->
   NoDup (map setting_key
            (store_settings (set JSON_stringify Number_toString key v type updatedBy now
                               db).2))).
Proof.
  split; [|split; [|split; [|split; [|split; [|split; [|split; [|split; [|split;
    [|split; [|split]]]]]]]]]].
  - by destruct (set_effect key v type updatedBy now db) as (sv & _ & ->).
  - rewrite get_reads. cbn [fst].
    destruct (row_of_after_set key v "boolean" updatedBy now db) as (r & -> & Ht & Hv).
    unfold getTypedValue, construct. cbn [setting_type setting_value].
    rewrite Ht. cbn. rewrite Hv. cbn. by destruct (truthy v).
  - rewrite get_reads. cbn [fst].
    destruct (row_of_after_set key v "string" updatedBy now db) as (r & -> & Ht & Hv).
    unfold getTypedValue, construct. cbn [setting_type setting_value].
    rewrite Ht. cbn. by rewrite Hv.
  - reflexivity.
  - reflexivity.
  - reflexivity.
  - intros z Hz. rewrite get_reads. cbn [fst].
    destruct (row_of_after_set key (VInt z) "integer" updatedBy now db)
      as (r & -> & Ht & Hv).
    unfold getTypedValue, construct. cbn [setting_type setting_value].
    rewrite Ht. cbn -[parseInt ToString or_zero Z.pow]. rewrite Hv.
    cbn -[parseInt ToString or_zero Z.pow].
    by rewrite parseInt_ToString, or_zero_of_Z.
  - apply of_Z_safe_inj.
  - vm_compute. reflexivity.
  - vm_compute. reflexivity.
  - intros k d' Hk. rewrite !get_reads. cbn [fst].
    by rewrite row_of_other_after_set.
  - intros Hnd. destruct (set_effect key v type updatedBy now db) as (sv & _ & ->).
    cbn [snd store_settings]. destruct (row_of key db) as [r0|] eqn:E.
    + rewrite map_map.
      rewrite (map_ext _ setting_key); [done|].
      intros r. by destruct (String.eqb (setting_key r) key).
    + rewrite map_app. cbn [map setting_key]. apply NoDup_app. split; [done|].
      split; [|apply NoDup_singleton].
      intros x Hx Hx'. apply list_elem_of_singleton in Hx'. subst x.
      apply list_elem_of_fmap in Hx as (r & Hr & Hin).
      unfold row_of in E. apply list_elem_of_In in Hin.
      pose proof (List.find_none _ _ E r Hin) as Hne. cbn in Hne.
      rewrite <- Hr, String.eqb_refl in Hne. discriminate.
Qed.

Lemma find_removed key l :
  List.find (fun r => String.eqb (setting_key r) key)
    (List.filter (fun r => negb (String.eqb (setting_key r) key)) l) = None.
Proof.
  induction l as [|r l IH]; [reflexivity|]. cbn [List.filter].
  destruct (String.eqb (setting_key r) key) eqn:E; cbn [negb]; [done|].
  cbn [List.find]. by rewrite E.
Qed.

Lemma find_removed_other key k l :
  k <> key ->
  List.find (fun r => String.eqb (setting_key r) k)
    (List.filter (fun r => negb (String.eqb (setting_key r) key)) l)
  = List.find (fun r => String.eqb (setting_key r) k) l.
Proof.
  intros Hk. induction l as [|r l IH]; [reflexivity|]. cbn [List.filter List.find].
  destruct (String.eqb (setting_key r) key) eqn:E; cbn [negb].
  - apply String.eqb_eq in E. rewrite E.
    assert (E' : String.eqb key k = false) by (apply String.eqb_neq; congruence).
    by rewrite E'.
  - cbn [List.find]. by rewrite IH.
Qed.

(** X11.  [StoreSettings.delete]: for a key without a row it answers
    [false] and writes nothing, not even an audit entry; for a key with a
    row it answers [true], logs one DELETE entry with the setting as it
    was, and removes every row of the key, so that [get] then answers its
    default, while all other keys read as before. *)
Theorem delete_then_get key deletedBy (db : database decimal json) d :
  (row_of key db = None ->
     delete parseFloat_or_0 JSON_parse_or_empty key deletedBy db = (Return false, db)) /\
  (forall r, row_of key db = Some r ->
     (delete parseFloat_or_0 JSON_parse_or_empty key deletedBy db).1 = Return true /\
     (get parseFloat_or_0 JSON_parse_or_empty key d
        (delete parseFloat_or_0 JSON_parse_or_empty key deletedBy db).2).1 = Return d /\
     (forall k d', k <> key ->
        (get parseFloat_or_0 JSON_parse_or_empty k d'
           (delete parseFloat_or_0 JSON_parse_or_empty key deletedBy db).2).1
        = (get parseFloat_or_0 JSON_parse_or_empty k d' db).1) /\
     audit_log (delete parseFloat_or_0 JSON_parse_or_empty key deletedBy db).2
     = audit_log db
         ++ [mkAudit decimal json deletedBy "DELETE" key
               (toJSON decimal json parseFloat_or_0 JSON_parse_or_empty (construct r))]).
Proof.
  split.
  - intros E. unfold delete, getSetting, bind, gets, ret. by rewrite E.
  - intros r E.
    assert (Hd : delete parseFloat_or_0 JSON_parse_or_empty key deletedBy db
                 = (Return true,
                    mkDb decimal json
                      (List.filter (fun r => negb (String.eqb (setting_key r) key))
                                   (store_settings db))
                      (audit_log db
                         ++ [mkAudit decimal json deletedBy "DELETE" key
                               (toJSON decimal json parseFloat_or_0 JSON_parse_or_empty
                                  (construct r))]))).
    { unfold delete, getSetting, bind, gets, ret, logChange, modify. by rewrite E. }
    rewrite Hd. cbn [fst snd audit_log]. split; [done|]. split; [|split; [|done]].
    + rewrite get_reads. cbn [fst]. unfold row_of. cbn [store_settings].
      by rewrite find_removed.
    + intros k d' Hk. rewrite !get_reads. cbn [fst]. unfold row_of. cbn [store_settings].
      by rewrite find_removed_other.
Qed.

End Settings.

Lemma set_then_get_witness :
  (SettingsStore.get no_parse no_parse "session_timeout" SettingsStore.TNull
     (SettingsStore.set no_text no_text "session_timeout"
        (SettingsStore.VInt 3600) "integer" (Some 1) 0 no_settings).2).1
  = Return (SettingsStore.TInteger (of_Z 3600)) /\
  (SettingsStore.get no_parse no_parse "max_items" SettingsStore.TNull
     (SettingsStore.set no_text no_text "max_items"
        (SettingsStore.VInt (- 2 ^ 53)) "integer" (Some 1) 0 no_settings).2).1
  = Return (SettingsStore.TInteger (of_Z (- 2 ^ 53))) /\
  NoDup (map SettingsStore.setting_key
           (SettingsStore.store_settings
              (SettingsStore.set no_text no_text "session_timeout"
                 (SettingsStore.VInt 3600) "integer" (Some 1) 0 no_settings).2)).
Proof.
  split; [|split].
  - destruct (set_then_get unit unit no_parse no_parse no_text no_text
                "session_timeout" (SettingsStore.VInt 3600) "integer" (Some 1) 0
                no_settings SettingsStore.TNull) as (_ & _ & _ & _ & _ & _ & H & _).
    rewrite (H 3600 ltac:(cbn; lia)). vm_compute. reflexivity.
  - destruct (set_then_get unit unit no_parse no_parse no_text no_text
                "max_items" (SettingsStore.VInt 3600) "integer" (Some 1) 0
                no_settings SettingsStore.TNull) as (_ & _ & _ & _ & _ & _ & H & _).
    rewrite (H (- 2 ^ 53) ltac:(cbn; lia)). vm_compute. reflexivity.
  - destruct (set_then_get unit unit no_parse no_parse no_text no_text
                "session_timeout" (SettingsStore.VInt 3600) "integer" (Some 1) 0
                no_settings SettingsStore.TNull)
      as (_ & _ & _ & _ & _ & _ & _ & _ & _ & _ & _ & H).
    exact (H (NoDup_nil_2 (A := string))).
Defined.

Lemma delete_then_get_witness :
  SettingsStore.delete no_parse no_parse "store_name" (Some 1) no_settings
  = (Return false, no_settings) /\
  (SettingsStore.get no_parse no_parse "store_name" (SettingsStore.TString "none")
     (SettingsStore.delete no_parse no_parse "store_name" (Some 1)
        (SettingsStore.set no_text no_text "store_name"
           (SettingsStore.VStr "Princess Gold") "string" (Some 1) 0 no_settings).2).2).1
  = Return (SettingsStore.TString "none").
Proof.
  split.
  - apply (proj1 (delete_then_get unit unit no_parse no_parse "store_name" (Some 1)
                    no_settings SettingsStore.TNull)).
    reflexivity.
  - eapply (proj2 (delete_then_get unit unit no_parse no_parse "store_name" (Some 1)
                     _ (SettingsStore.TString "none"))).
    reflexivity.
Defined.

(** ** More on the price store *)

Section PriceWrites.

Import AutoUpdate.

Lemma findById_unknown k id db :
  (forall r, In r (prices k db) -> row_id r = id -> joined k db r = None) ->
  findById k (Some id) db = (Return None, db).
Proof.
  intros H. unfold findById, gets, join. rewrite filter_omap_nil; [done|].
  intros r x Hin Hj. pose proof (joined_fst _ _ _ _ Hj) as E.
  destruct (Z.eqb_spec (row_id x.1) id) as [Heq|Hne].
  - rewrite E in Heq. rewrite (H r Hin Heq) in Hj. discriminate.
  - cbn. by apply Z.eqb_neq.
Qed.

(** X12.  [update] and [delete] look the record up through the join with
    its instrument: for an id that no record carries, and also for a
    record whose instrument row is missing, both throw the 'not found'
    error and leave the database, audit log included, as it is. *)
Theorem write_unknown_id_refused k id db tc ti d actor :
  (forall r, In r (prices k db) -> row_id r = id -> joined k db r = None) ->
  update k tc ti id d actor db = (Throw (not_found k), db) /\
  PriceModel.delete k id actor db = (Throw (not_found k), db).
Proof.
  intros H. unfold update, PriceModel.delete, bind.
  by rewrite (findById_unknown k id db H).
Qed.

Lemma findById_created k db tc ti i g d updatedBy :
  instruments k db !! i = Some g -> dInstrumentId d = Some i ->
  accepts k d db = true ->
  (forall r, In r (prices k db) -> row_id r <> seq_value k db) ->
  fst (findById k (Some (seq_value k db)) (snd (create k tc ti d updatedBy db)))
  = Return (Some (construct (created_row k ti d updatedBy db) g)).
Proof.
  intros Hg Hd Ha Hfresh. unfold findById, gets, join. cbn [fst].
  rewrite create_prices, Ha, omap_app, List.filter_app.
  rewrite filter_omap_nil.
  - cbn [app omap list_omap]. unfold joined at 1.
    rewrite create_instruments. cbn [created_row instrument_id].
    rewrite Hd, Hg. cbn [List.filter fst row_id sql_eq]. by rewrite Z.eqb_refl.
  - intros r x Hin Hj. apply joined_fst in Hj. rewrite Hj.
    apply list_elem_of_In, list_elem_of_fmap in Hin as (r0 & -> & Hin0).
    apply list_elem_of_In in Hin0. cbn [sql_eq].
    destruct (close_open_same_quote (dInstrumentId d) tc r0) as [-> _].
    apply Z.eqb_neq. by apply Hfresh.
Qed.

Lemma delete_found k id deletedBy db price :
  fst (findById k (Some id) db) = Return (Some price) ->
  PriceModel.delete k id deletedBy db
  = (Return true,
     set_prices k (List.filter (fun r => negb (row_id r =? id)) (prices k db))
       (add_audit {| a_user_id := deletedBy; a_action := "DELETE";
                     a_entity_type := entity_type k; a_entity_id := Some id;
                     a_new_values := DObject price |} db)).
Proof.
  intros Hf. unfold PriceModel.delete, bind. rewrite findById_state, Hf.
  unfold logChange, modify, ret. by rewrite prices_add_audit.
Qed.

Lemma filter_fresh id (l : list price_row) :
  (forall r, In r l -> row_id r <> id) ->
  List.filter (fun r => negb (row_id r =? id)) l = l.
Proof.
  induction l as [|r l IH]; intros H; [reflexivity|]. cbn [List.filter].
  assert (E : (row_id r =? id) = false) by (apply Z.eqb_neq, H; by left).
  rewrite E. cbn [negb]. f_equal. apply IH. intros r' Hin. apply H. by right.
Qed.

(** X13.  Deleting the newest version does not bring the previous one
    back.  After [create] has closed the open record of an instrument and
    inserted a new one (the instrument is a row of the store and both
    prices are given, so the INSERT is accepted), [delete] of the new
    record answers [true] and leaves the table as it was before the
    [create] except that the record that was open stays closed: from the
    time of the close on, the instrument has no current price. *)
Theorem delete_does_not_reopen k db tc ti tq i g d updatedBy deletedBy :
  instruments k db !! i = Some g -> dInstrumentId d = Some i ->
  is_null (dBuyPrice d) = false -> is_null (dSellPrice d) = false ->
  (forall r, In r (prices k db) -> row_id r <> seq_value k db) ->
  closed_by k i tc db -> tc <= tq ->
  fst (PriceModel.delete k (seq_value k db) deletedBy
         (snd (create k tc ti d updatedBy db))) = Return true /\
  prices k (snd (PriceModel.delete k (seq_value k db) deletedBy
                   (snd (create k tc ti d updatedBy db))))
  = map (close_open (Some i) tc) (prices k db) /\
  fst (getCurrent k tq (Some i)
         (snd (PriceModel.delete k (seq_value k db) deletedBy
                 (snd (create k tc ti d updatedBy db))))) = Return None.
Proof.
  intros Hg Hd Hb Hs Hfresh Hc Hle.
  assert (Ha : accepts k d db = true).
  { apply accepts_true. split; [|done]. by exists i, g. }
  pose proof (findById_created k db tc ti i g d updatedBy Hg Hd Ha Hfresh) as Hf.
  rewrite (delete_found _ _ _ _ _ Hf). cbn [fst snd].
  assert (Hp : prices k
                 (set_prices k
                    (List.filter (fun r => negb (row_id r =? seq_value k db))
                       (prices k (snd (create k tc ti d updatedBy db))))
                    (add_audit
                       {| a_user_id := deletedBy; a_action := "DELETE";
                          a_entity_type := entity_type k;
                          a_entity_id := Some (seq_value k db);
                          a_new_values :=
                            DObject (construct (created_row k ti d updatedBy db) g) |}
                       (snd (create k tc ti d updatedBy db))))
               = map (close_open (Some i) tc) (prices k db)).
  { rewrite prices_set_prices, create_prices, Ha, List.filter_app, Hd.
    cbn [List.filter created_row row_id]. rewrite Z.eqb_refl. cbn [negb].
    rewrite app_nil_r. apply filter_fresh. intros r Hin.
    apply list_elem_of_In, list_elem_of_fmap in Hin as (r0 & -> & Hin0).
    apply list_elem_of_In in Hin0.
    destruct (close_open_same_quote (Some i) tc r0) as [-> _]. by apply Hfresh. }
  split; [done|]. split; [exact Hp|].
  unfold getCurrent, gets, current_rows, join. cbn [fst]. rewrite Hp.
  rewrite filter_omap_nil; [done|].
  intros r x Hin Hj. apply joined_fst in Hj. rewrite Hj.
  apply list_elem_of_In, list_elem_of_fmap in Hin as (r0 & -> & Hin0).
  apply (closed_row_not_current k i tc tq db); [done|done|].
  by apply list_elem_of_In.
Qed.

(** *** Automatic prices *)

Lemma auto_accepts base g db :
  is_Some (gold_types db !! gt_id g) -> accepts Gold (auto_data base g) db = true.
Proof.
  intros [x Hx]. apply accepts_true. split; [|done]. by exists (gt_id g), x.
Qed.

Lemma autoUpdate_step base updatedBy g tc ti rest db :
  is_Some (gold_types db !! gt_id g) ->
  autoUpdate base updatedBy ((g, tc, ti) :: rest) db
  = (match fst (autoUpdate base updatedBy rest
                  (snd (create Gold tc ti (auto_data base g) updatedBy db))) with
     | Return l => Return (None :: l)
     | Throw msg => Throw msg
     end,
     snd (autoUpdate base updatedBy rest
            (snd (create Gold tc ti (auto_data base g) updatedBy db)))).
Proof.
  intros Hg. cbn [autoUpdate]. unfold bind at 1.
  rewrite (create_accepted _ _ _ _ _ _ (auto_accepts base g db Hg)). cbn [snd].
  unfold bind, ret. by destruct (autoUpdate base updatedBy rest _) as [[l|msg] s'].
Qed.

Lemma from_table_step base updatedBy g tc ti (rest : list (goldType * Z * Z)) db :
  (forall x, In x ((g, tc, ti) :: rest) -> is_Some (gold_types db !! gt_id x.1.1)) ->
  is_Some (gold_types db !! gt_id g) /\
  (forall x, In x rest ->
     is_Some (gold_types (snd (create Gold tc ti (auto_data base g) updatedBy db))
              !! gt_id x.1.1)).
Proof.
  intros H. split; [apply (H (g, tc, ti)); by left|].
  intros x Hx. change (gold_types ?s) with (instruments Gold s).
  rewrite create_instruments. apply H. by right.
Qed.

Lemma autoUpdate_open_count base updatedBy goldTypes db i :
  (forall x, In x goldTypes -> is_Some (gold_types db !! gt_id x.1.1)) ->
  open_count Gold i (snd (autoUpdate base updatedBy goldTypes db))
  = if listed i goldTypes then 1%nat else open_count Gold i db.
Proof.
  revert db. induction goldTypes as [|[[g tc] ti] rest IH]; intros db Ht; [reflexivity|].
  destruct (from_table_step base updatedBy g tc ti rest db Ht) as [Hg Hrest].
  rewrite autoUpdate_step by done. cbn [snd]. rewrite IH by done.
  unfold listed. cbn [existsb fst]. fold (listed i rest).
  destruct (listed i rest); [by rewrite orb_true_r|]. rewrite orb_false_r.
  destruct (Z.eqb_spec (gt_id g) i) as [<-|Hne].
  - rewrite create_open_count_same by done. by rewrite auto_accepts.
  - apply create_open_count_other. right. cbn. congruence.
Qed.

(** X14.  [autoUpdate], given rows of the gold types table, answers one
    [null] per gold type, since every [create] answers [null];
    afterwards each gold type it was given has exactly one open record,
    whatever the table held before, the open records of the other gold
    types are untouched, the currency rates are unchanged, and the table
    has grown by one row per gold type. *)
Theorem autoUpdate_one_open_each base updatedBy goldTypes db :
  (forall x, In x goldTypes -> is_Some (gold_types db !! gt_id x.1.1)) ->
  fst (autoUpdate base updatedBy goldTypes db) = Return (map (fun _ => None) goldTypes) /\
  (forall i, listed i goldTypes = true ->
     open_count Gold i (snd (autoUpdate base updatedBy goldTypes db)) = 1%nat) /\
  (forall i, listed i goldTypes = false ->
     open_count Gold i (snd (autoUpdate base updatedBy goldTypes db))
     = open_count Gold i db) /\
  prices Currency (snd (autoUpdate base updatedBy goldTypes db)) = prices Currency db /\
  length (prices Gold (snd (autoUpdate base updatedBy goldTypes db)))
  = (length (prices Gold db) + length goldTypes)%nat.
Proof.
  intros Ht. split; [|split; [|split; [|split]]].
  - revert db Ht. induction goldTypes as [|[[g tc] ti] rest IH]; intros db Ht; [reflexivity|].
    destruct (from_table_step base updatedBy g tc ti rest db Ht) as [Hg Hrest].
    rewrite autoUpdate_step by done. cbn [fst map]. by rewrite IH.
  - intros i Hi. by rewrite autoUpdate_open_count, Hi.
  - intros i Hi. by rewrite autoUpdate_open_count, Hi.
  - revert db Ht. induction goldTypes as [|[[g tc] ti] rest IH]; intros db Ht; [reflexivity|].
    destruct (from_table_step base updatedBy g tc ti rest db Ht) as [Hg Hrest].
    rewrite autoUpdate_step by done. cbn [snd]. rewrite IH by done.
    by apply create_prices_ne.
  - revert db Ht. induction goldTypes as [|[[g tc] ti] rest IH]; intros db Ht.
    + cbn. lia.
    + destruct (from_table_step base updatedBy g tc ti rest db Ht) as [Hg Hrest].
      rewrite autoUpdate_step by done. cbn [snd]. rewrite IH, create_prices by done.
      rewrite auto_accepts by done.
      rewrite length_app, length_map. cbn [length]. lia.
Qed.

(** *** Currency codes *)

Lemma upper_of_lower c : upper_ascii (lower_ascii c) = upper_ascii c.
Proof. destruct c as [[] [] [] [] [] [] [] []]; reflexivity. Qed.

Lemma toUpperCase_of_lower s : toUpperCase (toLowerCase s) = toUpperCase s.
Proof.
  induction s as [|c s IH]; [reflexivity|]. cbn. by rewrite upper_of_lower, IH.
Qed.

Lemma same_code_upper a b : same_code a b = true -> toUpperCase a = toUpperCase b.
Proof.
  unfold same_code. intros E. apply String.eqb_eq in E.
  by rewrite <- (toUpperCase_of_lower a), E, toUpperCase_of_lower.
Qed.

Lemma getCurrentRateByCode_same now a b :
  same_code a b = true -> getCurrentRateByCode now a = getCurrentRateByCode now b.
Proof. intros E. unfold getCurrentRateByCode. by rewrite (same_code_upper a b E). Qed.

Lemma upper_ascii_not_lower c : RegExp.lower (upper_ascii c) = false.
Proof. destruct c as [[] [] [] [] [] [] [] []]; reflexivity. Qed.

Lemma toUpperCase_not_lower s :
  all_chars (fun c => negb (RegExp.lower c)) (toUpperCase s) = true.
Proof.
  induction s as [|c s IH]; [reflexivity|]. cbn [toUpperCase all_chars].
  by rewrite upper_ascii_not_lower, IH.
Qed.

Lemma later_In best x y :
  later best x = Some y -> y = x \/ best = Some y.
Proof.
  unfold later. destruct best as [b|]; [|intros [= <-]; by left].
  destruct (_ <? _); intros [= <-]; [by left | by right].
Qed.

Lemma latest_from rows : forall best y,
  fold_left later rows best = Some y -> In y rows \/ best = Some y.
Proof.
  induction rows as [|x rows IH]; intros best y H; [by right|].
  cbn [fold_left] in H. destruct (IH _ _ H) as [Hin|Hl].
  - left. by right.
  - destruct (later_In _ _ _ Hl) as [->|Hb]; [left; by left | by right].
Qed.

Lemma latest_In rows y : latest rows = Some y -> In y rows.
Proof. intros H. by destruct (latest_from rows None y H). Qed.

Lemma or_null_Some s t : or_null s = Some t -> t = s.
Proof. unfold or_null. by destruct (String.eqb s EmptyString); intros [= <-]. Qed.

(** X15.  Currency codes are matched without regard to the case of their
    ASCII letters: for two codes that differ only in case,
    [getCurrentRateByCode] answers the same rate, and [convert] computes
    the same result and the same rate, or fails alike; only the [from] and
    [to] fields of the answer repeat the codes as they were given.  The
    code is compared in its upper-case form: 'usd' finds the currency
    stored as USD, and the code of a rate that is found never holds a
    lower-case letter. *)
Theorem convert_ignores_case t_from t_to amount type db :
  (forall a b, same_code a b = true ->
     getCurrentRateByCode t_from a db = getCurrentRateByCode t_from b db) /\
  (forall fromCode toCode fromCode' toCode',
     same_code fromCode fromCode' = true -> same_code toCode toCode' = true ->
     match fst (convert t_from t_to amount fromCode toCode type db),
           fst (convert t_from t_to amount fromCode' toCode' type db)
     with
     | Return c, Return c' =>
         c_result c' = c_result c /\ c_rate c' = c_rate c /\ c_amount c' = c_amount c /\
         c_from c = fromCode /\ c_to c = toCode /\
         c_from c' = fromCode' /\ c_to c' = toCode'
     | Throw m, Throw m' => m' = m
     | _, _ => False
     end) /\
  (forall code price s,
     fst (getCurrentRateByCode t_from code db) = Return (Some price) ->
     instrumentCode price = Some s ->
     all_chars (fun c => negb (RegExp.lower c)) s = true) /\
  fst (getCurrentRateByCode 5 "usd" usd_sar_db)
  = Return (Some (mkObject (Some 1) (Some 1) (JNum (of_Z 1)) (JNum (of_Z 1)) (JNum pzero)
                           (JNum pzero) (JNum pzero) (JBool false) None (Some 0) None
                           (Some 0) (Some "USD"%string) (Some "USD"%string))) /\
  fst (convert 5 5 (of_Z 100) "usd" "Sar" "buy" usd_sar_db)
  = Return {| c_amount := of_Z 100; c_from := "usd"; c_to := "Sar";
              c_result := of_Z 375; c_rate := dec 375 2 |}.
Proof.
  split; [|split; [|split; [|split]]].
  - intros a b E. by rewrite (getCurrentRateByCode_same t_from a b E).
  - intros fromCode toCode fromCode' toCode' Ef Et. unfold convert, bind.
    rewrite (getCurrentRateByCode_same t_from fromCode fromCode' Ef).
    rewrite (getCurrentRateByCode_same t_to toCode toCode' Et).
    destruct (getCurrentRateByCode t_from fromCode' db) as [[[f|]|m] s1]; cbn [fst];
      try done.
    by destruct (getCurrentRateByCode t_to toCode' s1) as [[[t|]|m] s2].
  - intros code price s. unfold getCurrentRateByCode, gets. cbn [fst].
    destruct (latest _) as [[r g]|] eqn:E; [|done]. intros [= <-] Hs.
    apply latest_In, List.filter_In in E as [_ E]. cbn in E.
    apply andb_true_iff in E as [E _]. apply String.eqb_eq in E.
    cbn in Hs. apply or_null_Some in Hs. subst s. rewrite E.
    apply toUpperCase_not_lower.
  - vm_compute. reflexivity.
  - vm_compute. reflexivity.
Qed.

End PriceWrites.

Lemma write_unknown_id_refused_witness :
  update Gold 30 31 7 zero_update (Some 1) one_version
  = (Throw "Gold price not found", one_version) /\
  PriceModel.delete Gold 7 (Some 1) one_version
  = (Throw "Gold price not found", one_version).
Proof.
  apply (write_unknown_id_refused Gold 7 one_version 30 31 zero_update (Some 1)).
  intros r Hin Hid. vm_compute in Hin. destruct Hin as [<-|[]].
  vm_compute in Hid. discriminate Hid.
Defined.

Lemma delete_does_not_reopen_witness :
  fst (PriceModel.delete Gold 2 (Some 1)
         (snd (create Gold 20 21 (quote_data 1 251 262) (Some 1) one_version)))
  = Return true /\
  fst (getCurrent Gold 25 (Some 1)
         (snd (PriceModel.delete Gold 2 (Some 1)
                 (snd (create Gold 20 21 (quote_data 1 251 262) (Some 1) one_version)))))
  = Return None.
Proof.
  destruct (delete_does_not_reopen Gold one_version 20 21 25 1 (karat "Gold 24K")
              (quote_data 1 251 262) (Some 1) (Some 1)) as (H1 & _ & H3).
  - vm_compute. reflexivity.
  - reflexivity.
  - reflexivity.
  - reflexivity.
  - intros r Hin. vm_compute in Hin. destruct Hin as [<-|[]]. vm_compute. discriminate.
  - intros r u Hin Hi Hu. vm_compute in Hin. destruct Hin as [<-|[]].
    vm_compute in Hu. discriminate.
  - lia.
  - split; [exact H1 | exact H3].
Defined.

Lemma autoUpdate_one_open_each_witness :
  open_count Gold 1
    (snd (AutoUpdate.autoUpdate (of_Z 300) (Some 1)
            [(AutoUpdate.mkGoldType 1 (of_Z 1), 20, 21);
             (AutoUpdate.mkGoldType 2 (dec 9167 4), 22, 23)] one_version)) = 1%nat /\
  open_count Gold 3
    (snd (AutoUpdate.autoUpdate (of_Z 300) (Some 1)
            [(AutoUpdate.mkGoldType 1 (of_Z 1), 20, 21);
             (AutoUpdate.mkGoldType 2 (dec 9167 4), 22, 23)] one_version))
  = open_count Gold 3 one_version.
Proof.
  destruct (autoUpdate_one_open_each (of_Z 300) (Some 1)
              [(AutoUpdate.mkGoldType 1 (of_Z 1), 20, 21);
               (AutoUpdate.mkGoldType 2 (dec 9167 4), 22, 23)] one_version)
    as (_ & H2 & H3 & _).
  - intros x [<-|[<-|[]]]; vm_compute; eauto.
  - split; [apply H2 | apply H3]; reflexivity.
Defined.

Lemma convert_ignores_case_witness :
  getCurrentRateByCode 5 "usd" usd_sar_db = getCurrentRateByCode 5 "USD" usd_sar_db /\
  getCurrentRateByCode 5 "sAr" usd_sar_db = getCurrentRateByCode 5 "Sar" usd_sar_db.
Proof.
  split.
  - apply (proj1 (convert_ignores_case 5 5 (of_Z 100) "buy" usd_sar_db) "usd" "USD")%string.
    reflexivity.
  - apply (proj1 (convert_ignores_case 5 5 (of_Z 100) "buy" usd_sar_db) "sAr" "Sar")%string.
    reflexivity.
Defined.

(** ** The gold price handlers *)

Section GoldHandlers.

Import GoldController.

Variable Number_of_string : string -> number.
Variable parseFloat_of_string : string -> number.

(** X16.  [createPrice] never answers 201.  With the required fields
    present and both prices positive numbers it calls [GoldPrice.create].
    For a gold type of the table, [create] closes the open record, inserts
    the new one and answers [null]; the handler then fails on
    [price.toJSON()] and answers 500 CREATE_ERROR although the new record
    is in the table.  For a gold type that is not in the table the INSERT
    is refused, and the handler answers the same 500 with nothing
    inserted.  With a field missing or a price that is not a positive
    number it answers 400 and writes nothing. *)
Theorem createPrice_fails_after_writing tc ti body uid db :
  (forall status price,
     fst (createPrice Number_of_string parseFloat_of_string tc ti body uid db)
     <> Success status price) /\
  (missing_fields body = false -> invalid_prices Number_of_string body = false ->
   forall i, goldTypeId body = Some i ->
   (is_Some (gold_types db !! i) ->
    createPrice Number_of_string parseFloat_of_string tc ti body uid db
    = (Failure 500 "Failed to create gold price" "CREATE_ERROR",
       after_create Gold tc ti (create_data parseFloat_of_string body) uid db) /\
    gold_prices (snd (createPrice Number_of_string parseFloat_of_string tc ti body uid db))
    = map (close_open (Some i) tc) (gold_prices db)
      ++ [mkRow (gold_prices_seq db) (Some i)
                (JNum (parseFloat parseFloat_of_string (buyPrice body)))
                (JNum (parseFloat parseFloat_of_string (sellPrice body)))
                (JNum (fsub (parseFloat parseFloat_of_string (sellPrice body))
                            (parseFloat parseFloat_of_string (buyPrice body))))
                (JNum (or_zero (if defined (marginBuy body)
                                then parseFloat parseFloat_of_string (marginBuy body)
                                else pzero)))
                (JNum (or_zero (if defined (marginSell body)
                                then parseFloat parseFloat_of_string (marginSell body)
                                else pzero)))
                (JNum (if is_true (isManual body) then of_Z 1 else pzero))
                uid ti None ti]) /\
   (gold_types db !! i = None ->
    fst (createPrice Number_of_string parseFloat_of_string tc ti body uid db)
    = Failure 500 "Failed to create gold price" "CREATE_ERROR" /\
    gold_prices (snd (createPrice Number_of_string parseFloat_of_string tc ti body uid db))
    = map (close_open (Some i) tc) (gold_prices db) /\
    PriceModel.audit_log
      (snd (createPrice Number_of_string parseFloat_of_string tc ti body uid db))
    = PriceModel.audit_log db)) /\
  (missing_fields body = true ->
   createPrice Number_of_string parseFloat_of_string tc ti body uid db
   = (Failure 400 "Gold type ID, buy price, and sell price are required"
              "MISSING_FIELDS", db)) /\
  (missing_fields body = false -> invalid_prices Number_of_string body = true ->
   createPrice Number_of_string parseFloat_of_string tc ti body uid db
   = (Failure 400 "Prices must be positive numbers" "INVALID_PRICES", db)).
Proof.
  split; [|split; [|split]].
  - intros status price. unfold createPrice.
    destruct (missing_fields body); [done|].
    destruct (invalid_prices Number_of_string body); [done|].
    destruct (accepts Gold (create_data parseFloat_of_string body) db) eqn:Ha.
    + by rewrite create_accepted.
    + by rewrite create_refused.
  - intros Hm Hp i Hi. unfold createPrice. rewrite Hm, Hp. split.
    + intros [g Hg].
      assert (Ha : accepts Gold (create_data parseFloat_of_string body) db = true).
      { apply accepts_true. split; [by exists i, g | by split]. }
      rewrite create_accepted by done. split; [reflexivity|]. cbn [snd].
      change (gold_prices ?x) with (prices Gold x). unfold after_create.
      rewrite prices_add_audit, prices_set_seq, prices_set_prices.
      rewrite created_row_fields by done.
      cbn [create_data dInstrumentId dBuyPrice dSellPrice dMarginBuy dMarginSell dIsManual].
      rewrite Hi. do 2 f_equal. unfold js_sub, flag. cbn [JS.ToNumber ToBoolean].
      f_equal.
      * destruct (defined (marginBuy body)); apply js_or_number.
      * destruct (defined (marginSell body)); apply js_or_number.
      * by destruct (is_true (isManual body)).
    + intros Hg.
      assert (Ha : accepts Gold (create_data parseFloat_of_string body) db = false).
      { apply accepts_false. right. left. by exists i. }
      rewrite create_refused by done. unfold after_refused.
      cbn [create_data dInstrumentId fst snd]. by rewrite Hi.
  - unfold createPrice. by intros ->.
  - unfold createPrice. by intros -> ->.
Qed.

Lemma after_amend_gold id price d updatedBy db :
  fst (findById Gold (Some id) db) = Return (Some price) ->
  after_amend Gold id price d updatedBy db
  = mkDb (gold_types db)
      (map (fun r =>
              if row_id r =? id then
                mkRow (row_id r) (instrument_id r)
                      (js_or (dBuyPrice d) (PriceModel.buyPrice price))
                      (js_or (dSellPrice d) (PriceModel.sellPrice price))
                      (JNum (js_sub (js_or (dSellPrice d) (PriceModel.sellPrice price))
                                    (js_or (dBuyPrice d) (PriceModel.buyPrice price))))
                      (if is_defined (dMarginBuy d) then dMarginBuy d
                       else PriceModel.marginBuy price)
                      (if is_defined (dMarginSell d) then dMarginSell d
                       else PriceModel.marginSell price)
                      (flag (if is_defined (dIsManual d) then dIsManual d
                             else PriceModel.isManual price))
                      updatedBy (effective_from r) (effective_until r) (created_at r)
              else r) (gold_prices db))
      (gold_prices_seq db) (currencies db) (currency_rates db) (currency_rates_seq db)
      (PriceModel.audit_log db
         ++ [mkAudit updatedBy "UPDATE" "GOLD_PRICE" (Some id) (DData d)]).
Proof.
  intros Hf. destruct (findById_Some _ _ _ _ Hf) as (r0 & g & _ & _ & _ & ->).
  unfold after_amend, add_audit, set_prices.
  cbn [gold_types gold_prices gold_prices_seq currencies currency_rates
       currency_rates_seq PriceModel.audit_log prices entity_type].
  f_equal. apply map_ext. intros r. apply amend_fields.
Qed.

(** X17.  [updatePrice] on the current price always reports a failure:
    for an id whose record is open, [GoldPrice.update] closes it and
    inserts a new version through [create], which answers [null], so the
    handler answers 500 UPDATE_ERROR with the new version stored, whose
    prices are the supplied ones or, where the supplied one is missing or
    falsy, the record's.  For a closed record the handler rewrites the
    prices, spread, margins, manual flag and actor of that record in
    place, logs one UPDATE entry, and answers 200 with the record as it
    now reads; for an unknown id it answers 404 and writes nothing. *)
Theorem updatePrice_open_record_fails tc ti id body uid db :
  let d := update_data parseFloat_of_string body in
  (fst (findById Gold (Some id) db) = Return None ->
   updatePrice parseFloat_of_string tc ti id body uid db
   = (Failure 404 "Gold price not found" "NOT_FOUND", db)) /\
  (forall price,
     fst (findById Gold (Some id) db) = Return (Some price) ->
     (forall i, effectiveUntil price = None -> instrumentId price = Some i ->
      updatePrice parseFloat_of_string tc ti id body uid db
      = (Failure 500 "Failed to update gold price" "UPDATE_ERROR",
         mkDb (gold_types db)
              (map (close_open (Some i) tc) (gold_prices db)
               ++ [mkRow (gold_prices_seq db) (Some i)
                     (js_or (dBuyPrice d) (PriceModel.buyPrice price))
                     (js_or (dSellPrice d) (PriceModel.sellPrice price))
                     (JNum (js_sub (js_or (dSellPrice d) (PriceModel.sellPrice price))
                                   (js_or (dBuyPrice d) (PriceModel.buyPrice price))))
                     (js_or (if is_defined (dMarginBuy d) then dMarginBuy d
                             else PriceModel.marginBuy price) (JNum pzero))
                     (js_or (if is_defined (dMarginSell d) then dMarginSell d
                             else PriceModel.marginSell price) (JNum pzero))
                     (flag (if is_defined (dIsManual d) then dIsManual d
                            else PriceModel.isManual price))
                     uid ti None ti])
              (gold_prices_seq db + 1) (currencies db) (currency_rates db)
              (currency_rates_seq db)
              (PriceModel.audit_log db
                 ++ [mkAudit uid "CREATE" "GOLD_PRICE" None
                       (DData (mkData (Some i)
                                 (js_or (dBuyPrice d) (PriceModel.buyPrice price))
                                 (js_or (dSellPrice d) (PriceModel.sellPrice price))
                                 (if is_defined (dMarginBuy d) then dMarginBuy d
                                  else PriceModel.marginBuy price)
                                 (if is_defined (dMarginSell d) then dMarginSell d
                                  else PriceModel.marginSell price)
                                 (if is_defined (dIsManual d) then dIsManual d
                                  else PriceModel.isManual price)))]))) /\
     (forall u, effectiveUntil price = Some u ->
      updatePrice parseFloat_of_string tc ti id body uid db
      = (Success 200
           (mkObject (objId price) (instrumentId price)
              (js_or (dBuyPrice d) (PriceModel.buyPrice price))
              (js_or (dSellPrice d) (PriceModel.sellPrice price))
              (JNum (or_zero (js_sub (js_or (dSellPrice d) (PriceModel.sellPrice price))
                                     (js_or (dBuyPrice d) (PriceModel.buyPrice price)))))
              (js_or (if is_defined (dMarginBuy d) then dMarginBuy d
                      else PriceModel.marginBuy price) (JNum pzero))
              (js_or (if is_defined (dMarginSell d) then dMarginSell d
                      else PriceModel.marginSell price) (JNum pzero))
              (if ToBoolean (if is_defined (dIsManual d) then dIsManual d
                             else PriceModel.isManual price)
               then JNum (of_Z 1) else JBool false)
              (from_option nz None uid)
              (effectiveFrom price) (effectiveUntil price) (createdAt price)
              (instrumentCode price) (instrumentName price)),
         mkDb (gold_types db)
           (map (fun r =>
                   if row_id r =? id then
                     mkRow (row_id r) (instrument_id r)
                       (js_or (dBuyPrice d) (PriceModel.buyPrice price))
                       (js_or (dSellPrice d) (PriceModel.sellPrice price))
                       (JNum (js_sub (js_or (dSellPrice d) (PriceModel.sellPrice price))
                                     (js_or (dBuyPrice d) (PriceModel.buyPrice price))))
                       (if is_defined (dMarginBuy d) then dMarginBuy d
                        else PriceModel.marginBuy price)
                       (if is_defined (dMarginSell d) then dMarginSell d
                        else PriceModel.marginSell price)
                       (flag (if is_defined (dIsManual d) then dIsManual d
                              else PriceModel.isManual price))
                       uid (effective_from r) (effective_until r) (created_at r)
                   else r) (gold_prices db))
           (gold_prices_seq db) (currencies db) (currency_rates db)
           (currency_rates_seq db)
           (PriceModel.audit_log db ++ [mkAudit uid "UPDATE" "GOLD_PRICE" (Some id)
                                          (DData d)])))).
Proof.
  intros d. split.
  - intros Hf. unfold updatePrice. rewrite findById_state, Hf. reflexivity.
  - intros price Hf. split.
    + intros i Ho Hi. unfold updatePrice. rewrite findById_state, Hf.
      rewrite (update_open Gold db tc ti id _ uid price Hf Ho).
      rewrite (create_accepted _ _ _ _ _ _ (merged_accepts Gold id db price _ i Hf Hi)).
      f_equal. destruct (findById_Some _ _ _ _ Hf) as (r0 & g & _ & _ & _ & Hp).
      unfold after_create. rewrite Hp, merged_row_fields, <- Hp.
      unfold add_audit, set_seq, set_prices.
      cbn [gold_types gold_prices gold_prices_seq currencies currency_rates
           currency_rates_seq PriceModel.audit_log prices seq_value entity_type
           merged dInstrumentId].
      rewrite Hi. unfold merged. by rewrite Hi.
    + intros u Hu. unfold updatePrice. rewrite findById_state, Hf.
      rewrite (update_closed Gold db tc ti id _ uid price u Hf Hu).
      rewrite (findById_after_amend Gold id price _ uid db Hf).
      by rewrite (after_amend_gold id price _ uid db Hf).
Qed.

End GoldHandlers.

Lemma createPrice_fails_after_writing_witness :
  GoldController.createPrice no_number no_number 20 21 (quote_body 1 251 262) (Some 1)
    one_version
  = (GoldController.Failure 500 "Failed to create gold price" "CREATE_ERROR",
     after_create Gold 20 21 (GoldController.create_data no_number (quote_body 1 251 262))
       (Some 1) one_version) /\
  gold_prices (snd (GoldController.createPrice no_number no_number 20 21
                      (quote_body 1 251 262) (Some 1) one_version))
  = [mkRow 1 (Some 1) (JNum (of_Z 250)) (JNum (of_Z 260)) (JNum (of_Z 10))
           (JNum (dec 2 2)) (JNum (dec 2 2)) (JNum (of_Z 1)) (Some 1) 10 (Some 20) 10;
     mkRow 2 (Some 1) (JNum (of_Z 251)) (JNum (of_Z 262)) (JNum (of_Z 11))
           (JNum pzero) (JNum pzero) (JNum (of_Z 1)) (Some 1) 21 None 21] /\
  fst (GoldController.createPrice no_number no_number 20 21 (quote_body 9 251 262)
         (Some 1) one_version)
  = GoldController.Failure 500 "Failed to create gold price" "CREATE_ERROR" /\
  gold_prices (snd (GoldController.createPrice no_number no_number 20 21
                      (quote_body 9 251 262) (Some 1) one_version))
  = gold_prices one_version /\
  GoldController.createPrice no_number no_number 20 21 (quote_body 1 0 262) (Some 1)
    one_version
  = (GoldController.Failure 400 "Prices must be positive numbers" "INVALID_PRICES",
     one_version).
Proof.
  pose proof (proj1 (proj2 (createPrice_fails_after_writing no_number no_number 20 21
                              (quote_body 1 251 262) (Some 1) one_version))
                eq_refl eq_refl 1 eq_refl) as [H1 _].
  pose proof (proj1 (proj2 (createPrice_fails_after_writing no_number no_number 20 21
                              (quote_body 9 251 262) (Some 1) one_version))
                eq_refl eq_refl 9 eq_refl) as [_ H2].
  destruct (H1 ltac:(vm_compute; eauto)) as [E1 E2].
  split; [exact E1|]. split; [|split; [|split]].
  - rewrite E2. vm_compute. reflexivity.
  - exact (proj1 (H2 ltac:(vm_compute; reflexivity))).
  - rewrite (proj1 (proj2 (H2 ltac:(vm_compute; reflexivity)))). vm_compute. reflexivity.
  - apply (proj2 (proj2 (proj2 (createPrice_fails_after_writing no_number no_number 20 21
                                  (quote_body 1 0 262) (Some 1) one_version))));
      vm_compute; reflexivity.
Defined.

Lemma updatePrice_open_record_fails_witness :
  fst (GoldController.updatePrice no_number 30 31 2 (buy_only_body 255) (Some 1)
         two_versions)
  = GoldController.Failure 500 "Failed to update gold price" "UPDATE_ERROR" /\
  gold_prices (snd (GoldController.updatePrice no_number 30 31 2 (buy_only_body 255)
                      (Some 1) two_versions))
  = [mkRow 1 (Some 1) (JNum (of_Z 250)) (JNum (of_Z 260)) (JNum (of_Z 10))
           (JNum (dec 2 2)) (JNum (dec 2 2)) (JNum (of_Z 1)) (Some 1) 10 (Some 20) 10;
     mkRow 2 (Some 1) (JNum (of_Z 251)) (JNum (of_Z 262)) (JNum (of_Z 11))
           (JNum (dec 2 2)) (JNum (dec 2 2)) (JNum (of_Z 1)) (Some 1) 21 (Some 30) 21;
     mkRow 3 (Some 1) (JNum (of_Z 255)) (JNum (of_Z 262)) (JNum (of_Z 7))
           (JNum (dec 2 2)) (JNum (dec 2 2)) (JNum (of_Z 1)) (Some 1) 31 None 31] /\
  fst (GoldController.updatePrice no_number 30 31 1 (buy_only_body 255) (Some 1)
         two_versions)
  = GoldController.Success 200
      (mkObject (Some 1) (Some 1) (JNum (of_Z 255)) (JNum (of_Z 260)) (JNum (of_Z 5))
                (JNum (dec 2 2)) (JNum (dec 2 2)) (JNum (of_Z 1)) (Some 1) (Some 10)
                (Some 20) (Some 10) (Some "Gold 24K"%string) (Some "Gold 24K"%string)) /\
  gold_prices (snd (GoldController.updatePrice no_number 30 31 1 (buy_only_body 255)
                      (Some 1) two_versions))
  = [mkRow 1 (Some 1) (JNum (of_Z 255)) (JNum (of_Z 260)) (JNum (of_Z 5))
           (JNum (dec 2 2)) (JNum (dec 2 2)) (JNum (of_Z 1)) (Some 1) 10 (Some 20) 10;
     mkRow 2 (Some 1) (JNum (of_Z 251)) (JNum (of_Z 262)) (JNum (of_Z 11))
           (JNum (dec 2 2)) (JNum (dec 2 2)) (JNum (of_Z 1)) (Some 1) 21 None 21] /\
  GoldController.updatePrice no_number 30 31 9 (buy_only_body 255) (Some 1) two_versions
  = (GoldController.Failure 404 "Gold price not found" "NOT_FOUND", two_versions).
Proof.
  assert (Hopen : exists price,
             fst (findById Gold (Some 2) two_versions) = Return (Some price) /\
             effectiveUntil price = None /\ instrumentId price = Some 1).
  { vm_compute. eexists. repeat split; reflexivity. }
  assert (Hclosed : exists price,
             fst (findById Gold (Some 1) two_versions) = Return (Some price) /\
             effectiveUntil price = Some 20).
  { vm_compute. eexists. split; reflexivity. }
  destruct Hopen as (p2 & Hf2 & Ho2 & Hi2). destruct Hclosed as (p1 & Hf1 & Hc1).
  pose proof (proj1 (proj2 (updatePrice_open_record_fails no_number 30 31 2
                              (buy_only_body 255) (Some 1) two_versions) p2 Hf2)
                1 Ho2 Hi2) as E2.
  pose proof (proj2 (proj2 (updatePrice_open_record_fails no_number 30 31 1
                              (buy_only_body 255) (Some 1) two_versions) p1 Hf1)
                20 Hc1) as E1.
  vm_compute in Hf2. injection Hf2 as <-. vm_compute in Hf1. injection Hf1 as <-.
  split; [by rewrite E2|]. split; [rewrite E2; vm_compute; reflexivity|].
  split; [rewrite E1; vm_compute; reflexivity|].
  split; [rewrite E1; vm_compute; reflexivity|].
  apply (proj1 (updatePrice_open_record_fails no_number 30 31 9 (buy_only_body 255)
                  (Some 1) two_versions)).
  vm_compute. reflexivity.
Defined.

(** ** The validators *)

Section Validators.

Import RegExp Security Xss.

Lemma append_eq_nil (s1 s2 : string) :
  s1 +:+ s2 = EmptyString -> s1 = EmptyString /\ s2 = EmptyString.
Proof. destruct s1; [by rewrite append_nil | by rewrite append_cons]. Qed.

Lemma append_eq_cons (s1 s2 : string) c s :
  s1 +:+ s2 = String c s ->
  (s1 = EmptyString /\ s2 = String c s) \/
  (exists s1', s1 = String c s1' /\ s = s1' +:+ s2).
Proof.
  destruct s1 as [|a s1].
  - rewrite append_nil. by left.
  - rewrite append_cons. intros [= -> <-]. right. by exists s1.
Qed.

Lemma nullable_lang r : nullable r = true <-> lang r EmptyString.
Proof.
  split.
  - induction r; cbn [nullable]; intros H; try discriminate.
    + constructor.
    + apply andb_true_iff in H as [H1 H2].
      apply (lang_seq r1 r2 EmptyString EmptyString); auto.
    + apply orb_true_iff in H as [H|H]; [apply lang_or_l | apply lang_or_r]; auto.
    + constructor.
  - intros H. remember EmptyString as s eqn:Es.
    induction H; cbn [nullable]; try done.
    + apply append_eq_nil in Es as [-> ->]. by rewrite IHlang1, IHlang2.
    + by rewrite IHlang.
    + rewrite IHlang by done. apply orb_true_r.
Qed.

Lemma deriv_sound c r s : lang (deriv c r) s -> lang r (String c s).
Proof.
  revert s. induction r; intros s H; cbn [deriv] in H.
  - inversion H.
  - inversion H.
  - destruct (P c) eqn:E; inversion H; subst. by constructor.
  - assert (Hseq : forall s, lang (Seq (deriv c r1) r2) s -> lang (Seq r1 r2) (String c s)).
    { intros s0 H0. inversion H0; subst.
      rewrite <- append_cons. constructor; auto. }
    destruct (nullable r1) eqn:N; [|by apply Hseq].
    inversion H; subst; [by apply Hseq|].
    rewrite <- (append_nil (String c s)). constructor; [by apply nullable_lang | auto].
  - inversion H; subst; [apply lang_or_l | apply lang_or_r]; auto.
  - inversion H; subst. rewrite <- append_cons. constructor; auto.
Qed.

Lemma deriv_complete c r w : lang r w -> forall t, w = String c t -> lang (deriv c r) t.
Proof.
  induction 1; intros t Es; cbn [deriv]; try discriminate.
  - injection Es as -> <-. rewrite H. constructor.
  - apply append_eq_cons in Es as [[-> ->]|(s1' & -> & ->)].
    + assert (N : nullable r1 = true) by by apply nullable_lang.
      rewrite N. apply lang_or_r. by apply IHlang2.
    + assert (Hs : lang (Seq (deriv c r1) r2) (s1' +:+ s2)).
      { constructor; [by apply IHlang1 | done]. }
      destruct (nullable r1); [by apply lang_or_l | done].
  - apply lang_or_l. by apply IHlang.
  - apply lang_or_r. by apply IHlang.
  - apply append_eq_cons in Es as [[-> ->]|(s1' & -> & ->)].
    + by apply IHlang2.
    + constructor; [by apply IHlang1 | done].
Qed.

Lemma test_lang r s : test r s = true <-> lang r s.
Proof.
  revert r. induction s as [|c s IH]; intros r; cbn [test].
  - apply nullable_lang.
  - rewrite IH. split; [apply deriv_sound|]. intros H. by apply (deriv_complete c r _ H).
Qed.

Lemma lang_within P r s : within P r -> lang r s -> all_chars P s = true.
Proof.
  intros Hw H. induction H; cbn [within] in Hw; try reflexivity.
  - cbn. by rewrite (Hw c H).
  - destruct Hw. rewrite all_chars_app. by rewrite IHlang1, IHlang2.
  - destruct Hw. auto.
  - destruct Hw. auto.
  - rewrite all_chars_app. by rewrite IHlang1, IHlang2.
Qed.

Lemma within_Times P n r : within P r -> within P (Times n r).
Proof. intros H. induction n; cbn; auto. Qed.

Lemma within_UpTo P n r : within P r -> within P (UpTo n r).
Proof. intros H. induction n; cbn; auto. Qed.

Lemma lang_Times_length n r s :
  (forall w, lang r w -> String.length w = 1%nat) ->
  lang (Times n r) s -> String.length s = n.
Proof.
  intros Hr. revert s. induction n; intros s H; cbn [Times] in H; inversion H; subst.
  - reflexivity.
  - rewrite length_append, (Hr s1), (IHn s2) by done. reflexivity.
Qed.

Lemma lang_UpTo_length n r s :
  (forall w, lang r w -> String.length w = 1%nat) ->
  lang (UpTo n r) s -> (String.length s <= n)%nat.
Proof.
  intros Hr. revert s. induction n; intros s H; cbn [UpTo] in H; inversion H; subst.
  - cbn. lia.
  - match goal with H' : lang Empty _ |- _ => inversion H'; subst end. cbn. lia.
  - match goal with H' : lang (Seq _ _) _ |- _ => inversion H'; subst end.
    rewrite length_append, (Hr s1) by done.
    match goal with H' : lang (UpTo _ _) _ |- _ => apply IHn in H' end. lia.
Qed.

Lemma lang_seq_inv r1 r2 s :
  lang (Seq r1 r2) s -> exists s1 s2, s = s1 +:+ s2 /\ lang r1 s1 /\ lang r2 s2.
Proof. intros H. inversion H; subst. by eexists _, _. Qed.

Lemma class_length P w : lang (Class P) w -> String.length w = 1%nat.
Proof. intros H. by inversion H. Qed.

Lemma lang_Times_class P n s :
  all_chars P s = true -> String.length s = n -> lang (Times n (Class P)) s.
Proof.
  revert s. induction n; intros [|c s] Ha Hl; try discriminate; cbn [Times].
  - constructor.
  - cbn in Ha. apply andb_true_iff in Ha as [Hc Hs]. injection Hl as Hl.
    rewrite <- (append_nil s), <- append_cons. constructor; [by constructor | auto].
Qed.

Lemma lang_UpTo_class P n s :
  all_chars P s = true -> (String.length s <= n)%nat -> lang (UpTo n (Class P)) s.
Proof.
  revert s. induction n; intros [|c s] Ha Hl; cbn [UpTo]; cbn in Hl; try lia.
  - constructor.
  - apply lang_or_l. constructor.
  - cbn in Ha. apply andb_true_iff in Ha as [Hc Hs]. apply lang_or_r.
    rewrite <- (append_nil s), <- append_cons. constructor; [by constructor|].
    apply IHn; [done|lia].
Qed.

Lemma lang_Star_class P s : all_chars P s = true -> lang (Star (Class P)) s.
Proof.
  induction s as [|c s IH]; intros Ha; [constructor|].
  cbn in Ha. apply andb_true_iff in Ha as [Hc Hs].
  rewrite <- (append_nil s), <- append_cons. constructor; [by constructor | auto].
Qed.

(** The first [n] characters of a text and the rest. *)
Lemma split_at n s :
  (n <= String.length s)%nat ->
  exists s1 s2, s = s1 +:+ s2 /\ String.length s1 = n.
Proof.
  revert s. induction n; intros s H.
  - by exists EmptyString, s.
  - destruct s as [|c s]; [cbn in H; lia|]. cbn in H.
    destruct (IHn s) as (s1 & s2 & -> & Hl); [lia|].
    exists (String c s1), s2. split; [by rewrite append_cons | cbn; by rewrite Hl].
Qed.

Lemma word_plain c : word c = true -> plain c = true /\ is_ws c = false.
Proof. destruct c as [[] [] [] [] [] [] [] []]; vm_compute; intros H; done. Qed.

Lemma email_char_plain c : email_char c = true -> plain c = true /\ is_ws c = false.
Proof. destruct c as [[] [] [] [] [] [] [] []]; vm_compute; intros H; done. Qed.

Lemma trimEnd_no_ws s : all_chars (fun c => negb (is_ws c)) s = true -> trimEnd s = s.
Proof.
  induction s as [|c s IH]; [done|]. cbn [all_chars trimEnd]. intros H.
  apply andb_true_iff in H as [Hc Hs]. rewrite IH by done.
  destruct s; [|done]. by destruct (is_ws c).
Qed.

Lemma trim_no_ws s : all_chars (fun c => negb (is_ws c)) s = true -> trim s = s.
Proof.
  intros H. unfold trim.
  assert (Hs : trimStart s = s).
  { destruct s as [|c s]; [done|]. cbn in *. by destruct (is_ws c). }
  rewrite Hs. by apply trimEnd_no_ws.
Qed.

Lemma all_chars_impl (P Q : ascii -> bool) s :
  (forall c, P c = true -> Q c = true) -> all_chars P s = true -> all_chars Q s = true.
Proof.
  intros HPQ. induction s as [|c s IH]; [done|]. cbn. intros H.
  apply andb_true_iff in H as [Hc Hs]. by rewrite (HPQ c Hc), IH.
Qed.

Lemma sanitizeInput_unchanged (P : ascii -> bool) s :
  (forall c, P c = true -> plain c = true /\ is_ws c = false) ->
  all_chars P s = true -> sanitizeInput s = s.
Proof.
  intros HP Ha. rewrite sanitizeInput_escape_all.
  rewrite trim_no_ws.
  - apply escape_all_plain. apply (all_chars_impl P); [|done]. intros c Hc. by apply HP.
  - apply (all_chars_impl P); [|done]. intros c Hc. destruct (HP c Hc) as [_ ->]. done.
Qed.

(** X18.  [Security.isValidUsername] accepts exactly the texts of 3 to 20
    characters among the letters a-z and A-Z, the digits and the
    underscore, and [Security.isValidEmail] accepts only texts made of
    letters, digits and [._%+-@]; [Security.sanitizeInput] returns every
    accepted user name and every accepted address unchanged, so that the
    login handler looks up the very name that was typed. *)
Theorem valid_names_pass_sanitizing s :
  (isValidUsername s = true <->
     (3 <= String.length s <= 20)%nat /\ all_chars word s = true) /\
  (isValidUsername s = true -> sanitizeInput s = s) /\
  (isValidEmail s = true -> all_chars email_char s = true /\ sanitizeInput s = s).
Proof.
  assert (Hu : isValidUsername s = true <->
               (3 <= String.length s <= 20)%nat /\ all_chars word s = true).
  { unfold isValidUsername. rewrite test_lang. split.
    - intros H. split.
      + unfold Between in H. apply lang_seq_inv in H as (s1 & s2 & -> & H1 & H2).
        rewrite length_append.
        apply lang_Times_length in H1; [|apply class_length].
        apply lang_UpTo_length in H2; [|apply class_length].
        cbn in H2. lia.
      + apply (lang_within word _ _) in H; [done|].
        split; [apply within_Times | apply within_UpTo]; by intros c.
    - intros [[H3 H20] Ha]. destruct (split_at 3 s H3) as (s1 & s2 & -> & Hl).
      rewrite all_chars_app in Ha. apply andb_true_iff in Ha as [Ha1 Ha2].
      rewrite length_append in H20. unfold Between. constructor.
      + by apply lang_Times_class.
      + apply lang_UpTo_class; [done|]. cbn. lia. }
  split; [exact Hu|]. split.
  - intros H. apply Hu in H as [_ Ha].
    by apply (sanitizeInput_unchanged word); [apply word_plain|].
  - unfold isValidEmail. rewrite test_lang. intros H.
    assert (Ha : all_chars email_char s = true).
    { apply (lang_within email_char _ _) in H; [done|].
      unfold emailRegex, Plus, AtLeast. cbn [within Times].
      repeat split; intros c Hc; revert Hc;
        destruct c as [[] [] [] [] [] [] [] []]; vm_compute; done. }
    split; [done|]. by apply (sanitizeInput_unchanged email_char); [apply email_char_plain|].
Qed.

Lemma has_char_app P s1 s2 : has_char P (s1 +:+ s2) = has_char P s1 || has_char P s2.
Proof.
  induction s1 as [|c s1 IH]; [reflexivity|]. rewrite append_cons. cbn.
  by rewrite IH, orb_assoc.
Qed.

Lemma has_char_split P s :
  has_char P s = true -> exists s1 c s2, s = s1 +:+ String c s2 /\ P c = true.
Proof.
  induction s as [|a s IH]; [done|]. cbn. intros H.
  destruct (P a) eqn:E.
  - by exists EmptyString, a, s.
  - destruct (IH H) as (s1 & c & s2 & -> & Hc). by exists (String a s1), c, s2.
Qed.

Lemma all_chars_any s : all_chars (fun _ => true) s = true.
Proof. by induction s. Qed.

Lemma AtLeast_class n P s :
  test (AtLeast n (Class P)) s = true <->
  (n <= String.length s)%nat /\ all_chars P s = true.
Proof.
  rewrite test_lang. unfold AtLeast. split.
  - intros H. split.
    + apply lang_seq_inv in H as (s1 & s2 & -> & H1 & H2).
      apply lang_Times_length in H1; [|apply class_length].
      rewrite length_append. lia.
    + apply (lang_within P _ _) in H; [done|].
      split; [apply within_Times|]; by intros c.
  - intros [Hl Ha]. destruct (split_at n s Hl) as (s1 & s2 & -> & Hn).
    rewrite all_chars_app in Ha. apply andb_true_iff in Ha as [Ha1 Ha2].
    constructor; [by apply lang_Times_class | by apply lang_Star_class].
Qed.

Lemma lookahead_has_char Q s :
  lookahead (Seq (Star (Class dot)) (Class Q)) s = true -> has_char Q s = true.
Proof.
  unfold lookahead. rewrite test_lang. intros H.
  apply lang_seq_inv in H as (s12 & s3 & -> & H12 & _).
  apply lang_seq_inv in H12 as (s1 & s2 & -> & _ & H2).
  inversion H2; subst. rewrite !has_char_app. cbn.
  match goal with Hc : Q _ = true |- _ => rewrite Hc end.
  by rewrite orb_true_r.
Qed.

Lemma has_char_lookahead Q s :
  all_chars dot s = true -> has_char Q s = true ->
  lookahead (Seq (Star (Class dot)) (Class Q)) s = true.
Proof.
  intros Ha Hh. unfold lookahead. apply test_lang.
  destruct (has_char_split Q s Hh) as (s1 & c & s2 & -> & Hc).
  rewrite all_chars_app in Ha. apply andb_true_iff in Ha as [Ha1 _].
  replace (s1 +:+ String c s2) with ((s1 +:+ String c EmptyString) +:+ s2)
    by (by rewrite append_assoc, append_cons, append_nil).
  constructor.
  - constructor; [by apply lang_Star_class | by constructor].
  - apply lang_Star_class, all_chars_any.
Qed.

Lemma password_char_dot c : password_char c = true -> dot c = true.
Proof. destruct c as [[] [] [] [] [] [] [] []]; vm_compute; done. Qed.

(** X19.  [Security.isStrongPassword] accepts exactly the texts of at least
    8 characters that are made only of the letters a-z and A-Z, the digits
    and the symbols [@$!%*?&], and that hold at least one lower-case
    letter, one upper-case letter, one digit and one of those symbols; a
    password with any other character, a space or [#] for instance, is
    refused whatever else it holds. *)
Theorem isStrongPassword_spec p :
  isStrongPassword p = true <->
  (8 <= String.length p)%nat /\ all_chars password_char p = true /\
  has_char lower p = true /\ has_char upper p = true /\
  has_char digit p = true /\ has_char special p = true.
Proof.
  unfold isStrongPassword. rewrite !andb_true_iff, AtLeast_class. split.
  - intros ((((Hl & Hu) & Hd) & Hs) & Hlen & Ha).
    repeat split; try done; by apply lookahead_has_char.
  - intros (Hlen & Ha & Hl & Hu & Hd & Hs).
    assert (Hdot : all_chars dot p = true).
    { apply (all_chars_impl password_char); [apply password_char_dot | done]. }
    repeat split; try done; by apply has_char_lookahead.
Qed.

End Validators.

Lemma valid_names_pass_sanitizing_witness :
  Xss.sanitizeInput "gold_admin" = "gold_admin"%string /\
  Xss.sanitizeInput "amal.k+shop@princess-gold.com" = "amal.k+shop@princess-gold.com"%string.
Proof.
  split.
  - apply (proj1 (proj2 (valid_names_pass_sanitizing "gold_admin"))). reflexivity.
  - apply (proj2 (proj2 (valid_names_pass_sanitizing "amal.k+shop@princess-gold.com"))).
    reflexivity.
Defined.

Lemma isStrongPassword_spec_witness :
  Security.isStrongPassword "Abcdef1!" = true /\
  (8 <= String.length "Abcdef1#")%nat /\ Security.isStrongPassword "Abcdef1#" <> true.
Proof.
  split; [|split].
  - apply (proj2 (isStrongPassword_spec "Abcdef1!")). vm_compute. repeat split; lia.
  - cbn. lia.
  - intros H. apply (proj1 (isStrongPassword_spec "Abcdef1#")) in H as (_ & H & _).
    vm_compute in H. discriminate H.
Defined.

(** ** Updating a user *)

Section UserUpdates.

Import Accounts.

Lemma validate_fields (u v : UserObject) :
  u.1 = v.1 -> acc_username u.2 = acc_username v.2 -> acc_email u.2 = acc_email v.2 ->
  acc_password_hash u.2 = acc_password_hash v.2 -> acc_role u.2 = acc_role v.2 ->
  validate u = validate v.
Proof. unfold validate. by intros -> -> -> -> ->. Qed.

Lemma admin_count_drop t id a a' :
  t !! id = Some a ->
  acc_role a = "admin"%string -> acc_is_active a = true ->
  ~ (acc_role a' = "admin"%string /\ acc_is_active a' = true) ->
  admin_count (<[id := a']> t) = Nat.pred (admin_count t).
Proof.
  intros Hl Hr Ha Hn. unfold admin_count.
  rewrite map_filter_insert_False by done.
  rewrite map_filter_delete. apply map_size_delete_Some.
  exists a. by apply map_lookup_filter_Some.
Qed.

Lemma validate_nil u :
  validate u = [] ->
  forall role isActive fullName hash,
    existsb (String.eqb role) validRoles = true ->
    (bool_decide (is_Some u.1) = true \/ hash <> EmptyString) ->
    validate (u.1, mkAccount (acc_username u.2) hash isActive
                     (acc_login_attempts u.2) (acc_locked_until u.2) (acc_last_login u.2)
                     (acc_email u.2) fullName role (acc_updated_at u.2)) = [].
Proof.
  unfold validate. intros H role isActive fullName hash Hrole Hid.
  apply app_eq_nil in H as [H1 H]. apply app_eq_nil in H as [H2 H].
  apply app_eq_nil in H as [_ _].
  cbn [fst snd acc_username acc_email acc_password_hash acc_role].
  rewrite H1, H2, Hrole. cbn [negb app].
  destruct Hid as [->|Hh]; [done|].
  assert (E : String.eqb hash EmptyString = false) by by apply String.eqb_neq.
  by rewrite E, andb_false_r.
Qed.

Lemma update_effect id a d updatedBy now newHash s :
  users s !! id = Some a -> id <> 0 ->
  validate (construct (id, a)) = [] ->
  upUsername d = None -> upEmail d = None -> upPassword d = None ->
  existsb (String.eqb (if text_truthy (upRole d) then default EmptyString (upRole d)
                       else acc_role (with_default_role a))) validRoles = true ->
  update id d updatedBy now newHash s
  = (let a' := mkAccount (acc_username a) (acc_password_hash a)
                 (default (acc_is_active a) (upIsActive d))
                 (acc_login_attempts a) (acc_locked_until a) (acc_last_login a)
                 (acc_email a)
                 (if text_truthy (upFullName d) then default EmptyString (upFullName d)
                  else acc_full_name a)
                 (if text_truthy (upRole d) then default EmptyString (upRole d)
                  else acc_role (with_default_role a))
                 now in
     (Return (Some (construct (id, a'))),
      mkUserDb (<[id := a']> (users s))
               (user_audit_log s ++ [mkUserAudit updatedBy "UPDATE" id d]))).
Proof.
  intros Hl Hid Hv Hu He Hp Hr.
  unfold update, bind, on_users, findById, gets. rewrite Hl.
  cbn [fmap option_fmap option_map fst snd].
  rewrite Hu, He, Hp. cbn [text_truthy default from_option].
  set (u := construct (id, a)) in *.
  match goal with |- context [validate ?x] =>
    replace (validate x) with (@nil validationError) end.
  2: { symmetry.
       apply (validate_nil u Hv _ (default (acc_is_active u.2) (upIsActive d))
                (if text_truthy (upFullName d) then default EmptyString (upFullName d)
                 else acc_full_name u.2) (acc_password_hash u.2)).
       - exact Hr.
       - left. unfold u, construct, nz. cbn [fst].
         assert (E : (id =? 0) = false) by lia. by rewrite E. }
  cbn [length Nat.ltb Nat.leb]. unfold logChange, update_row, modify.
  cbn [fst snd users user_audit_log].
  rewrite (alter_as_insert _ (users s) id a Hl).
  cbn [fst snd users user_audit_log]. rewrite lookup_insert_eq.
  reflexivity.
Qed.

(** X20.  [User.update] has no guard on the number of administrators:
    for an active administrator whose data pass [validate], an update of
    the role to 'manager' or 'user', and an update of [isActive] to
    [false], both succeed, answer the changed user, and leave one active
    administrator less, none when that user was the last one.  The guard
    of [User.delete] ('Cannot delete the last admin user') has no
    counterpart here. *)
Theorem update_can_remove_last_admin id a updatedBy now newHash s :
  users s !! id = Some a -> id <> 0 ->
  acc_role a = "admin"%string -> acc_is_active a = true ->
  validate (construct (id, a)) = [] ->
  (forall role, role = "manager"%string \/ role = "user"%string ->
     exists user,
       fst (update id (change_role role) updatedBy now newHash s) = Return (Some user) /\
       acc_role user.2 = role /\
       admin_count (users (snd (update id (change_role role) updatedBy now newHash s)))
       = Nat.pred (admin_count (users s))) /\
  (exists user,
     fst (update id (set_active false) updatedBy now newHash s) = Return (Some user) /\
     acc_is_active user.2 = false /\
     admin_count (users (snd (update id (set_active false) updatedBy now newHash s)))
     = Nat.pred (admin_count (users s))).
Proof.
  intros Hl Hid Hr Ha Hv. split.
  - intros role Hrole.
    rewrite (update_effect id a (change_role role) updatedBy now newHash s Hl Hid Hv);
      try reflexivity.
    + cbn [fst snd users]. eexists. split; [reflexivity|].
      destruct Hrole as [-> | ->]; (split; [reflexivity|]);
        (apply (admin_count_drop _ _ a); [done|done|done|]); cbn; intros [? _]; done.
    + by destruct Hrole as [-> | ->].
  - rewrite (update_effect id a (set_active false) updatedBy now newHash s Hl Hid Hv);
      try reflexivity.
    + cbn [fst snd users]. eexists. split; [reflexivity|]. split; [reflexivity|].
      apply (admin_count_drop _ _ a); [done|done|done|]. cbn. intros [_ ?]. done.
    + cbn. unfold with_default_role. cbn. by rewrite Hr.
Qed.

End UserUpdates.

Lemma update_can_remove_last_admin_witness :
  admin_count (Accounts.users (Accounts.mkUserDb one_account [])) = 1%nat /\
  admin_count
    (Accounts.users
       (snd (Accounts.update 1 (change_role "user") (Some 1) 50 EmptyString
               (Accounts.mkUserDb one_account [])))) = 0%nat.
Proof.
  split; [reflexivity|].
  destruct (update_can_remove_last_admin 1 (amal 0 None None) (Some 1) 50 EmptyString
              (Accounts.mkUserDb one_account []))
    as [H _].
  - reflexivity.
  - lia.
  - reflexivity.
  - reflexivity.
  - vm_compute. reflexivity.
  - destruct (H "user"%string) as (user & _ & _ & ->); [by right|]. reflexivity.
Defined.

(** ** Margins *)

Section Margins.

Import AutoUpdate.

Lemma stored_margin :
  js_or (param (js_or (JNum (dec 2 2)) (JNum pzero))) (JNum pzero) = JNum (dec 2 2).
Proof. vm_compute. reflexivity. Qed.

(** X21.  The prices of [autoUpdate] carry the margin twice.  It stores
    the base price less 2% as buy price and plus 2% as sell price, and the
    2% margins beside them; [getFinalPrice] of the record that
    [getCurrentPrice] then answers adds the margin to the buy price and
    takes it off the sell price again, so the final buy price is
    [B + B * 0.02] for the stored [B = round2 (base * purity * 0.98)] and
    the final sell price [S - S * 0.02] for [S = round2 (base * purity *
    1.02)]. *)
Theorem autoUpdate_margin_twice base g updatedBy db tc ti tq ins :
  instruments Gold db !! gt_id g = Some ins ->
  closed_by Gold (gt_id g) tc db -> tc <= ti -> ti <= tq ->
  exists o,
    fst (getCurrent Gold tq (Some (gt_id g))
           (snd (autoUpdate base updatedBy [(g, tc, ti)] db))) = Return (Some o) /\
    buyPrice o = JNum (or_zero (auto_buy base (gt_purity g))) /\
    sellPrice o = JNum (or_zero (auto_sell base (gt_purity g))) /\
    marginBuy o = JNum (dec 2 2) /\ marginSell o = JNum (dec 2 2) /\
    getFinalPrice o "buy"
    = fadd (or_zero (auto_buy base (gt_purity g)))
           (fmul (or_zero (auto_buy base (gt_purity g))) (dec 2 2)) /\
    getFinalPrice o "sell"
    = fsub (or_zero (auto_sell base (gt_purity g)))
           (fmul (or_zero (auto_sell base (gt_purity g))) (dec 2 2)).
Proof.
  intros Hi Hc H1 H2.
  assert (Hg : is_Some (gold_types db !! gt_id g)) by (by exists ins).
  rewrite autoUpdate_step by done. cbn [snd autoUpdate]. unfold ret at 1. cbn [snd].
  unfold getCurrent, gets. cbn [fst].
  rewrite (create_current_rows Gold db tc ti tq (gt_id g) ins) by done.
  rewrite auto_accepts by done.
  cbn [latest fold_left later]. eexists. split; [reflexivity|].
  unfold getFinalPrice, calculateMargin, js_add, js_sub, js_mul.
  cbn [construct created_row auto_data buyPrice sellPrice marginBuy marginSell
       buy_price sell_price margin_buy margin_sell dBuyPrice dSellPrice dMarginBuy
       dMarginSell param is_buy].
  rewrite !stored_margin, !js_or_number.
  change (is_buy "buy") with true. change (is_buy "sell") with false.
  cbv iota. cbn [ToNumber]. unfold auto_buy, auto_sell. repeat split.
Qed.

Lemma SFcompare_refl s m e :
  SFcompare (S754_finite s m e) (S754_finite s m e) = Some Eq.
Proof.
  cbn. destruct s; rewrite Z.compare_refl; [by rewrite Pos.compare_cont_refl|];
    by rewrite Pos.compare_cont_refl.
Qed.

Lemma zero_margin_buy x :
  is_finite x = true -> num_eqb (fadd x (fmul x pzero)) x = true.
Proof.
  destruct x as [[]| | |s m e]; try discriminate; intros _; try reflexivity.
  unfold fadd, fmul, pzero, num_eqb, SFeqb. cbn [SFmul SFadd].
  by rewrite SFcompare_refl.
Qed.

Lemma zero_margin_sell x :
  is_finite x = true -> num_eqb (fsub x (fmul x pzero)) x = true.
Proof.
  destruct x as [[]| | |s m e]; try discriminate; intros _; try reflexivity.
  unfold fsub, fmul, pzero, num_eqb, SFeqb. cbn [SFmul SFsub].
  by rewrite SFcompare_refl.
Qed.

(** X22.  A record without margins quotes its stored prices: when the
    margin columns hold NULL or 0, as they do for a price created without
    [marginBuy] and [marginSell], the final buy price and the final sell
    price of the record are equal ([===]) to its buy price and its sell
    price, provided these are finite numbers. *)
Theorem zero_margin_final_price r g :
  ToBoolean (margin_buy r) = false -> ToBoolean (margin_sell r) = false ->
  (is_finite (ToNumber (buyPrice (construct r g))) = true ->
   num_eqb (getFinalPrice (construct r g) "buy") (ToNumber (buyPrice (construct r g)))
   = true) /\
  (is_finite (ToNumber (sellPrice (construct r g))) = true ->
   num_eqb (getFinalPrice (construct r g) "sell") (ToNumber (sellPrice (construct r g)))
   = true).
Proof.
  intros Hb Hs.
  unfold getFinalPrice, calculateMargin, js_add, js_sub, js_mul.
  cbn [construct marginBuy marginSell is_buy String.eqb Ascii.eqb Bool.eqb].
  rewrite (js_or_falsy _ _ Hb), (js_or_falsy _ _ Hs). cbn [ToNumber].
  split; [apply zero_margin_buy | apply zero_margin_sell].
Qed.

End Margins.

Lemma autoUpdate_margin_twice_witness :
  exists o,
    fst (getCurrent Gold 25 (Some 1)
           (snd (AutoUpdate.autoUpdate (of_Z 300) (Some 1)
                   [(AutoUpdate.mkGoldType 1 (of_Z 1), 20, 21)] one_version)))
    = Return (Some o) /\
    buyPrice o = JNum (of_Z 294) /\ sellPrice o = JNum (of_Z 306) /\
    getFinalPrice o "buy" = dec 29988 2 /\ getFinalPrice o "sell" = dec 29988 2.
Proof.
  destruct (autoUpdate_margin_twice (of_Z 300) (AutoUpdate.mkGoldType 1 (of_Z 1)) (Some 1)
              one_version 20 21 25 (karat "Gold 24K"))
    as (o & Ho & Hb & Hs & _ & _ & Hfb & Hfs).
  - vm_compute. reflexivity.
  - intros r u Hin Hi Hu. vm_compute in Hin. destruct Hin as [<-|[]].
    vm_compute in Hu. discriminate.
  - lia.
  - lia.
  - exists o. split; [exact Ho|].
    split; [rewrite Hb; vm_compute; reflexivity|].
    split; [rewrite Hs; vm_compute; reflexivity|].
    split; [rewrite Hfb | rewrite Hfs]; vm_compute; reflexivity.
Defined.

Lemma zero_margin_final_price_witness :
  num_eqb (getFinalPrice
             (construct (created_row Gold 21
                           (GoldController.create_data no_number (quote_body 1 251 262))
                           (Some 1) one_version)
                        (karat "Gold 24K")) "buy")
          (of_Z 251) = true.
Proof.
  apply (proj1 (zero_margin_final_price
                  (created_row Gold 21
                     (GoldController.create_data no_number (quote_body 1 251 262))
                     (Some 1) one_version)
                  (karat "Gold 24K") eq_refl eq_refl)).
  reflexivity.
Defined.
